(** * Light tracing sample generator (appleseed): a shallow embedding

    Source: src/appleseed/renderer/kernel/lighting/lighttracing/
            lighttracingsamplegenerator.cpp

    The file embeds the class [LightTracingSampleGenerator], its nested
    [Parameters] and [PathVisitor] structures, the functions that build
    and trace light particles, and the generator's factory.  Numbers are the machine's:
    [float] and [double] are IEEE 754 binary32 and binary64 values
    (Rocq's [SpecFloat] specification), [size_t] and [uint64] are
    integers modulo [2^64].  Classes of the renderer that the file only
    uses through their interface (camera, tracer, BSDF, EDF, lights,
    sampling context, spectrum, path tracer engine, ...) are collected
    in the interfaces [Types], [Foundation] and [Scene]. *)

From Stdlib Require Import ZArith Bool List Lia.
From Stdlib Require Import Floats.SpecFloat.
From Stdlib Require DecimalString.
From stdpp Require Import base gmap strings list.

Open Scope Z_scope.

(* ===================================================================== *)
(** * Machine numbers                                                     *)
(* ===================================================================== *)

Module SizeT.

(** [size_t] and [uint64] on the 64-bit targets the renderer is built for. *)
Definition bits : Z := 64.
Definition modulus : Z := 2 ^ bits.

(** Conversion of a mathematical integer to the unsigned type. *)
Definition wrap (x : Z) : Z := x mod modulus.

(** [~0] is the [int] whose bits are all set, that is [-1]; stored into a
    [size_t] it converts to the largest value of the type. *)
Definition int_not_0 : Z := Z.lnot 0.
Definition all_ones : Z := wrap int_not_0.

(** [++x] and [x += y] on the unsigned type. *)
Definition incr (x : Z) : Z := wrap (x + 1).
Definition add (x y : Z) : Z := wrap (x + y).

Definition in_range (x : Z) : Prop := 0 <= x < modulus.

End SizeT.

(** C++ [float]: IEEE 754 binary32. *)
Module F32.

Definition prec : Z := 24.
Definition emax : Z := 128.

Definition zero : spec_float := S754_zero false.            (* 0.0f *)
Definition one : spec_float := S754_finite false 8388608 (-23).   (* 1.0f *)
Definition lit_0_001 : spec_float := S754_finite false 8589935 (-33). (* 0.001f *)
Definition pi : spec_float := S754_finite false 13176795 (-22).   (* Pi<float>() *)

Definition mul := SFmul prec emax.
Definition div := SFdiv prec emax.
Definition add := SFadd prec emax.
Definition sub := SFsub prec emax.
Definition opp := SFopp.
Definition sqrt := SFsqrt prec emax.

(** [x == y], [x < y], [x <= y]; every comparison with a NaN is false. *)
Definition eqb := SFeqb.
Definition ltb := SFltb.
Definition leb := SFleb.

(** [static_cast<float>(x)] of a [double]: rounding to nearest even. *)
Definition of_double (x : spec_float) : spec_float :=
  match x with
  | S754_finite s m e => binary_round prec emax s m e
  | _ => x
  end.

End F32.

(** C++ [double]: IEEE 754 binary64. *)
Module F64.

Definition prec : Z := 53.
Definition emax : Z := 1024.

Definition zero : spec_float := S754_zero false.            (* 0.0 *)

Definition mul := SFmul prec emax.
Definition div := SFdiv prec emax.
Definition add := SFadd prec emax.
Definition sub := SFsub prec emax.
Definition opp := SFopp.
Definition sqrt := SFsqrt prec emax.

Definition eqb := SFeqb.
Definition ltb := SFltb.
Definition leb := SFleb.

(** Implicit promotion of a [float] operand to [double] (exact). *)
Definition of_float (x : spec_float) : spec_float :=
  match x with
  | S754_finite s m e => binary_round prec emax s m e
  | _ => x
  end.

End F64.

Definition float : Type := spec_float.
Definition double : Type := spec_float.

Definition is_nan (x : spec_float) : bool :=
  match x with S754_nan => true | _ => false end.

Definition is_finite (x : spec_float) : bool :=
  match x with S754_zero _ | S754_finite _ _ _ => true | _ => false end.

(** The sign bit is clear (a NaN has none): [+0], a positive number or
    [+inf], or a NaN. *)
Definition sign_clear (x : spec_float) : bool :=
  match x with
  | S754_zero s | S754_infinity s | S754_finite s _ _ => negb s
  | S754_nan => true
  end.

(** [!(x < 0)]: a zero of either sign, a positive number or [+inf], or a
    NaN. *)
Definition not_negative (x : spec_float) : bool :=
  negb (SFltb x (S754_zero false)).

(* ===================================================================== *)
(** * Vectors and colors (foundation/math/vector.h, foundation/image/color.h) *)
(* ===================================================================== *)

(** Modelled from the spec: the vector and color headers are not among the
    sources.  The spec speaks of a "2D normalized-device-coordinate
    position", an "RGB radiance triple", the "dot of shading normal with
    the direction toward the camera" and the "direction length"; vectors
    are records of their components and the operations are the
    componentwise ones, evaluated in the component type. *)
Record Vector2 := mkVector2 { v2_x : spec_float; v2_y : spec_float }.
Record Vector3 := mkVector3 { v3_x : spec_float; v3_y : spec_float; v3_z : spec_float }.
Record Vector4 := mkVector4
  { v4_0 : spec_float; v4_1 : spec_float; v4_2 : spec_float; v4_3 : spec_float }.
Record Color3f := mkColor3f { c_r : float; c_g : float; c_b : float }.

Definition Vector2d : Type := Vector2.
Definition Vector2f : Type := Vector2.
Definition Vector3d : Type := Vector3.
Definition Vector3f : Type := Vector3.
Definition Vector4f : Type := Vector4.

Module V3d.
Definition neg (v : Vector3d) : Vector3d :=
  mkVector3 (F64.opp (v3_x v)) (F64.opp (v3_y v)) (F64.opp (v3_z v)).
Definition add (a b : Vector3d) : Vector3d :=
  mkVector3 (F64.add (v3_x a) (v3_x b)) (F64.add (v3_y a) (v3_y b)) (F64.add (v3_z a) (v3_z b)).
Definition sub (a b : Vector3d) : Vector3d :=
  mkVector3 (F64.sub (v3_x a) (v3_x b)) (F64.sub (v3_y a) (v3_y b)) (F64.sub (v3_z a) (v3_z b)).
(** [s * v] *)
Definition scale (s : double) (v : Vector3d) : Vector3d :=
  mkVector3 (F64.mul s (v3_x v)) (F64.mul s (v3_y v)) (F64.mul s (v3_z v)).
(** [v /= s] *)
Definition div (v : Vector3d) (s : double) : Vector3d :=
  mkVector3 (F64.div (v3_x v) s) (F64.div (v3_y v) s) (F64.div (v3_z v) s).
Definition dot (a b : Vector3d) : double :=
  F64.add (F64.add (F64.mul (v3_x a) (v3_x b)) (F64.mul (v3_y a) (v3_y b)))
          (F64.mul (v3_z a) (v3_z b)).
Definition norm (v : Vector3d) : double := F64.sqrt (dot v v).
(** [Vector3d(v)] for a [Vector3f] [v]. *)
Definition of_3f (v : Vector3f) : Vector3d :=
  mkVector3 (F64.of_float (v3_x v)) (F64.of_float (v3_y v)) (F64.of_float (v3_z v)).
(** [flip_to_same_hemisphere(v, ref)] *)
Definition flip_to_same_hemisphere (v ref : Vector3d) : Vector3d :=
  if F64.ltb (dot v ref) F64.zero then neg v else v.
End V3d.

Module V3f.
Definition neg (v : Vector3f) : Vector3f :=
  mkVector3 (F32.opp (v3_x v)) (F32.opp (v3_y v)) (F32.opp (v3_z v)).
Definition dot (a b : Vector3f) : float :=
  F32.add (F32.add (F32.mul (v3_x a) (v3_x b)) (F32.mul (v3_y a) (v3_y b)))
          (F32.mul (v3_z a) (v3_z b)).
(** [Vector3f(v)] for a [Vector3d] [v]. *)
Definition of_3d (v : Vector3d) : Vector3f :=
  mkVector3 (F32.of_double (v3_x v)) (F32.of_double (v3_y v)) (F32.of_double (v3_z v)).
End V3f.

Module V2d.
(** [s * v] *)
Definition scale (s : double) (v : Vector2d) : Vector2d :=
  mkVector2 (F64.mul s (v2_x v)) (F64.mul s (v2_y v)).
End V2d.

Module V2f.
(** [Vector2f(v)] for a [Vector2d] [v]. *)
Definition of_2d (v : Vector2d) : Vector2f :=
  mkVector2 (F32.of_double (v2_x v)) (F32.of_double (v2_y v)).
End V2f.

(** [square(x)] on [float]. *)
Definition square_f (x : float) : float := F32.mul x x.

(* ===================================================================== *)
(** * Construction parameters                                             *)
(* ===================================================================== *)

(** [SamplingContext::Mode] *)
Inductive SamplingMode := QMCMode | RNGMode.

(** Modelled from the spec: [ParamArray] (renderer/utility/paramarray.h) is
    not among the sources.  The spec describes the configuration as "a
    flat set of named options consumed at construction time"; an option
    is a name bound to a value, and [get_optional<T>(name, default)]
    yields the bound value of type [T], or [default] when the name is not
    bound to one. *)
Inductive ParamValue :=
| PVBool (b : bool)
| PVFloat (f : float)
| PVSize (n : Z).

Definition get_optional_bool (params : gmap string ParamValue)
    (name : string) (default : bool) : bool :=
  match params !! name with
  | Some (PVBool b) => b
  | _ => default
  end.

Definition get_optional_float (params : gmap string ParamValue)
    (name : string) (default : float) : float :=
  match params !! name with
  | Some (PVFloat f) => f
  | _ => default
  end.

Definition get_optional_size_t (params : gmap string ParamValue)
    (name : string) (default : Z) : Z :=
  match params !! name with
  | Some (PVSize n) => SizeT.wrap n
  | _ => default
  end.

(* ===================================================================== *)
(** * Scattering modes (renderer/kernel/lighting/scatteringmode.h)        *)
(* ===================================================================== *)

Module ScatteringMode.

(** Modelled from the spec: the header is not among the sources.  The spec
    names the modes of a scattering event: absorption, and the variants
    "diffuse, glossy, specular"; [has_glossy_or_specular] tells whether
    "the next mode is glossy or specular". *)
Inductive Mode := Absorption | Diffuse | Glossy | Specular.

Definition has_glossy_or_specular (mode : Mode) : bool :=
  match mode with
  | Glossy | Specular => true
  | Absorption | Diffuse => false
  end.

(** The set of all modes, as passed to [BSDF::evaluate]. *)
Definition All : list Mode := [Diffuse; Glossy; Specular].

Definition eqb (a b : Mode) : bool :=
  match a, b with
  | Absorption, Absorption | Diffuse, Diffuse
  | Glossy, Glossy | Specular, Specular => true
  | _, _ => false
  end.

End ScatteringMode.

(* ===================================================================== *)
(** * Renderer data and interfaces used by the generator                  *)
(* ===================================================================== *)

(** Types declared in headers that are not among the sources, taken as
    parameters: the generator only moves their values around. *)
Class Types := {
  RNGType : Type;               (* SamplingContext::RNGType *)
  SamplingContext : Type;
  Spectrum : Type;
  LightingConditions : Type;
  ShadingPoint : Type;
  ShaderGroup : Type;
  EDFInputs : Type;             (* result of EDF::evaluate_inputs *)
  BSDFInputs : Type;            (* PathVertex::m_bsdf_data *)
  LightTransform : Type;        (* LightSample::m_light_transform *)
  Population : Type;            (* Population<uint64> *)
  Arena : Type;
  SampleGeneratorBase : Type;   (* members of the base class *)
  AbortSwitch : Type
}.

(** [VisibilityFlags::CameraRay], [VisibilityFlags::LightRay] *)
Inductive VisibilityFlags := CameraRay | LightRay.

(** Modelled from the spec: [ShadingRay::Time] (shadingray.h) is not
    among the sources.  The spec gives a vertex a "timestamp (for motion
    blur)" and samples the time of a ray "uniformly over the camera's
    shutter interval"; the source reads [m_absolute] and builds times
    with [create_with_normalized_time]. *)
Record Time := mkTime { m_absolute : float; m_normalized : float }.

(** Modelled from the spec: [ShadingRay] (shadingray.h) is not among the
    sources.  The "light ray" of the spec, as the source constructs it:
    origin, direction, time, visibility flags and depth. *)
Record ShadingRay := mkShadingRay {
  m_org : Vector3d;
  m_dir : Vector3d;
  m_time : Time;
  m_flags : VisibilityFlags;
  m_depth : Z
}.

(** Modelled from the spec: [Basis3d] and [Basis3f] (basis.h) are not
    among the sources.  The "tangent basis" of the spec, through the
    three accessors the source calls. *)
Record Basis3 := mkBasis3 {
  get_normal : Vector3;
  get_tangent_u : Vector3;
  get_tangent_v : Vector3
}.

(** [Basis3f(b)] for a [Basis3d] [b]. *)
Definition Basis3f_of_3d (b : Basis3) : Basis3 :=
  mkBasis3 (V3f.of_3d (get_normal b)) (V3f.of_3d (get_tangent_u b))
           (V3f.of_3d (get_tangent_v b)).

(** Modelled from the spec: [Sample] (sample.h) is not among the
    sources.  The spec's Sample is a "2D normalized-device-coordinate
    position, an RGB radiance triple, an alpha channel fixed at 1.0, and
    a scalar distance-to-camera channel"; the source writes them to
    [m_position] and to [m_values[0..2]], [m_values[3]] and
    [m_values[4]]. *)
Record Sample := mkSample {
  m_position : Vector2f;
  m_values : list float
}.

Definition SampleVector : Type := list Sample.

(** Modelled from the spec: the accumulation buffers are not among the
    sources.  The spec's Accumulation Buffer offers "merge(sample_batch)"
    and "increment_processed_count(n)"; a buffer is represented by the
    calls it has received, oldest first. *)
Inductive BufferCall :=
| store_samples (samples : SampleVector)
| increment_sample_count (delta_sample_count : Z).

Definition SampleAccumulationBuffer : Type := list BufferCall.

(** Modelled from the spec: the logger (renderer/global/globallogger.h)
    is not among the sources.  A message handed to [RENDERER_LOG_INFO]
    is kept as the lines of its format and the arguments that fill its
    [%s] places, in order. *)
Record LogMessage := mkLogMessage {
  log_format : list string;
  log_arguments : list string
}.

Module Renderer.

Section RendererData.
Context {Ty : Types}.

(** Modelled from the spec: [BSDF] (bsdf.h) is not among the sources.
    The spec's scattering capability, "evaluate(...) -> (value,
    probability)", through the one method the generator calls:
    [evaluate(data, adjoint, cosine_mult, geometric_normal, shading_basis,
    outgoing, incoming, modes, value)] returns the probability density
    and sets [value]. *)
Record BSDF := mkBSDF {
  bsdf_evaluate :
    BSDFInputs -> bool -> bool -> Vector3f -> Basis3 -> Vector3f -> Vector3f ->
    list ScatteringMode.Mode -> float * Spectrum
}.

(** Modelled from the spec: [EDF] (edf.h) is not among the sources.  The
    spec's emission capability, "sample(...) -> (direction, value,
    probability)", with the two other methods the source calls. *)
Record EDF := mkEDF {
  edf_evaluate_inputs : ShadingPoint -> EDFInputs;
  edf_sample :
    SamplingContext -> EDFInputs -> Vector3f -> Basis3 -> Vector2f ->
    (Vector3f * Spectrum * float) * SamplingContext;
  edf_get_light_near_start : double
}.

(** Modelled from the spec: [Light] (light.h) is not among the sources.
    A non-physical light, sampled "for position, direction, value, and
    probability". *)
Record Light := mkLight {
  light_sample_fn :
    LightTransform -> Vector2d -> Vector3d * Vector3d * Spectrum * float
}.

(** Modelled from the spec: [EnvironmentEDF] (environmentedf.h) is not
    among the sources.  The environment emission model, sampled for its
    "direction/value/probability". *)
Record EnvironmentEDF := mkEnvironmentEDF {
  env_edf_sample : Vector2f -> Vector3f * Spectrum * float
}.

(** Modelled from the spec: [Material::RenderData] (material.h) is not
    among the sources; the two members the source reads: the shader
    group of the "procedural emission shading", if any, and the EDF. *)
Record MaterialRenderData := mkMaterialRenderData {
  m_shader_group : option ShaderGroup;
  m_edf : EDF
}.

(** Modelled from the spec: [EmittingTriangle] (lightsampler.h) is not
    among the sources.  The "emitting surface patch" of the spec, with
    the render data of its material. *)
Record EmittingTriangle := mkEmittingTriangle {
  m_material : MaterialRenderData
}.

(** Modelled from the spec: [LightSample] (lightsampler.h) is not among
    the sources.  The spec's LightSample "holds a world-space point,
    geometric/shading normals (for area lights), an emitter reference
    (either an emitting surface patch or a non-physical/point-like
    light), a selection-probability density"; [m_triangle] is [None]
    for a non-physical light, whose [m_light] is then the light to
    sample. *)
Record LightSample := mkLightSample {
  m_triangle : option EmittingTriangle;
  m_point : Vector3d;
  m_shading_normal : Vector3d;
  m_geometric_normal : Vector3d;
  m_light : Light;
  m_light_transform : LightTransform;
  m_probability : float
}.

(** Modelled from the spec: [PathVertex] (pathvertex.h) is not among the
    sources.  The spec's PathVertex has a "world position,
    shading/geometric normals and basis, outgoing direction", "the
    shading capability used there (or none), an accumulated throughput",
    the "current path length, and timestamp"; the fields are the
    accessors and members the visitor reads. *)
Record PathVertex := mkPathVertex {
  get_time : Time;
  get_point : Vector3d;
  get_shading_normal : Vector3d;
  get_geometric_normal : Vector3d;
  get_shading_basis : Basis3;
  m_bsdf : option BSDF;
  m_bsdf_data : BSDFInputs;
  m_outgoing : Vector3d;
  m_throughput : Spectrum;
  m_path_length : Z
}.

(** Modelled from the spec: [SampleGeneratorBase] is not among the
    sources.  The spec has an "outer scheduler" that "invokes a Sample
    Generator instance with a sequence index", polls the abort signal
    "between units of work", and a generator that "reports the list to
    the Accumulation Buffer".  A batch of the base class is therefore a
    finite run of units of work, each a call of the per-sequence entry
    point whose returned count the base class sees, ended by the calls
    it makes on the buffer with the collected samples. *)
Inductive BatchDriver :=
| BatchDone (base : SampleGeneratorBase)
            (report : SampleVector -> list BufferCall)
| BatchUnit (sequence_index : Z) (k : Z -> BatchDriver).

(** Modelled from the spec: what the engine gets when it queries "the
    scattering capability at the hit for an outgoing direction and
    probability", with the mode of the event. *)
Record ScatteringSample := mkScatteringSample {
  ss_mode : ScatteringMode.Mode;
  ss_probability : float;
  ss_value : Spectrum;
  ss_incoming : Vector3d
}.

(** Modelled from the spec: [Statistics] and [StatisticsVector]
    (foundation/utility/statistics.h) are not among the sources.  The
    spec's statistics are "running aggregates - total particle count and
    a distribution (population) of realized path lengths"; a
    [Statistics] object is the list of the named values inserted into
    it, in order, and [StatisticsVector::make] gives it a title. *)
Inductive StatisticsValue :=
| CounterValue (n : Z)
| PopulationValue (p : Population).

Record StatisticsVector := mkStatisticsVector {
  sv_title : string;
  sv_entries : list (string * StatisticsValue)
}.

End RendererData.

End Renderer.

Import Renderer.

(** Operations of the foundation and renderer libraries on these types,
    taken as parameters: none of them is among the sources. *)
Class Foundation {Ty : Types} := {
  (* Spectrum *)
  spectrum_set : float -> Spectrum;                        (* s.set(x) *)
  spectrum_mul : Spectrum -> Spectrum -> Spectrum;         (* s *= t *)
  spectrum_mul_scalar : Spectrum -> float -> Spectrum;     (* s *= x *)
  spectrum_div_scalar : Spectrum -> float -> Spectrum;     (* s /= x *)
  min_value : Spectrum -> float;
  is_rgb : Spectrum -> bool;
  rgb : Spectrum -> Color3f;
  convert_to_rgb : Spectrum -> LightingConditions -> Color3f;
  (* SamplingContext and its generator *)
  RNGType_ctor : RNGType;
  SamplingContext_ctor : RNGType -> SamplingMode -> Z -> Z -> Z -> SamplingContext;
  SamplingContext_rng : SamplingContext -> RNGType;
  split_in_place : SamplingContext -> Z -> Z -> SamplingContext;
  next2_float : SamplingContext -> float * SamplingContext;
  next2_Vector2f : SamplingContext -> Vector2f * SamplingContext;
  next2_Vector2d : SamplingContext -> Vector2d * SamplingContext;
  next2_Vector4f : SamplingContext -> Vector4f * SamplingContext;
  (* mappings, bases, times *)
  sample_disk_uniform : Vector2d -> Vector2d;
  Basis3d_ctor : Vector3d -> Basis3;
  Basis3f_ctor : Vector3f -> Basis3;
  create_with_normalized_time : float -> float -> float -> Time;
  DepthType_cast : Z -> Z;      (* static_cast<ShadingRay::DepthType>(n) *)
  (* utilities *)
  Population_ctor : Population;
  population_insert : Population -> Z -> Population;
  Arena_ctor : Arena;
  arena_clear : Arena -> Arena;
  get_sampling_context_mode : gmap string ParamValue -> SamplingMode;
  (* SampleGeneratorBase *)
  SampleGeneratorBase_ctor : Z -> Z -> SampleGeneratorBase;
  SampleGeneratorBase_reset : SampleGeneratorBase -> SampleGeneratorBase;
  SampleGeneratorBase_driver : SampleGeneratorBase -> Z -> AbortSwitch -> BatchDriver
}.

(** The project a generator is created for, taken as a parameter: scene,
    camera, frame, light sampler, tracer and intersector, each through
    the calls made on it. *)
Class Scene {Ty : Types} := {
  (* Scene::RenderData *)
  scene_center : Vector3d;
  scene_radius : double;
  scene_safe_diameter : double;
  (* Scene::get_environment()->get_environment_edf() *)
  get_environment_edf : option EnvironmentEDF;
  (* Camera *)
  get_shutter_open_time : float;
  get_shutter_close_time : float;
  connect_vertex :
    SamplingContext -> float -> Vector3d ->
    option (Vector2d * Vector3d * float) * SamplingContext;
  (* Frame *)
  get_lighting_conditions : LightingConditions;
  (* LightSampler *)
  has_lights_or_emitting_triangles : bool;
  light_sampler_sample : Time -> Vector3f -> LightSample;
  (* LightSample::make_shading_point, ShadingContext::execute_osl_emission *)
  make_shading_point : LightSample -> Vector3d -> ShadingPoint;
  execute_osl_emission : ShaderGroup -> ShadingPoint -> ShadingPoint;
  (* Tracer *)
  trace_between : Vector3d -> Vector3d -> Time -> VisibilityFlags -> Z -> float;
  (* Intersector and shading, as the path tracer engine uses them *)
  intersector_trace : ShadingRay -> option ShadingPoint -> ShadingPoint;
  shading_point_hit : ShadingPoint -> bool;
  vertex_at : ShadingPoint -> ShadingRay -> PathVertex;
  sample_scattering :
    SamplingContext -> PathVertex -> ScatteringSample * SamplingContext;
  scattered_throughput : Spectrum -> ScatteringSample -> Spectrum;
  scattered_ray : PathVertex -> ScatteringSample -> ShadingRay;
  russian_roulette :
    SamplingContext -> Spectrum -> option float * SamplingContext;
  initial_scattering_mode : ScatteringMode.Mode
}.

(* ===================================================================== *)
(** * Path tracer engine (renderer/kernel/lighting/pathtracer.h)          *)
(* ===================================================================== *)

Module PathTracer.

(** Modelled from the spec: the engine's header is not among the sources.
    The engine is "parameterized by: a visitor", the callback set of
    section 4.3 that it calls. *)
Class Visitor {Ty : Types} (V : Type) := {
  accept_scattering : V -> ScatteringMode.Mode -> ScatteringMode.Mode -> bool;
  visit_vertex : V -> SamplingContext -> PathVertex -> V * SamplingContext;
  visit_environment : V -> PathVertex -> V
}.

Section Engine.
Context {Ty : Types} {Fo : Foundation} {Sc : Scene}.
Context {V : Type} {PV : Visitor V}.

(** Modelled from the spec: the engine's other parameters, "a minimum
    path length before Russian-roulette kicks in, a maximum path length
    (unbounded if configured as such), and a maximum iteration count";
    the source also passes the near start distance of an EDF. *)
Record PathTracer := mkPathTracer {
  m_rr_min_path_length : Z;
  m_max_path_length : Z;
  m_max_iterations : Z;
  m_near_start : double
}.

(** Modelled from the spec: "if hit, build a PathVertex".  The vertex
    handed to the visitor has the surface data at the hit, with the
    throughput and the path length the walk has accumulated. *)
Definition build_vertex (shading_point : ShadingPoint) (ray : ShadingRay)
    (throughput : Spectrum) (path_length : Z) : PathVertex :=
  let v := vertex_at shading_point ray in
  {| get_time := get_time v;
     get_point := get_point v;
     get_shading_normal := get_shading_normal v;
     get_geometric_normal := get_geometric_normal v;
     get_shading_basis := get_shading_basis v;
     m_bsdf := m_bsdf v;
     m_bsdf_data := m_bsdf_data v;
     m_outgoing := m_outgoing v;
     m_throughput := throughput;
     m_path_length := path_length |}.

(** Modelled from the spec: Russian roulette "once path length >= the
    configured minimum": [None] when the path is killed, the throughput
    divided by the survival probability when it survives. *)
Definition apply_russian_roulette (pt : PathTracer) (sc : SamplingContext)
    (throughput : Spectrum) (path_length : Z)
  : option Spectrum * SamplingContext :=
  if m_rr_min_path_length pt <=? path_length then
    match russian_roulette sc throughput with
    | (Some probability, sc') =>
        (Some (spectrum_div_scalar throughput probability), sc')
    | (None, sc') => (None, sc')
    end
  else (Some throughput, sc).

(** Modelled from the spec: the engine's header is not among the sources.
    One step of the state machine of section 4.2, in its order: intersect
    the scene; on no hit call the environment-escape callback and stop
    (escaped); on a hit build the vertex and call the per-vertex
    callback; sample the scattering capability and stop on zero
    probability or absorption (absorbed); ask the visitor to accept the
    mode transition and stop when it refuses (rejected); apply Russian
    roulette and stop when killed; increment the path length and
    continue unless the maximum path length is reached.  [fuel] is the
    iteration safety bound.  The walk returns the realized path length. *)
Fixpoint walk (pt : PathTracer) (fuel : nat) (visitor : V)
    (sc : SamplingContext) (ray : ShadingRay) (parent : option ShadingPoint)
    (throughput : Spectrum) (prev_mode : ScatteringMode.Mode)
    (path_length : Z) {struct fuel} : Z * V * SamplingContext :=
  match fuel with
  | O => (path_length, visitor, sc)
  | Datatypes.S fuel' =>
    let shading_point := intersector_trace ray parent in
    let vertex := build_vertex shading_point ray throughput path_length in
    if negb (shading_point_hit shading_point) then
      (path_length, visit_environment visitor vertex, sc)
    else
      let '(visitor, sc) := visit_vertex visitor sc vertex in
      let '(scattering, sc) := sample_scattering sc vertex in
      if F32.eqb (ss_probability scattering) F32.zero
         || ScatteringMode.eqb (ss_mode scattering) ScatteringMode.Absorption
      then (path_length, visitor, sc)
      else if negb (accept_scattering visitor prev_mode (ss_mode scattering))
      then (path_length, visitor, sc)
      else
        match apply_russian_roulette pt sc
                (scattered_throughput throughput scattering) path_length with
        | (None, sc) => (path_length, visitor, sc)
        | (Some throughput, sc) =>
          let path_length := SizeT.incr path_length in
          if m_max_path_length pt <=? path_length
          then (path_length, visitor, sc)
          else walk pt fuel' visitor sc (scattered_ray vertex scattering)
                    (Some shading_point) throughput (ss_mode scattering)
                    path_length
        end
  end.

(** Modelled from the spec: [trace(sampling_context, shading_context,
    ray, parent_shading_point)] is the walk from the seed ray, with unit
    throughput and path length 0, bounded by [max_iterations] steps; it
    "returns the realized path length (0 if the particle immediately
    escaped or was absorbed at the first step)". *)
Definition trace (pt : PathTracer) (visitor : V) (sc : SamplingContext)
    (ray : ShadingRay) (parent : option ShadingPoint)
  : Z * V * SamplingContext :=
  walk pt (Z.to_nat (m_max_iterations pt)) visitor sc ray parent
       (spectrum_set F32.one) initial_scattering_mode 0.

End Engine.

End PathTracer.

(* ===================================================================== *)
(** * The generator                                                       *)
(* ===================================================================== *)

Module LightTracingSampleGenerator.

(** [struct Parameters] *)
Record Parameters := mkParameters {
  m_sampling_mode : SamplingMode;
  m_enable_ibl : bool;
  m_enable_caustics : bool;
  m_transparency_threshold : float;
  m_max_iterations : Z;
  m_report_self_intersections : bool;
  m_max_path_length : Z;
  m_rr_min_path_length : Z
}.

(** [static size_t nz(const size_t x) { return x == 0 ? ~0 : x; }] *)
Definition nz (x : Z) : Z :=
  if x =? 0 then SizeT.all_ones else x.

Section ParametersCtor.

(** [get_sampling_context_mode] (renderer/utility/settingsparsing.h). *)
Variable get_sampling_context_mode : gmap string ParamValue -> SamplingMode.

(** [explicit Parameters(const ParamArray& params)] *)
Definition Parameters_ctor (params : gmap string ParamValue) : Parameters :=
  {| m_sampling_mode := get_sampling_context_mode params;
     m_enable_ibl := get_optional_bool params "enable_ibl" true;
     m_enable_caustics := get_optional_bool params "enable_caustics" true;
     m_transparency_threshold :=
       get_optional_float params "transparency_threshold" F32.lit_0_001;
     m_max_iterations := get_optional_size_t params "max_iterations" 1000;
     m_report_self_intersections :=
       get_optional_bool params "report_self_intersections" false;
     m_max_path_length := nz (get_optional_size_t params "max_path_length" 0);
     m_rr_min_path_length := nz (get_optional_size_t params "rr_min_path_length" 3) |}.

End ParametersCtor.

Section ParametersPrint.

(** [pretty_uint] (foundation/utility/string.h). *)
Variable pretty_uint : Z -> string.

(** [void print() const]: the message logged. *)
Definition print (p : Parameters) : LogMessage :=
  {| log_format :=
       ["light tracing settings:";
        "  ibl              %s";
        "  caustics         %s";
        "  max path length  %s";
        "  rr min path len. %s"];
     log_arguments :=
       [if m_enable_ibl p then "on" else "off";
        if m_enable_caustics p then "on" else "off";
        if m_max_path_length p =? SizeT.wrap SizeT.int_not_0
        then "infinite" else pretty_uint (m_max_path_length p);
        if m_rr_min_path_length p =? SizeT.wrap SizeT.int_not_0
        then "infinite" else pretty_uint (m_rr_min_path_length p)] |}.

End ParametersPrint.



(* --------------------------------------------------------------------- *)
(** ** [struct PathVisitor]                                               *)
(* --------------------------------------------------------------------- *)

Module PathVisitor.

Section Visitor.
Context {Ty : Types} {Fo : Foundation} {Sc : Scene}.

(** The members that hold state or configuration.  The camera, the frame
    and the shading context are those of the scene; the sampling context,
    held by reference in the source, is passed to and returned by every
    function that draws from it.  [m_samples] is the caller's vector. *)
Record PathVisitor := mkPathVisitor {
  m_params : Parameters;
  m_lighting_conditions : LightingConditions;
  m_initial_flux : Spectrum;
  m_samples : SampleVector;
  m_sample_count : Z
}.

Definition ctor (params : Parameters) (samples : SampleVector)
    (initial_flux : Spectrum) : PathVisitor :=
  {| m_params := params;
     m_lighting_conditions := get_lighting_conditions;
     m_initial_flux := initial_flux;
     m_samples := samples;
     m_sample_count := 0 |}.

Definition get_sample_count (v : PathVisitor) : Z := m_sample_count v.

(** Precondition (assertion): [next_mode != ScatteringMode::Absorption]. *)
Definition accept_scattering (v : PathVisitor)
    (prev_mode next_mode : ScatteringMode.Mode) : bool :=
  if negb (m_enable_caustics (m_params v)) then
    if ScatteringMode.has_glossy_or_specular next_mode then false else true
  else true.

(** The assertion at the top of [emit_sample]:
    [min_value(radiance) >= 0.0f]. *)
Definition emit_sample_assertion (radiance : Spectrum) : bool :=
  F32.leb F32.zero (min_value radiance).

Definition emit_sample (v : PathVisitor) (position_ndc : Vector2d)
    (distance : double) (radiance : Spectrum) : PathVisitor :=
  let linear_rgb :=
    if is_rgb radiance then rgb radiance
    else convert_to_rgb radiance (m_lighting_conditions v) in
  let sample :=
    {| m_position := V2f.of_2d position_ndc;
       m_values := [c_r linear_rgb; c_g linear_rgb; c_b linear_rgb;
                    F32.one; F32.of_double distance] |} in
  {| m_params := m_params v;
     m_lighting_conditions := m_lighting_conditions v;
     m_initial_flux := m_initial_flux v;
     m_samples := m_samples v ++ [sample];
     m_sample_count := SizeT.incr (m_sample_count v) |}.

Definition visit_area_light_vertex (v : PathVisitor) (sc : SamplingContext)
    (light_sample : LightSample) (light_particle_flux : Spectrum)
    (time : Time) : PathVisitor * SamplingContext :=
  (* Connect the light vertex with the camera. *)
  match connect_vertex sc (m_absolute time) (m_point light_sample) with
  | (None, sc) => (v, sc)
  | (Some (sample_position, camera_outgoing, importance), sc) =>
    (* Reject vertices on the back side of the area light. *)
    let cos_alpha :=
      V3d.dot (V3d.neg camera_outgoing) (m_shading_normal light_sample) in
    if F64.leb cos_alpha F64.zero then (v, sc) else
    (* Compute the transmission factor between the light vertex and the camera. *)
    let transmission :=
      trace_between (V3d.sub (m_point light_sample) camera_outgoing)
                    (m_point light_sample) time CameraRay 0 in
    (* Ignore occluded vertices. *)
    if F32.eqb transmission F32.zero then (v, sc) else
    (* Adjust cos(alpha): the camera outgoing direction was not unit-length. *)
    let distance := V3d.norm camera_outgoing in
    let cos_alpha := F64.div cos_alpha distance in
    (* Store the contribution of this vertex. *)
    let radiance :=
      spectrum_mul_scalar light_particle_flux
        (F32.of_double
           (F64.mul (F64.mul (F64.of_float transmission) cos_alpha)
                    (F64.of_float importance))) in
    (emit_sample v sample_position distance radiance, sc)
  end.

Definition visit_non_physical_light_vertex (v : PathVisitor)
    (sc : SamplingContext) (light_vertex : Vector3d)
    (light_particle_flux : Spectrum) (time : Time)
  : PathVisitor * SamplingContext :=
  match connect_vertex sc (m_absolute time) light_vertex with
  | (None, sc) => (v, sc)
  | (Some (sample_position, camera_outgoing, importance), sc) =>
    let transmission :=
      trace_between (V3d.sub light_vertex camera_outgoing) light_vertex
                    time CameraRay 0 in
    if F32.eqb transmission F32.zero then (v, sc) else
    let radiance :=
      spectrum_mul_scalar light_particle_flux
                          (F32.mul transmission importance) in
    (emit_sample v sample_position (V3d.norm camera_outgoing) radiance, sc)
  end.

Definition visit_vertex (v : PathVisitor) (sc : SamplingContext)
    (vertex : PathVertex) : PathVisitor * SamplingContext :=
  (* Don't process this vertex if there is no BSDF. *)
  match m_bsdf vertex with
  | None => (v, sc)
  | Some bsdf =>
    (* Connect the path vertex with the camera. *)
    match connect_vertex sc (m_absolute (get_time vertex)) (get_point vertex) with
    | (None, sc) => (v, sc)
    | (Some (sample_position, camera_outgoing, importance), sc) =>
      (* Reject vertices on the back side of the shading surface. *)
      let shading_normal := get_shading_normal vertex in
      if F64.leb F64.zero (V3d.dot camera_outgoing shading_normal)
      then (v, sc) else
      (* Compute the transmission factor between the path vertex and the camera. *)
      let transmission :=
        trace_between (V3d.sub (get_point vertex) camera_outgoing)
                      (get_point vertex) (get_time vertex) CameraRay
                      (DepthType_cast (m_path_length vertex)) in
      (* Ignore occluded vertices. *)
      if F32.eqb transmission F32.zero then (v, sc) else
      (* Normalize the camera outgoing direction. *)
      let distance := V3d.norm camera_outgoing in
      let camera_outgoing := V3d.div camera_outgoing distance in
      (* Retrieve the geometric normal at the vertex. *)
      let geometric_normal :=
        V3d.flip_to_same_hemisphere (get_geometric_normal vertex)
                                    shading_normal in
      (* Evaluate the BSDF at the vertex position. *)
      let '(bsdf_prob, bsdf_value) :=
        bsdf_evaluate bsdf (m_bsdf_data vertex) true true
          (V3f.of_3d geometric_normal)
          (Basis3f_of_3d (get_shading_basis vertex))
          (V3f.of_3d (m_outgoing vertex))
          (V3f.neg (V3f.of_3d camera_outgoing))
          ScatteringMode.All in
      if F32.eqb bsdf_prob F32.zero then (v, sc) else
      (* Store the contribution of this vertex. *)
      let radiance := m_initial_flux v in
      let radiance := spectrum_mul radiance (m_throughput vertex) in
      let radiance := spectrum_mul radiance bsdf_value in
      let radiance :=
        spectrum_mul_scalar radiance (F32.mul transmission importance) in
      (emit_sample v sample_position distance radiance, sc)
    end
  end.

(** The particle escapes. *)
Definition visit_environment (v : PathVisitor) (vertex : PathVertex)
  : PathVisitor := v.

(** [PathTracer<PathVisitor, true>]: the engine instantiated with this
    visitor. *)
#[global] Instance path_visitor : PathTracer.Visitor PathVisitor :=
  {| PathTracer.accept_scattering := accept_scattering;
     PathTracer.visit_vertex := visit_vertex;
     PathTracer.visit_environment := visit_environment |}.

End Visitor.

End PathVisitor.

(* --------------------------------------------------------------------- *)
(** ** The generator's members and member functions                       *)
(* --------------------------------------------------------------------- *)

Section Generator.
Context {Ty : Types} {Fo : Foundation} {Sc : Scene}.

Record Generator := mkGenerator {
  m_base : SampleGeneratorBase;
  m_params : Parameters;
  m_scene_center : Vector3d;
  m_scene_radius : double;
  m_safe_scene_diameter : double;
  m_disk_point_prob : float;
  m_arena : Arena;
  m_rng : RNGType;
  m_light_sample_count : Z;
  m_path_count : Z;
  m_path_length : Population;
  m_shutter_open_time : float;
  m_shutter_close_time : float
}.

(** The constructor. *)
Definition ctor (generator_index generator_count : Z)
    (params : gmap string ParamValue) : Generator :=
  {| m_base := SampleGeneratorBase_ctor generator_index generator_count;
     m_params := Parameters_ctor get_sampling_context_mode params;
     m_scene_center := scene_center;
     m_scene_radius := scene_radius;
     m_safe_scene_diameter := scene_safe_diameter;
     m_disk_point_prob :=
       F32.div F32.one
               (F32.mul F32.pi (square_f (F32.of_double scene_radius)));
     m_arena := Arena_ctor;
     m_rng := RNGType_ctor;
     m_light_sample_count := 0;
     m_path_count := 0;
     m_path_length := Population_ctor;
     m_shutter_open_time := get_shutter_open_time;
     m_shutter_close_time := get_shutter_close_time |}.

Definition set_base (g : Generator) (base : SampleGeneratorBase) : Generator :=
  mkGenerator base (m_params g) (m_scene_center g) (m_scene_radius g)
    (m_safe_scene_diameter g) (m_disk_point_prob g) (m_arena g) (m_rng g)
    (m_light_sample_count g) (m_path_count g) (m_path_length g)
    (m_shutter_open_time g) (m_shutter_close_time g).

Definition set_arena (g : Generator) (arena : Arena) : Generator :=
  mkGenerator (m_base g) (m_params g) (m_scene_center g) (m_scene_radius g)
    (m_safe_scene_diameter g) (m_disk_point_prob g) arena (m_rng g)
    (m_light_sample_count g) (m_path_count g) (m_path_length g)
    (m_shutter_open_time g) (m_shutter_close_time g).

Definition set_rng (g : Generator) (rng : RNGType) : Generator :=
  mkGenerator (m_base g) (m_params g) (m_scene_center g) (m_scene_radius g)
    (m_safe_scene_diameter g) (m_disk_point_prob g) (m_arena g) rng
    (m_light_sample_count g) (m_path_count g) (m_path_length g)
    (m_shutter_open_time g) (m_shutter_close_time g).

Definition set_light_sample_count (g : Generator) (n : Z) : Generator :=
  mkGenerator (m_base g) (m_params g) (m_scene_center g) (m_scene_radius g)
    (m_safe_scene_diameter g) (m_disk_point_prob g) (m_arena g) (m_rng g)
    n (m_path_count g) (m_path_length g)
    (m_shutter_open_time g) (m_shutter_close_time g).

(** [++m_path_count; m_path_length.insert(path_length);] *)
Definition update_path_statistics (g : Generator) (path_length : Z)
  : Generator :=
  mkGenerator (m_base g) (m_params g) (m_scene_center g) (m_scene_radius g)
    (m_safe_scene_diameter g) (m_disk_point_prob g) (m_arena g) (m_rng g)
    (m_light_sample_count g) (SizeT.incr (m_path_count g))
    (population_insert (m_path_length g) path_length)
    (m_shutter_open_time g) (m_shutter_close_time g).

(** [virtual void reset()] *)
Definition reset (g : Generator) : Generator :=
  set_rng (set_base g (SampleGeneratorBase_reset (m_base g))) RNGType_ctor.

(** The path tracer built for a particle. *)
Definition make_path_tracer (g : Generator) (near_start : double)
  : PathTracer.PathTracer :=
  PathTracer.mkPathTracer
    (m_rr_min_path_length (m_params g))
    (m_max_path_length (m_params g))
    (m_max_iterations (m_params g))
    near_start.

(** [light_sample.m_triangle] is passed as [triangle]. *)
Definition generate_emitting_triangle_sample (g : Generator)
    (sc : SamplingContext) (light_sample : LightSample)
    (triangle : EmittingTriangle) (samples : SampleVector)
  : Z * Generator * SamplingContext * SampleVector :=
  (* Make sure the geometric normal of the light sample is in the same
     hemisphere as the shading normal. *)
  let light_sample :=
    mkLightSample (m_triangle light_sample) (m_point light_sample)
      (m_shading_normal light_sample)
      (V3d.flip_to_same_hemisphere (m_geometric_normal light_sample)
                                   (m_shading_normal light_sample))
      (m_light light_sample) (m_light_transform light_sample)
      (m_probability light_sample) in
  let material_data := m_material triangle in
  (* Build a shading point on the light source. *)
  let light_shading_point :=
    make_shading_point light_sample (m_shading_normal light_sample) in
  let light_shading_point :=
    match m_shader_group material_data with
    | Some shader_group => execute_osl_emission shader_group light_shading_point
    | None => light_shading_point
    end in
  (* Sample the EDF. *)
  let sc := split_in_place sc 2 1 in
  let '(s, sc) := next2_Vector2f sc in
  let '(emission_direction, edf_value, edf_prob, sc) :=
    edf_sample (m_edf material_data) sc
      (edf_evaluate_inputs (m_edf material_data) light_shading_point)
      (V3f.of_3d (m_geometric_normal light_sample))
      (Basis3f_ctor (V3f.of_3d (m_shading_normal light_sample)))
      s in
  (* Compute the initial particle weight. *)
  let initial_flux :=
    spectrum_mul_scalar edf_value
      (F32.div
         (V3f.dot emission_direction (V3f.of_3d (m_shading_normal light_sample)))
         (F32.mul (m_probability light_sample) edf_prob)) in
  (* Make a shading point that will be used to avoid self-intersections. *)
  let parent_shading_point :=
    make_shading_point light_sample (V3d.of_3f emission_direction) in
  (* Build the light ray. *)
  let sc := split_in_place sc 1 1 in
  let '(t, sc) := next2_float sc in
  let time :=
    create_with_normalized_time t (m_shutter_open_time g)
                                (m_shutter_close_time g) in
  let light_ray :=
    mkShadingRay (m_point light_sample) (V3d.of_3f emission_direction)
                 time LightRay 0 in
  (* Build the path tracer. *)
  let path_visitor := PathVisitor.ctor (m_params g) samples initial_flux in
  let path_tracer :=
    make_path_tracer g (edf_get_light_near_start (m_edf material_data)) in
  (* Handle the light vertex separately. *)
  let light_particle_flux :=
    spectrum_div_scalar edf_value (m_probability light_sample) in
  let '(path_visitor, sc) :=
    PathVisitor.visit_area_light_vertex path_visitor sc light_sample
      light_particle_flux (m_time light_ray) in
  (* Trace the light path. *)
  let '(path_length, path_visitor, sc) :=
    PathTracer.trace path_tracer path_visitor sc light_ray
                     (Some parent_shading_point) in
  (* Update path statistics. *)
  let g := update_path_statistics g path_length in
  (PathVisitor.get_sample_count path_visitor, g, sc,
   PathVisitor.m_samples path_visitor).

Definition generate_non_physical_light_sample (g : Generator)
    (sc : SamplingContext) (light_sample : LightSample)
    (samples : SampleVector)
  : Z * Generator * SamplingContext * SampleVector :=
  (* Sample the light. *)
  let sc := split_in_place sc 2 1 in
  let '(s, sc) := next2_Vector2d sc in
  let '(emission_position, emission_direction, light_value, light_prob) :=
    light_sample_fn (m_light light_sample) (m_light_transform light_sample) s in
  (* Compute the initial particle weight. *)
  let initial_flux :=
    spectrum_div_scalar light_value
      (F32.mul (m_probability light_sample) light_prob) in
  (* Build the light ray. *)
  let sc := split_in_place sc 1 1 in
  let '(t, sc) := next2_float sc in
  let time :=
    create_with_normalized_time t (m_shutter_open_time g)
                                (m_shutter_close_time g) in
  let light_ray :=
    mkShadingRay emission_position emission_direction time LightRay 0 in
  (* Build the path tracer. *)
  let path_visitor := PathVisitor.ctor (m_params g) samples initial_flux in
  let path_tracer := make_path_tracer g F64.zero in
  (* Handle the light vertex separately. *)
  let light_particle_flux :=
    spectrum_div_scalar light_value (m_probability light_sample) in
  let '(path_visitor, sc) :=
    PathVisitor.visit_non_physical_light_vertex path_visitor sc
      emission_position light_particle_flux (m_time light_ray) in
  (* Trace the light path. *)
  let '(path_length, path_visitor, sc) :=
    PathTracer.trace path_tracer path_visitor sc light_ray None in
  (* Update path statistics. *)
  let g := update_path_statistics g path_length in
  (PathVisitor.get_sample_count path_visitor, g, sc,
   PathVisitor.m_samples path_visitor).

Definition generate_light_sample (g : Generator) (sc : SamplingContext)
    (samples : SampleVector)
  : Z * Generator * SamplingContext * SampleVector :=
  (* Sample the light sources. *)
  let sc := split_in_place sc 4 1 in
  let '(s, sc) := next2_Vector4f sc in
  let light_sample :=
    light_sampler_sample
      (create_with_normalized_time (v4_0 s) (m_shutter_open_time g)
                                   (m_shutter_close_time g))
      (mkVector3 (v4_1 s) (v4_2 s) (v4_3 s)) in
  match m_triangle light_sample with
  | Some triangle =>
      generate_emitting_triangle_sample g sc light_sample triangle samples
  | None => generate_non_physical_light_sample g sc light_sample samples
  end.

(** The origin of the light ray of an environment particle. *)
Definition environment_ray_origin (g : Generator) (outgoing : Vector3f)
    (p : Vector2d) : Vector3d :=
  let basis := Basis3d_ctor (V3d.neg (V3d.of_3f outgoing)) in
  V3d.add
    (V3d.add
       (V3d.sub (m_scene_center g)
                (V3d.scale (m_safe_scene_diameter g) (get_normal basis)))
       (V3d.scale (v2_x p) (get_tangent_u basis)))
    (V3d.scale (v2_y p) (get_tangent_v basis)).

Definition generate_environment_sample (g : Generator)
    (sc : SamplingContext) (env_edf : EnvironmentEDF)
    (samples : SampleVector)
  : Z * Generator * SamplingContext * SampleVector :=
  (* Sample the environment. *)
  let sc := split_in_place sc 2 1 in
  let '(s, sc) := next2_Vector2f sc in
  let '(outgoing, env_edf_value, env_edf_prob) := env_edf_sample env_edf s in
  (* Uniformly sample the tangent disk. *)
  let sc := split_in_place sc 2 1 in
  let '(s, sc) := next2_Vector2d sc in
  let p := V2d.scale (m_scene_radius g) (sample_disk_uniform s) in
  (* Compute the origin of the light ray. *)
  let ray_origin := environment_ray_origin g outgoing p in
  (* Compute the initial particle weight. *)
  let initial_flux :=
    spectrum_div_scalar env_edf_value
      (F32.mul (m_disk_point_prob g) env_edf_prob) in
  (* Build the light ray. *)
  let sc := split_in_place sc 1 1 in
  let '(t, sc) := next2_float sc in
  let time :=
    create_with_normalized_time t (m_shutter_open_time g)
                                (m_shutter_close_time g) in
  let light_ray :=
    mkShadingRay ray_origin (V3d.neg (V3d.of_3f outgoing)) time LightRay 0 in
  (* Build the path tracer. *)
  let path_visitor := PathVisitor.ctor (m_params g) samples initial_flux in
  let path_tracer := make_path_tracer g F64.zero in
  (* Trace the light path. *)
  let '(path_length, path_visitor, sc) :=
    PathTracer.trace path_tracer path_visitor sc light_ray None in
  (* Update path statistics. *)
  let g := update_path_statistics g path_length in
  (PathVisitor.get_sample_count path_visitor, g, sc,
   PathVisitor.m_samples path_visitor).

(** [virtual size_t generate_samples(sequence_index, samples)].  The
    sampling context refers to [m_rng]: the state it leaves the generator
    in is stored back when the function returns. *)
Definition generate_samples (g : Generator) (sequence_index : Z)
    (samples : SampleVector) : Z * Generator * SampleVector :=
  let g := set_arena g (arena_clear (m_arena g)) in
  let sc :=
    SamplingContext_ctor (m_rng g) (m_sampling_mode (m_params g))
                         0 sequence_index sequence_index in
  let stored_sample_count := 0 in
  let '(stored_sample_count, g, sc, samples) :=
    if has_lights_or_emitting_triangles then
      let '(n, g, sc, samples) := generate_light_sample g sc samples in
      (SizeT.add stored_sample_count n, g, sc, samples)
    else (stored_sample_count, g, sc, samples) in
  let '(stored_sample_count, g, sc, samples) :=
    if m_enable_ibl (m_params g) then
      match get_environment_edf with
      | Some env_edf =>
          let '(n, g, sc, samples) :=
            generate_environment_sample g sc env_edf samples in
          (SizeT.add stored_sample_count n, g, sc, samples)
      | None => (stored_sample_count, g, sc, samples)
      end
    else (stored_sample_count, g, sc, samples) in
  let g := set_light_sample_count g (SizeT.incr (m_light_sample_count g)) in
  (stored_sample_count, set_rng g (SamplingContext_rng sc), samples).

(** [SampleGeneratorBase::generate_samples(sample_count, buffer,
    abort_switch)]: the units of work of the batch, in order, each a call
    of the per-sequence [generate_samples] on the samples collected so
    far; [units] records the sequence indices of the calls made. *)
Fixpoint run_batch (driver : BatchDriver) (g : Generator)
    (samples : SampleVector) (units : list Z)
  : Generator * list BufferCall * list Z :=
  match driver with
  | BatchDone base report => (set_base g base, report samples, units)
  | BatchUnit sequence_index k =>
      let '(count, g, samples) := generate_samples g sequence_index samples in
      run_batch (k count) g samples (units ++ [sequence_index])
  end.

Definition SampleGeneratorBase_generate_samples (g : Generator)
    (sample_count : Z) (buffer : SampleAccumulationBuffer)
    (abort_switch : AbortSwitch)
  : Generator * SampleAccumulationBuffer * list Z :=
  let '(g, calls, units) :=
    run_batch (SampleGeneratorBase_driver (m_base g) sample_count abort_switch)
              g [] [] in
  (g, buffer ++ calls, units).

(** [virtual void generate_samples(sample_count, buffer, abort_switch)] *)
Definition generate_samples_batch (g : Generator) (sample_count : Z)
    (buffer : SampleAccumulationBuffer) (abort_switch : AbortSwitch)
  : Generator * SampleAccumulationBuffer :=
  let g := set_light_sample_count g 0 in
  let '(g, buffer, _) :=
    SampleGeneratorBase_generate_samples g sample_count buffer abort_switch in
  (g, buffer ++ [increment_sample_count (m_light_sample_count g)]).

(** [virtual StatisticsVector get_statistics() const] *)
Definition get_statistics (g : Generator) : StatisticsVector :=
  let stats :=
    [("path count", CounterValue (m_path_count g));
     ("path length", PopulationValue (m_path_length g))] in
  mkStatisticsVector "light tracing statistics" stats.

End Generator.

End LightTracingSampleGenerator.

(* ===================================================================== *)
(** * The generator factory                                               *)
(* ===================================================================== *)

Module LightTracingSampleGeneratorFactory.

Section Factory.
Context {Ty : Types} {Fo : Foundation} {Sc : Scene}.

(** [pretty_uint] (foundation/utility/string.h). *)
Variable pretty_uint : Z -> string.

(** The factory keeps the construction parameters; the project, the
    frame, the light sampler and the other objects it holds by reference
    are those of the scene. *)
Record Factory := mkFactory {
  m_params : gmap string ParamValue
}.

(** The constructor stores the parameters and logs the settings. *)
Definition ctor (params : gmap string ParamValue) : Factory * LogMessage :=
  (mkFactory params,
   LightTracingSampleGenerator.print pretty_uint
     (LightTracingSampleGenerator.Parameters_ctor
        get_sampling_context_mode params)).

(** [ISampleGenerator* create(generator_index, generator_count)] *)
Definition create (f : Factory) (generator_index generator_count : Z)
  : LightTracingSampleGenerator.Generator :=
  LightTracingSampleGenerator.ctor generator_index generator_count
                                   (m_params f).

(** [SampleAccumulationBuffer* create_sample_accumulation_buffer()]: a new
    buffer, which has received no call. *)
Definition create_sample_accumulation_buffer (f : Factory)
  : SampleAccumulationBuffer := [].

End Factory.

End LightTracingSampleGeneratorFactory.

(* ===================================================================== *)
(** * A small concrete project                                            *)
(* ===================================================================== *)

(** An RGB-only rendering of a scene with one emitter and one surface, on
    which the functions above can be run.  Spectra are RGB triples with
    componentwise IEEE arithmetic; the sampling context is a counter. *)
Module Example.

Import LightTracingSampleGenerator.

Definition types : Types :=
  {| RNGType := Z;
     SamplingContext := Z;
     Spectrum := Color3f;
     LightingConditions := unit;
     ShadingPoint := bool;
     ShaderGroup := unit;
     EDFInputs := unit;
     BSDFInputs := unit;
     LightTransform := unit;
     Population := list Z;
     Arena := nat;
     SampleGeneratorBase := Z;
     AbortSwitch := bool |}.

(** [std::min(a, b)]: [b < a ? b : a]. *)
Definition min_f (a b : float) : float := if F32.ltb b a then b else a.

Definition map_color (f : float -> float) (c : Color3f) : Color3f :=
  mkColor3f (f (c_r c)) (f (c_g c)) (f (c_b c)).

Definition mul_color (a b : Color3f) : Color3f :=
  mkColor3f (F32.mul (c_r a) (c_r b)) (F32.mul (c_g a) (c_g b))
            (F32.mul (c_b a) (c_b b)).

Definition gray (x : float) : Color3f := mkColor3f x x x.

Definition half : float := S754_finite false 8388608 (-24).      (* 0.5f *)
Definition two_pow (e : Z) : float := S754_finite false 8388608 (e - 23).

Definition zero2 : Vector2 := mkVector2 F64.zero F64.zero.
Definition d_one : double := S754_finite false 4503599627370496 (-52).  (* 1.0 *)
Definition origin : Vector3 := mkVector3 F64.zero F64.zero F64.zero.
Definition up : Vector3 := mkVector3 F64.zero F64.zero d_one.
Definition down : Vector3 := V3d.neg up.
Definition up_f : Vector3 := mkVector3 F32.zero F32.zero F32.one.

(** The base class runs units of work at consecutive sequence indices
    until [sample_count] samples are stored or [fuel] units have run. *)
Fixpoint units_driver (fuel : nat) (sequence_index stored sample_count : Z)
  : @BatchDriver types :=
  match fuel with
  | O => @BatchDone types sequence_index
                     (fun samples => [store_samples samples])
  | Datatypes.S fuel' =>
      if sample_count <=? stored
      then @BatchDone types sequence_index
                      (fun samples => [store_samples samples])
      else @BatchUnit types sequence_index
             (fun n => units_driver fuel' (sequence_index + 1) (stored + n)
                                    sample_count)
  end.

Definition foundation : @Foundation types :=
  {| spectrum_set := (gray : float -> @Spectrum types);
     spectrum_mul := mul_color;
     spectrum_mul_scalar := fun s x => map_color (fun c => F32.mul c x) s;
     spectrum_div_scalar := fun s x => map_color (fun c => F32.div c x) s;
     min_value := fun s => min_f (c_r s) (min_f (c_g s) (c_b s));
     is_rgb := fun _ => true;
     rgb := fun s => s;
     convert_to_rgb := fun s _ => s;
     RNGType_ctor := (0 : @RNGType types);
     SamplingContext_ctor := fun rng _ _ _ instance => rng + instance;
     SamplingContext_rng := fun sc => sc;
     split_in_place := fun sc _ _ => sc + 1;
     next2_float := fun sc => (half, sc + 1);
     next2_Vector2f := fun sc => (mkVector2 half half, sc + 1);
     next2_Vector2d := fun sc => (zero2, sc + 1);
     next2_Vector4f := fun sc => (mkVector4 half half half half, sc + 1);
     sample_disk_uniform := fun s => s;
     Basis3d_ctor := fun n => mkBasis3 n n n;
     Basis3f_ctor := fun n => mkBasis3 n n n;
     create_with_normalized_time := fun s _ _ => mkTime s s;
     DepthType_cast := fun n => n mod 2 ^ 16;
     Population_ctor := ([] : @Population types);
     population_insert := fun p x => p ++ [x];
     Arena_ctor := (0%nat : @Arena types);
     arena_clear := fun _ => 0%nat;
     get_sampling_context_mode := fun _ => QMCMode;
     SampleGeneratorBase_ctor := fun generator_index _ => generator_index;
     SampleGeneratorBase_reset := fun base => base;
     SampleGeneratorBase_driver :=
       fun base sample_count _ => units_driver 4 base 0 sample_count |}.

(** A surface that scatters the fraction [albedo] of the light, whatever
    the directions, with probability density 1. *)
Definition diffuse_bsdf (albedo : float) : @BSDF types :=
  @mkBSDF types (fun _ _ _ _ _ _ _ _ => (F32.one, gray albedo)).

Definition up_edf (value : float) : @EDF types :=
  @mkEDF types (fun _ => tt)
        (fun sc _ _ _ _ => ((up_f, gray value, F32.one), sc + 1))
        F64.zero.

Definition point_light (value : float) : @Light types :=
  @mkLight types (fun _ _ => (origin, up, gray value, F32.one)).

(** A light sample on an emitting triangle at the origin, facing up. *)
Definition area_sample (value probability : float) : @LightSample types :=
  @mkLightSample types (Some (@mkEmittingTriangle types (@mkMaterialRenderData types None (up_edf value))))
                origin up up (point_light value) tt probability.

(** A light sample on a point light at the origin. *)
Definition point_sample (value probability : float) : @LightSample types :=
  @mkLightSample types None origin up up (point_light value) tt probability.

Definition sky (value : float) : @EnvironmentEDF types :=
  @mkEnvironmentEDF types (fun _ => (up_f, gray value, F32.one)).

(** The camera sees every point from above, with the given importance;
    the tracer reports the given transmission.  A ray shot from a light
    (no parent shading point) hits the surface once and then leaves the
    scene. *)
Definition scene (has_lights : bool) (emitter : @LightSample types)
    (environment : option (@EnvironmentEDF types))
    (albedo transmission importance : float) : @Scene types :=
  {| scene_center := origin;
     scene_radius := d_one;
     scene_safe_diameter := d_one;
     get_environment_edf := environment;
     get_shutter_open_time := F32.zero;
     get_shutter_close_time := F32.one;
     connect_vertex := fun sc _ _ => (Some (zero2, down, importance), sc + 1);
     get_lighting_conditions := (tt : @LightingConditions types);
     has_lights_or_emitting_triangles := has_lights;
     light_sampler_sample := fun _ _ => emitter;
     make_shading_point := fun _ _ => true;
     execute_osl_emission := fun _ p => p;
     trace_between := fun _ _ _ _ _ => transmission;
     intersector_trace :=
       fun _ parent => match parent with None => true | Some _ => false end;
     shading_point_hit := fun p => p;
     vertex_at := fun _ ray =>
       @mkPathVertex types (m_time ray) origin up up (mkBasis3 up up up)
                    (Some (diffuse_bsdf albedo)) tt up (gray F32.one) 0;
     sample_scattering := fun sc _ =>
       (@mkScatteringSample types ScatteringMode.Diffuse F32.one (gray half) up, sc + 1);
     scattered_throughput := fun t s => mul_color t (ss_value s);
     scattered_ray := fun v _ => mkShadingRay origin up (get_time v) LightRay 1;
     russian_roulette := fun sc _ => (Some F32.one, sc + 1);
     initial_scattering_mode := ScatteringMode.Specular |}.

(** One point light and a sky; the camera and the tracer let everything
    through. *)
Definition lit_scene : @Scene types :=
  scene true (point_sample F32.one F32.one) (Some (sky F32.one))
        half F32.one F32.one.

(** One emitting triangle, no sky. *)
Definition area_scene : @Scene types :=
  scene true (area_sample F32.one F32.one) None half F32.one F32.one.

(** A bright point light that is seldom chosen, above a black surface:
    the light's value is [2^127], its selection probability [2^-10]; the
    surface reflects nothing (its BSDF has value 0 with probability
    density 1); transmission and importance are 1. *)
Definition bright_value : float := two_pow 127.
Definition bright_probability : float := two_pow (-10).

Definition bright_scene : @Scene types :=
  scene true (point_sample bright_value bright_probability) None
        F32.zero F32.one F32.one.

(** No emitter at all: no light, no emitting triangle, no sky. *)
Definition dark_scene : @Scene types :=
  scene false (point_sample F32.one F32.one) None half F32.one F32.one.

(** The point light and the sky of [lit_scene], but nothing between a
    vertex and the camera lets light through: the transmission is 0. *)
Definition occluded_scene : @Scene types :=
  scene true (point_sample F32.one F32.one) (Some (sky F32.one))
        half F32.zero F32.one.

(** A tracer whose transmission is not a number. *)
Definition nan_scene : @Scene types :=
  scene true (point_sample F32.one F32.one) None half S754_nan F32.one.

Definition generator (S : @Scene types) : @Generator types :=
  @ctor types foundation S 0 1 ∅.

Definition no_caustics : Parameters :=
  Parameters_ctor (fun _ => QMCMode) (<["enable_caustics" := PVBool false]> ∅).

Definition visitor (S : @Scene types) : @PathVisitor.PathVisitor types :=
  @PathVisitor.ctor types S no_caustics [] (gray F32.one).

Definition noon : Time := mkTime half half.

(** The vertex the engine builds at the one surface of the scene. *)
Definition surface_vertex (albedo : float) : @PathVertex types :=
  @mkPathVertex types noon origin up up (mkBasis3 up up up)
    (Some (diffuse_bsdf albedo)) tt up (gray F32.one) 0.

End Example.

(* ===================================================================== *)
(** * Properties                                                          *)
(* ===================================================================== *)

Import LightTracingSampleGenerator.

(** ** Vocabulary of the statements *)

Section Vocabulary.
Context {Ty : Types} {Fo : Foundation} {Sc : Scene}.

(** The same visitor, writing to a vector that already holds [base]. *)
Definition rebase (base : SampleVector) (v : PathVisitor.PathVisitor)
  : PathVisitor.PathVisitor :=
  PathVisitor.mkPathVisitor (PathVisitor.m_params v)
    (PathVisitor.m_lighting_conditions v) (PathVisitor.m_initial_flux v)
    (base ++ PathVisitor.m_samples v) (PathVisitor.m_sample_count v).

(** The alpha channel, [m_values[3]], is exactly [1.0f]. *)
Definition alpha_is_one (s : Sample) : Prop :=
  m_values s !! 3%nat = Some F32.one.

(** The color channels [m_values[0..2]] of a sample. *)
Definition has_color (s : Sample) (c : Color3f) : Prop :=
  m_values s !! 0%nat = Some (c_r c) /\
  m_values s !! 1%nat = Some (c_g c) /\
  m_values s !! 2%nat = Some (c_b c).

(** [x >= 0.0f] *)
Definition ge_zero (x : float) : Prop := F32.leb F32.zero x = true.

(** A visitor that was created on an empty vector: its counter is the
    number of samples it has appended, each with alpha 1. *)
Definition well_counted (v : PathVisitor.PathVisitor) : Prop :=
  PathVisitor.m_sample_count v =
    SizeT.wrap (Z.of_nat (length (PathVisitor.m_samples v))) /\
  Forall alpha_is_one (PathVisitor.m_samples v).

(** What a generator is configured with, as opposed to its counters,
    statistics, arena, base-class members and random number generator. *)
Definition same_configuration (g1 g2 : Generator) : Prop :=
  m_params g1 = m_params g2 /\
  m_scene_center g1 = m_scene_center g2 /\
  m_scene_radius g1 = m_scene_radius g2 /\
  m_safe_scene_diameter g1 = m_safe_scene_diameter g2 /\
  m_disk_point_prob g1 = m_disk_point_prob g2 /\
  m_shutter_open_time g1 = m_shutter_open_time g2 /\
  m_shutter_close_time g1 = m_shutter_close_time g2.

(** What one particle does to the generator and to the vector it is
    given: the count returned, the sampling context left and the records
    appended are those of a run on an empty vector by any generator of
    the same configuration; the generator only has its path statistics
    updated; the count is the number of records appended, each with
    alpha 1. *)
Definition particle_frame
    (run : Generator -> SampleVector ->
           Z * Generator * SamplingContext * SampleVector) : Prop :=
  forall (g g' : Generator) (samples : SampleVector),
    same_configuration g g' ->
    let r := run g [] in
    let r' := run g' samples in
    fst (fst (fst r')) = fst (fst (fst r)) /\
    snd (fst r') = snd (fst r) /\
    snd r' = samples ++ snd r /\
    (exists path_length,
       snd (fst (fst r')) = update_path_statistics g' path_length) /\
    fst (fst (fst r)) = SizeT.wrap (Z.of_nat (length (snd r))) /\
    Forall alpha_is_one (snd r).

(** The number of particles a unit of work traces. *)
Definition particles_per_unit (p : Parameters) : Z :=
  Z.b2z has_lights_or_emitting_triangles +
  Z.b2z (m_enable_ibl p && bool_decide (is_Some get_environment_edf)).

(** No color channel [m_values[0..2]] of the sample is negative. *)
Definition sample_not_negative (s : Sample) : Prop :=
  forall (i : nat) (x : float),
    (i < 3)%nat -> m_values s !! i = Some x -> not_negative x = true.

Definition color_not_negative (c : Color3f) : Prop :=
  not_negative (c_r c) = true /\
  not_negative (c_g c) = true /\
  not_negative (c_b c) = true.

(** A record as [emit_sample] builds it: five channels, alpha 1, and a
    distance channel [m_values[4]] whose sign bit is clear. *)
Definition well_formed_sample (s : Sample) : Prop :=
  length (m_values s) = 5%nat /\
  alpha_is_one s /\
  exists d, m_values s !! 4%nat = Some d /\ sign_clear d = true.

(** The path statistics of [g'] are those of [g] with one path counted
    and one length inserted for each element of [lens], in order. *)
Definition adds_paths (lens : list Z) (g g' : Generator) : Prop :=
  m_path_count g' = Nat.iter (length lens) SizeT.incr (m_path_count g) /\
  m_path_length g' = fold_left population_insert lens (m_path_length g).

(** The generators a factory with the parameters [params] can have
    created and its clients can have worked with: constructed, then run
    on units of work and batches and reset in any order. *)
Inductive reachable (params : gmap string ParamValue) : Generator -> Prop :=
| reachable_ctor (generator_index generator_count : Z) :
    reachable params (ctor generator_index generator_count params)
| reachable_unit (g : Generator) (sequence_index : Z) (samples : SampleVector) :
    reachable params g ->
    reachable params (snd (fst (generate_samples g sequence_index samples)))
| reachable_batch (g : Generator) (sample_count : Z)
    (buffer : SampleAccumulationBuffer) (abort_switch : AbortSwitch) :
    reachable params g ->
    reachable params
      (fst (generate_samples_batch g sample_count buffer abort_switch))
| reachable_reset (g : Generator) :
    reachable params g -> reachable params (reset g).

End Vocabulary.

Ltac use_configuration H :=
  let Hp := fresh "Hp" in
  let Hc := fresh "Hc" in
  let Hr := fresh "Hr" in
  let Hd := fresh "Hd" in
  let Hk := fresh "Hk" in
  let Ho := fresh "Ho" in
  let Hs := fresh "Hs" in
  destruct H as (Hp & Hc & Hr & Hd & Hk & Ho & Hs);
  rewrite <- ?Hp, <- ?Hc, <- ?Hr, <- ?Hd, <- ?Hk, <- ?Ho, <- ?Hs.

Ltac finish_particle Hwc :=
  destruct Hwc as [Hcount Halpha]; cbn [fst snd] in *;
  unfold PathVisitor.get_sample_count, rebase; cbn [fst snd
    PathVisitor.m_samples PathVisitor.m_sample_count];
  repeat split; eauto.

(** ** Machine numbers *)

Lemma wrap_in_range (x : Z) : SizeT.in_range (SizeT.wrap x).
Proof.
  unfold SizeT.in_range, SizeT.wrap, SizeT.modulus, SizeT.bits.
  apply Z.mod_pos_bound. lia.
Qed.

Lemma wrap_small (x : Z) : SizeT.in_range x -> SizeT.wrap x = x.
Proof.
  unfold SizeT.in_range, SizeT.wrap. intros H. now apply Z.mod_small.
Qed.

Lemma all_ones_value : SizeT.all_ones = 2 ^ 64 - 1.
Proof. reflexivity. Qed.

Lemma incr_wrap (x : Z) : SizeT.incr (SizeT.wrap x) = SizeT.wrap (x + 1).
Proof.
  unfold SizeT.incr, SizeT.wrap, SizeT.modulus, SizeT.bits.
  rewrite Zplus_mod_idemp_l. reflexivity.
Qed.

Lemma add_wrap (x y : Z) :
  SizeT.add (SizeT.wrap x) (SizeT.wrap y) = SizeT.wrap (x + y).
Proof.
  unfold SizeT.add, SizeT.wrap, SizeT.modulus, SizeT.bits.
  rewrite <- Zplus_mod. reflexivity.
Qed.

(** [0.001f] is the binary32 value nearest to one thousandth: it is a
    normal number [m * 2^-33] with a 24-bit [m], and 1/1000 lies strictly
    between the midpoints to its two neighbours. *)
Lemma lit_0_001_nearest :
  valid_binary F32.prec F32.emax F32.lit_0_001 = true /\
  F32.lit_0_001 = S754_finite false 8589935 (-33) /\
  (2 * 8589935 - 1) * 1000 < 2 ^ 34 < (2 * 8589935 + 1) * 1000.
Proof. repeat split; reflexivity. Qed.

(** ** Signs of IEEE results *)

Section Signs.
Variables prec emax : Z.

Lemma binary_round_aux_sign (m e : Z) (l : location) :
  sign_clear (binary_round_aux prec emax false m e l) = true.
Proof.
  unfold binary_round_aux.
  destruct (shr_fexp prec emax m e l) as [mrs e'].
  destruct (shr_fexp prec emax _ e' loc_Exact) as [mrs' e''].
  destruct (shr_m mrs'); [reflexivity | | reflexivity].
  destruct (Z.leb _ _); reflexivity.
Qed.

Lemma binary_round_sign (m : positive) (e : Z) :
  sign_clear (binary_round prec emax false m e) = true.
Proof.
  unfold binary_round. destruct (shl_align _ _ _) as [mz ez].
  apply binary_round_aux_sign.
Qed.

Lemma sign_clear_not_negative (x : spec_float) :
  sign_clear x = true -> not_negative x = true.
Proof. destruct x as [[|]|[|]| |[|] m e]; cbn; congruence. Qed.

(** A product of factors that are not negative is not negative: it is a
    NaN when one is infinite and the other zero. *)
Lemma mul_not_negative (x y : spec_float) :
  not_negative x = true -> not_negative y = true ->
  not_negative (SFmul prec emax x y) = true.
Proof.
  destruct x as [[|]|[|]| |[|] mx ex], y as [[|]|[|]| |[|] my ey];
    cbn; try congruence; intros _ _.
  apply sign_clear_not_negative, binary_round_aux_sign.
Qed.

Lemma div_not_negative (x y : spec_float) :
  not_negative x = true -> sign_clear y = true ->
  not_negative (SFdiv prec emax x y) = true.
Proof.
  destruct x as [[|]|[|]| |[|] mx ex], y as [[|]|[|]| |[|] my ey];
    cbn -[SFdiv_core_binary]; try congruence; intros _ _.
  destruct (SFdiv_core_binary _ _ _ _ _ _) as [[mz ez] lz].
  apply sign_clear_not_negative, binary_round_aux_sign.
Qed.

Lemma sqrt_sign (x : spec_float) :
  sign_clear x = true -> sign_clear (SFsqrt prec emax x) = true.
Proof.
  destruct x as [[|]|[|]| |[|] mx ex]; cbn -[SFsqrt_core_binary];
    try congruence; intros _.
  destruct (SFsqrt_core_binary _ _ _ _) as [[mz ez] lz].
  apply binary_round_aux_sign.
Qed.

Lemma add_sign (x y : spec_float) :
  sign_clear x = true -> sign_clear y = true ->
  sign_clear (SFadd prec emax x y) = true.
Proof.
  destruct x as [[|]|[|]| |[|] mx ex], y as [[|]|[|]| |[|] my ey];
    cbn -[binary_normalize shl_align]; try congruence; intros _ _.
  cbn [binary_normalize Z.add]. apply binary_round_sign.
Qed.

Lemma mul_self_sign (x : spec_float) :
  sign_clear (SFmul prec emax x x) = true.
Proof.
  destruct x as [[|]|[|]| |[|] mx ex]; cbn; try reflexivity;
    apply binary_round_aux_sign.
Qed.

Lemma round_not_negative (x : spec_float) :
  not_negative x = true ->
  not_negative
    (match x with
     | S754_finite s m e => binary_round prec emax s m e
     | _ => x
     end) = true.
Proof.
  destruct x as [[|]|[|]| |[|] mx ex]; cbn -[binary_round];
    try congruence; intros _.
  apply sign_clear_not_negative, binary_round_sign.
Qed.

End Signs.

(** [!(x <= 0)] leaves a positive number, [+inf] or a NaN. *)
Lemma leb_zero_false_sign (x : spec_float) :
  SFleb x (S754_zero false) = false -> sign_clear x = true.
Proof. destruct x as [[|]|[|]| |[|] mx ex]; cbn; congruence. Qed.

(** Not negative: [>= 0], or a NaN. *)
Lemma not_negative_cases (x : spec_float) :
  not_negative x = true <->
  SFleb (S754_zero false) x = true \/ x = S754_nan.
Proof.
  destruct x as [[|]|[|]| |[|] mx ex]; cbn; split; intros H;
    try tauto; try congruence; try (destruct H; congruence); auto.
Qed.

(** The length of a vector has a clear sign bit: it is never [-0]. *)
Lemma norm_sign (v : Vector3d) : sign_clear (V3d.norm v) = true.
Proof.
  unfold V3d.norm, V3d.dot, F64.sqrt, F64.add, F64.mul.
  apply sqrt_sign. repeat apply add_sign; apply mul_self_sign.
Qed.

(** ** Construction parameters *)

Section ParametersProperties.
Variable mode : gmap string ParamValue -> SamplingMode.

Lemma nz_zero : nz 0 = 2 ^ 64 - 1.
Proof. reflexivity. Qed.

Lemma nz_nonzero (x : Z) : x <> 0 -> nz x = x.
Proof. intros H. unfold nz. destruct (Z.eqb_spec x 0); congruence. Qed.

(** C8.  Zero means unbounded: an option [max_path_length] or
    [rr_min_path_length] supplied as 0 is stored as the largest [size_t]
    value, [~0 = 2^64 - 1]; any other supplied value is stored as it is. *)
Theorem Parameters_zero_means_unbounded
    (params : gmap string ParamValue) (n : Z) (Hn : SizeT.in_range n) :
  (params !! "max_path_length" = Some (PVSize n) ->
   m_max_path_length (Parameters_ctor mode params) =
     if n =? 0 then 2 ^ 64 - 1 else n) /\
  (params !! "rr_min_path_length" = Some (PVSize n) ->
   m_rr_min_path_length (Parameters_ctor mode params) =
     if n =? 0 then 2 ^ 64 - 1 else n).
Proof.
  split; intros H; cbn [Parameters_ctor m_max_path_length m_rr_min_path_length];
    unfold get_optional_size_t; rewrite H, (wrap_small n Hn);
    unfold nz; destruct (n =? 0); reflexivity.
Qed.

(** C9.  Default values of the options that are absent from the
    construction parameters. *)
Theorem Parameters_defaults (params : gmap string ParamValue) :
  let p := Parameters_ctor mode params in
  (params !! "enable_ibl" = None -> m_enable_ibl p = true) /\
  (params !! "enable_caustics" = None -> m_enable_caustics p = true) /\
  (params !! "transparency_threshold" = None ->
   m_transparency_threshold p = F32.lit_0_001) /\
  (params !! "max_iterations" = None -> m_max_iterations p = 1000) /\
  (params !! "report_self_intersections" = None ->
   m_report_self_intersections p = false) /\
  (params !! "max_path_length" = None ->
   nz 0 = 2 ^ 64 - 1 /\ m_max_path_length p = 2 ^ 64 - 1) /\
  (params !! "rr_min_path_length" = None -> m_rr_min_path_length p = 3).
Proof.
  cbn zeta.
  repeat apply conj; intros Habsent; try apply conj;
    cbn [Parameters_ctor m_enable_ibl m_enable_caustics
         m_transparency_threshold m_max_iterations
         m_report_self_intersections m_max_path_length m_rr_min_path_length];
    unfold get_optional_bool, get_optional_float, get_optional_size_t;
    try rewrite Habsent; reflexivity.
Qed.

End ParametersProperties.

Lemma Parameters_zero_means_unbounded_witness :
  SizeT.in_range 0 /\
  m_max_path_length
    (Parameters_ctor (fun _ => RNGMode)
       (<["max_path_length" := PVSize 0]> ∅)) = 2 ^ 64 - 1.
Proof.
  split; [unfold SizeT.in_range; split; [lia | reflexivity] |].
  apply (proj1 (Parameters_zero_means_unbounded (fun _ => RNGMode)
                  (<["max_path_length" := PVSize 0]> ∅) 0
                  (conj (Z.le_refl 0) eq_refl))).
  reflexivity.
Defined.

Lemma Parameters_defaults_witness :
  m_rr_min_path_length (Parameters_ctor (fun _ => QMCMode) ∅) = 3.
Proof.
  apply (Parameters_defaults (fun _ => QMCMode) ∅).
  reflexivity.
Defined.

(** ** The visitor *)

Section VisitorProperties.
Context {Ty : Types} {Fo : Foundation} {Sc : Scene}.

(** C7.  Caustic filter: for a next mode other than absorption,
    [accept_scattering] refuses exactly when caustics are disabled and
    the next mode is glossy or specular, and accepts in every other
    case; the previous mode plays no part. *)
Theorem accept_scattering_caustics (v : PathVisitor.PathVisitor)
    (prev_mode next_mode : ScatteringMode.Mode)
    (Hnext : next_mode <> ScatteringMode.Absorption) :
  (PathVisitor.accept_scattering v prev_mode next_mode = false <->
   m_enable_caustics (PathVisitor.m_params v) = false /\
   (next_mode = ScatteringMode.Glossy \/ next_mode = ScatteringMode.Specular)) /\
  (PathVisitor.accept_scattering v prev_mode next_mode = true <->
   ~ (m_enable_caustics (PathVisitor.m_params v) = false /\
      (next_mode = ScatteringMode.Glossy \/ next_mode = ScatteringMode.Specular))) /\
  (forall prev_mode',
     PathVisitor.accept_scattering v prev_mode' next_mode =
     PathVisitor.accept_scattering v prev_mode next_mode).
Proof.
  unfold PathVisitor.accept_scattering.
  destruct (m_enable_caustics (PathVisitor.m_params v)), next_mode;
    cbn; intuition congruence.
Qed.

(** [emit_sample] appends exactly one record and counts it. *)
Lemma emit_sample_appends (v : PathVisitor.PathVisitor)
    (position_ndc : Vector2d) (distance : double) (radiance : Spectrum) :
  exists sample,
    PathVisitor.m_samples (PathVisitor.emit_sample v position_ndc distance radiance)
      = PathVisitor.m_samples v ++ [sample] /\
    alpha_is_one sample /\
    has_color sample
      (if is_rgb radiance then rgb radiance
       else convert_to_rgb radiance (PathVisitor.m_lighting_conditions v)) /\
    m_values sample !! 4%nat = Some (F32.of_double distance) /\
    m_position sample = V2f.of_2d position_ndc /\
    PathVisitor.m_sample_count
      (PathVisitor.emit_sample v position_ndc distance radiance)
      = SizeT.incr (PathVisitor.m_sample_count v).
Proof.
  eexists. split; [reflexivity |]. repeat split.
Qed.

(** C4.  Zero-bounce connection of an area light: no sample when the
    camera connection fails, when [cos_alpha <= 0] or when the
    transmission along the segment that starts at
    [light_point - camera_outgoing] is exactly zero; otherwise exactly one
    sample, of radiance
    [flux * float(transmission * (cos_alpha / |camera_outgoing|) * importance)]:
    the record appended holds the linear RGB channels of that radiance,
    alpha 1 and the distance [|camera_outgoing|], at the position the
    camera gave; at most one sample in every case. *)
Theorem visit_area_light_vertex_contribution
    (v : PathVisitor.PathVisitor) (sc : SamplingContext)
    (light_sample : LightSample) (light_particle_flux : Spectrum)
    (time : Time) :
  let point := m_point light_sample in
  let result :=
    PathVisitor.visit_area_light_vertex v sc light_sample
                                        light_particle_flux time in
  (forall sc',
     connect_vertex sc (m_absolute time) point = (None, sc') ->
     result = (v, sc')) /\
  (forall sample_position camera_outgoing importance sc',
     connect_vertex sc (m_absolute time) point =
       (Some (sample_position, camera_outgoing, importance), sc') ->
     let cos_alpha :=
       V3d.dot (V3d.neg camera_outgoing) (m_shading_normal light_sample) in
     let transmission :=
       trace_between (V3d.sub point camera_outgoing) point time CameraRay 0 in
     let distance := V3d.norm camera_outgoing in
     let radiance :=
       spectrum_mul_scalar light_particle_flux
         (F32.of_double
            (F64.mul (F64.mul (F64.of_float transmission)
                              (F64.div cos_alpha distance))
                     (F64.of_float importance))) in
     let linear_rgb :=
       if is_rgb radiance then rgb radiance
       else convert_to_rgb radiance (PathVisitor.m_lighting_conditions v) in
     (F64.leb cos_alpha F64.zero = true -> result = (v, sc')) /\
     (F32.eqb transmission F32.zero = true -> result = (v, sc')) /\
     (F64.leb cos_alpha F64.zero = false ->
      F32.eqb transmission F32.zero = false ->
      result =
        (PathVisitor.emit_sample v sample_position distance radiance, sc') /\
      PathVisitor.m_samples (fst result) =
        PathVisitor.m_samples v ++
        [mkSample (V2f.of_2d sample_position)
                  [c_r linear_rgb; c_g linear_rgb; c_b linear_rgb; F32.one;
                   F32.of_double distance]] /\
      PathVisitor.m_sample_count (fst result) =
        SizeT.incr (PathVisitor.m_sample_count v))) /\
  (exists new,
     PathVisitor.m_samples (fst result) = PathVisitor.m_samples v ++ new /\
     (length new <= 1)%nat).
Proof.
  cbn zeta. unfold PathVisitor.visit_area_light_vertex.
  destruct (connect_vertex sc (m_absolute time) (m_point light_sample))
    as [[[[sample_position camera_outgoing] importance] |] sc1].
  - split; [intros sc' Hc; discriminate |].
    split.
    + intros ? ? ? ? Hc. injection Hc as -> -> -> ->.
      destruct (F64.leb _ F64.zero); [repeat split; intros; congruence |].
      destruct (F32.eqb _ F32.zero); [repeat split; intros; congruence |].
      repeat split; intros; congruence.
    + destruct (F64.leb _ F64.zero);
        [exists []; rewrite app_nil_r; split; [reflexivity | cbn; lia] |].
      destruct (F32.eqb _ F32.zero);
        [exists []; rewrite app_nil_r; split; [reflexivity | cbn; lia] |].
      eexists [_]. split; [reflexivity | cbn; lia].
  - split; [intros sc' Hc; injection Hc as ->; reflexivity |].
    split; [intros ? ? ? ? Hc; discriminate |].
    exists []. rewrite app_nil_r. split; [reflexivity | cbn; lia].
Qed.

(** C5.  No-contribution outcomes of [visit_vertex] are silent: a vertex
    without BSDF, a failed camera connection, a vertex seen from behind
    ([dot(camera_outgoing, shading_normal) >= 0]), a transmission that is
    exactly zero or a BSDF probability that is exactly zero leave the
    visitor, and with it the output list, as they were; the function is
    total, it has no error result.  Otherwise exactly one sample is
    emitted, of radiance
    [initial_flux * throughput * bsdf_value * (transmission * importance)]:
    the record appended holds the linear RGB channels of that radiance,
    alpha 1 and the distance [|camera_outgoing|], at the position the
    camera gave. *)
Theorem visit_vertex_contribution
    (v : PathVisitor.PathVisitor) (sc : SamplingContext)
    (vertex : PathVertex) :
  let point := get_point vertex in
  let result := PathVisitor.visit_vertex v sc vertex in
  (m_bsdf vertex = None -> result = (v, sc)) /\
  (forall bsdf, m_bsdf vertex = Some bsdf ->
   (forall sc',
      connect_vertex sc (m_absolute (get_time vertex)) point = (None, sc') ->
      result = (v, sc')) /\
   (forall sample_position camera_outgoing importance sc',
      connect_vertex sc (m_absolute (get_time vertex)) point =
        (Some (sample_position, camera_outgoing, importance), sc') ->
      let facing := V3d.dot camera_outgoing (get_shading_normal vertex) in
      let transmission :=
        trace_between (V3d.sub point camera_outgoing) point (get_time vertex)
                      CameraRay (DepthType_cast (Renderer.m_path_length vertex)) in
      let distance := V3d.norm camera_outgoing in
      let evaluation :=
        bsdf_evaluate bsdf (m_bsdf_data vertex) true true
          (V3f.of_3d (V3d.flip_to_same_hemisphere
                        (get_geometric_normal vertex)
                        (get_shading_normal vertex)))
          (Basis3f_of_3d (get_shading_basis vertex))
          (V3f.of_3d (m_outgoing vertex))
          (V3f.neg (V3f.of_3d (V3d.div camera_outgoing distance)))
          ScatteringMode.All in
      let radiance :=
        spectrum_mul_scalar
          (spectrum_mul
             (spectrum_mul (PathVisitor.m_initial_flux v) (m_throughput vertex))
             (snd evaluation))
          (F32.mul transmission importance) in
      let linear_rgb :=
        if is_rgb radiance then rgb radiance
        else convert_to_rgb radiance (PathVisitor.m_lighting_conditions v) in
      (F64.leb F64.zero facing = true -> result = (v, sc')) /\
      (F32.eqb transmission F32.zero = true -> result = (v, sc')) /\
      (F32.eqb (fst evaluation) F32.zero = true -> result = (v, sc')) /\
      (F64.leb F64.zero facing = false ->
       F32.eqb transmission F32.zero = false ->
       F32.eqb (fst evaluation) F32.zero = false ->
       result =
         (PathVisitor.emit_sample v sample_position distance radiance, sc') /\
       PathVisitor.m_samples (fst result) =
         PathVisitor.m_samples v ++
         [mkSample (V2f.of_2d sample_position)
                   [c_r linear_rgb; c_g linear_rgb; c_b linear_rgb; F32.one;
                    F32.of_double distance]] /\
       PathVisitor.m_sample_count (fst result) =
         SizeT.incr (PathVisitor.m_sample_count v)))).
Proof.
  cbn zeta. unfold PathVisitor.visit_vertex.
  destruct (m_bsdf vertex) as [bsdf |];
    [| split; [reflexivity | intros ? Hb; discriminate]].
  split; [intros Hb; discriminate |].
  intros ? Hb. injection Hb as <-.
  destruct (connect_vertex sc (m_absolute (get_time vertex)) (get_point vertex))
    as [[[[sample_position camera_outgoing] importance] |] sc1].
  - split; [intros sc' Hc; discriminate |].
    intros ? ? ? ? Hc. injection Hc as -> -> -> ->.
    destruct (F64.leb F64.zero _); [repeat split; intros; congruence |].
    destruct (F32.eqb _ F32.zero); [repeat split; intros; congruence |].
    destruct (bsdf_evaluate _ _ _ _ _ _ _ _ _) as [bsdf_prob bsdf_value].
    cbn [fst snd].
    destruct (F32.eqb bsdf_prob F32.zero); [repeat split; intros; congruence |].
    repeat split; intros; congruence.
  - split; [intros sc' Hc; injection Hc as ->; reflexivity |].
    intros ? ? ? ? Hc; discriminate.
Qed.

End VisitorProperties.

(** ** The path tracer engine and its visitor *)

Section EngineProperties.
Context {Ty : Types} {Fo : Foundation} {Sc : Scene}.
Context {V : Type} {PV : PathTracer.Visitor V}.

(** What the visitor's callbacks preserve, the walk preserves. *)
Lemma walk_invariant (P : V -> Prop)
    (Hvertex : forall v sc x, P v -> P (fst (PathTracer.visit_vertex v sc x)))
    (Henvironment : forall v x, P v -> P (PathTracer.visit_environment v x))
    (pt : PathTracer.PathTracer) (fuel : nat) :
  forall v sc ray parent throughput prev_mode path_length,
    P v ->
    P (snd (fst (PathTracer.walk pt fuel v sc ray parent throughput
                                 prev_mode path_length))).
Proof.
  induction fuel as [| fuel IH]; intros v sc ray parent throughput prev_mode
    path_length Hv; cbn [PathTracer.walk]; [exact Hv |].
  destruct (negb (shading_point_hit (intersector_trace ray parent))).
  { cbn. apply Henvironment, Hv. }
  specialize (Hvertex v sc
    (PathTracer.build_vertex (intersector_trace ray parent) ray throughput
                             path_length) Hv).
  destruct (PathTracer.visit_vertex v sc _) as [v1 sc1]. cbn in Hvertex.
  destruct (sample_scattering sc1 _) as [scattering sc2].
  destruct (_ || _); [exact Hvertex |].
  destruct (negb _); [exact Hvertex |].
  destruct (PathTracer.apply_russian_roulette _ _ _ _) as [[thr |] sc3];
    [| exact Hvertex].
  destruct (_ <=? _); [exact Hvertex |].
  apply IH, Hvertex.
Qed.

(** A change of the visitor that commutes with its callbacks commutes
    with the walk. *)
Lemma walk_equivariant (f : V -> V)
    (Hvertex : forall v sc x,
       PathTracer.visit_vertex (f v) sc x =
       (f (fst (PathTracer.visit_vertex v sc x)),
        snd (PathTracer.visit_vertex v sc x)))
    (Henvironment : forall v x,
       PathTracer.visit_environment (f v) x =
       f (PathTracer.visit_environment v x))
    (Haccept : forall v a b,
       PathTracer.accept_scattering (f v) a b =
       PathTracer.accept_scattering v a b)
    (pt : PathTracer.PathTracer) (fuel : nat) :
  forall v sc ray parent throughput prev_mode path_length,
    PathTracer.walk pt fuel (f v) sc ray parent throughput prev_mode
                    path_length =
    let r := PathTracer.walk pt fuel v sc ray parent throughput prev_mode
                             path_length in
    (fst (fst r), f (snd (fst r)), snd r).
Proof.
  induction fuel as [| fuel IH]; intros v sc ray parent throughput prev_mode
    path_length; cbn [PathTracer.walk]; [reflexivity |].
  destruct (negb (shading_point_hit (intersector_trace ray parent))).
  { cbn. now rewrite Henvironment. }
  rewrite Hvertex.
  destruct (PathTracer.visit_vertex v sc _) as [v1 sc1]. cbn [fst snd].
  destruct (sample_scattering sc1 _) as [scattering sc2].
  destruct (_ || _); [reflexivity |].
  rewrite Haccept.
  destruct (negb _); [reflexivity |].
  destruct (PathTracer.apply_russian_roulette _ _ _ _) as [[thr |] sc3];
    [| reflexivity].
  destruct (_ <=? _); [reflexivity |].
  apply IH.
Qed.

(** The walk ends, whatever the scene: it is a total function of its
    fuel, and the path length it returns has grown by at most one per
    unit of fuel. *)
Lemma walk_path_length_bound (pt : PathTracer.PathTracer) (fuel : nat) :
  forall v sc ray parent throughput prev_mode n,
    exists k, (k <= fuel)%nat /\
      fst (fst (PathTracer.walk pt fuel v sc ray parent throughput prev_mode
                                (SizeT.wrap n))) =
      SizeT.wrap (n + Z.of_nat k).
Proof.
  induction fuel as [| fuel IH]; intros v sc ray parent throughput prev_mode n;
    cbn [PathTracer.walk].
  { exists 0%nat. split; [lia |]. cbn. now rewrite Z.add_0_r. }
  assert (Hstop : exists k, (k <= Datatypes.S fuel)%nat /\
            SizeT.wrap n = SizeT.wrap (n + Z.of_nat k)).
  { exists 0%nat. split; [lia |]. now rewrite Z.add_0_r. }
  destruct (negb (shading_point_hit (intersector_trace ray parent)));
    [exact Hstop |].
  destruct (PathTracer.visit_vertex v sc _) as [v1 sc1].
  destruct (sample_scattering sc1 _) as [scattering sc2].
  destruct (_ || _); [exact Hstop |].
  destruct (negb _); [exact Hstop |].
  destruct (PathTracer.apply_russian_roulette _ _ _ _) as [[thr |] sc3];
    [| exact Hstop].
  rewrite incr_wrap.
  destruct (_ <=? _).
  { exists 1%nat. split; [lia |]. reflexivity. }
  destruct (IH v1 sc3 (scattered_ray
              (PathTracer.build_vertex (intersector_trace ray parent) ray
                 throughput (SizeT.wrap n)) scattering)
              (Some (intersector_trace ray parent)) thr
              (ss_mode scattering) (n + 1)) as [k [Hk Heq]].
  exists (Datatypes.S k). split; [lia |].
  rewrite Heq. f_equal. lia.
Qed.

End EngineProperties.

(** ** The visitor as the engine sees it *)

Section VisitorFrame.
Context {Ty : Types} {Fo : Foundation} {Sc : Scene}.

Lemma ctor_rebase (params : Parameters) (samples : SampleVector)
    (initial_flux : Spectrum) :
  PathVisitor.ctor params samples initial_flux =
  rebase samples (PathVisitor.ctor params [] initial_flux).
Proof.
  unfold rebase, PathVisitor.ctor. cbn. now rewrite app_nil_r.
Qed.

Lemma emit_sample_rebase (base : SampleVector) (v : PathVisitor.PathVisitor)
    (position_ndc : Vector2d) (distance : double) (radiance : Spectrum) :
  PathVisitor.emit_sample (rebase base v) position_ndc distance radiance =
  rebase base (PathVisitor.emit_sample v position_ndc distance radiance).
Proof.
  unfold rebase, PathVisitor.emit_sample. cbn. now rewrite app_assoc.
Qed.

Lemma visit_area_light_vertex_rebase (base : SampleVector)
    (v : PathVisitor.PathVisitor) (sc : SamplingContext)
    (light_sample : LightSample) (flux : Spectrum) (time : Time) :
  PathVisitor.visit_area_light_vertex (rebase base v) sc light_sample flux time =
  (rebase base
     (fst (PathVisitor.visit_area_light_vertex v sc light_sample flux time)),
   snd (PathVisitor.visit_area_light_vertex v sc light_sample flux time)).
Proof.
  unfold PathVisitor.visit_area_light_vertex.
  destruct (connect_vertex _ _ _) as [[[[p co] imp] |] sc1]; [| reflexivity].
  destruct (F64.leb _ _); [reflexivity |].
  destruct (F32.eqb _ _); [reflexivity |].
  cbn [fst snd]. now rewrite emit_sample_rebase.
Qed.

Lemma visit_non_physical_light_vertex_rebase (base : SampleVector)
    (v : PathVisitor.PathVisitor) (sc : SamplingContext)
    (light_vertex : Vector3d) (flux : Spectrum) (time : Time) :
  PathVisitor.visit_non_physical_light_vertex (rebase base v) sc light_vertex
                                              flux time =
  (rebase base
     (fst (PathVisitor.visit_non_physical_light_vertex v sc light_vertex flux time)),
   snd (PathVisitor.visit_non_physical_light_vertex v sc light_vertex flux time)).
Proof.
  unfold PathVisitor.visit_non_physical_light_vertex.
  destruct (connect_vertex _ _ _) as [[[[p co] imp] |] sc1]; [| reflexivity].
  destruct (F32.eqb _ _); [reflexivity |].
  cbn [fst snd]. now rewrite emit_sample_rebase.
Qed.

Lemma visit_vertex_rebase (base : SampleVector)
    (v : PathVisitor.PathVisitor) (sc : SamplingContext) (vertex : PathVertex) :
  PathVisitor.visit_vertex (rebase base v) sc vertex =
  (rebase base (fst (PathVisitor.visit_vertex v sc vertex)),
   snd (PathVisitor.visit_vertex v sc vertex)).
Proof.
  unfold PathVisitor.visit_vertex.
  destruct (m_bsdf vertex) as [bsdf |]; [| reflexivity].
  destruct (connect_vertex _ _ _) as [[[[p co] imp] |] sc1]; [| reflexivity].
  destruct (F64.leb _ _); [reflexivity |].
  destruct (F32.eqb _ _); [reflexivity |].
  destruct (bsdf_evaluate _ _ _ _ _ _ _ _ _) as [bsdf_prob bsdf_value].
  destruct (F32.eqb _ _); [reflexivity |].
  cbn [fst snd]. now rewrite emit_sample_rebase.
Qed.

(** The engine, run on a vector that already holds [base], appends to it
    what it would have written to an empty one. *)
Lemma trace_rebase (base : SampleVector) (pt : PathTracer.PathTracer)
    (v : PathVisitor.PathVisitor) (sc : SamplingContext) (ray : ShadingRay)
    (parent : option ShadingPoint) :
  PathTracer.trace pt (rebase base v) sc ray parent =
  (fst (fst (PathTracer.trace pt v sc ray parent)),
   rebase base (snd (fst (PathTracer.trace pt v sc ray parent))),
   snd (PathTracer.trace pt v sc ray parent)).
Proof.
  unfold PathTracer.trace.
  apply (walk_equivariant (rebase base)).
  - intros. apply visit_vertex_rebase.
  - reflexivity.
  - reflexivity.
Qed.

Lemma ctor_well_counted (params : Parameters) (initial_flux : Spectrum) :
  well_counted (PathVisitor.ctor params [] initial_flux).
Proof. split; [reflexivity | constructor]. Qed.

Lemma emit_sample_well_counted (v : PathVisitor.PathVisitor)
    (position_ndc : Vector2d) (distance : double) (radiance : Spectrum) :
  well_counted v ->
  well_counted (PathVisitor.emit_sample v position_ndc distance radiance).
Proof.
  intros [Hcount Halpha]. split; cbn.
  - rewrite Hcount, incr_wrap, length_app. cbn. f_equal. lia.
  - apply Forall_app. split; [exact Halpha |].
    constructor; [reflexivity | constructor].
Qed.

Lemma visit_area_light_vertex_well_counted (v : PathVisitor.PathVisitor)
    (sc : SamplingContext) (light_sample : LightSample) (flux : Spectrum)
    (time : Time) :
  well_counted v ->
  well_counted
    (fst (PathVisitor.visit_area_light_vertex v sc light_sample flux time)).
Proof.
  intros Hv. unfold PathVisitor.visit_area_light_vertex.
  destruct (connect_vertex _ _ _) as [[[[p co] imp] |] sc1]; [| exact Hv].
  destruct (F64.leb _ _); [exact Hv |].
  destruct (F32.eqb _ _); [exact Hv |].
  now apply emit_sample_well_counted.
Qed.

Lemma visit_non_physical_light_vertex_well_counted
    (v : PathVisitor.PathVisitor) (sc : SamplingContext)
    (light_vertex : Vector3d) (flux : Spectrum) (time : Time) :
  well_counted v ->
  well_counted
    (fst (PathVisitor.visit_non_physical_light_vertex v sc light_vertex flux time)).
Proof.
  intros Hv. unfold PathVisitor.visit_non_physical_light_vertex.
  destruct (connect_vertex _ _ _) as [[[[p co] imp] |] sc1]; [| exact Hv].
  destruct (F32.eqb _ _); [exact Hv |].
  now apply emit_sample_well_counted.
Qed.

Lemma visit_vertex_well_counted (v : PathVisitor.PathVisitor)
    (sc : SamplingContext) (vertex : PathVertex) :
  well_counted v -> well_counted (fst (PathVisitor.visit_vertex v sc vertex)).
Proof.
  intros Hv. unfold PathVisitor.visit_vertex.
  destruct (m_bsdf vertex) as [bsdf |]; [| exact Hv].
  destruct (connect_vertex _ _ _) as [[[[p co] imp] |] sc1]; [| exact Hv].
  destruct (F64.leb _ _); [exact Hv |].
  destruct (F32.eqb _ _); [exact Hv |].
  destruct (bsdf_evaluate _ _ _ _ _ _ _ _ _) as [bsdf_prob bsdf_value].
  destruct (F32.eqb _ _); [exact Hv |].
  now apply emit_sample_well_counted.
Qed.

Lemma trace_well_counted (pt : PathTracer.PathTracer)
    (v : PathVisitor.PathVisitor) (sc : SamplingContext) (ray : ShadingRay)
    (parent : option ShadingPoint) :
  well_counted v ->
  well_counted (snd (fst (PathTracer.trace pt v sc ray parent))).
Proof.
  intros Hv. unfold PathTracer.trace.
  apply (walk_invariant well_counted); [| | exact Hv].
  - intros. now apply visit_vertex_well_counted.
  - intros. assumption.
Qed.

End VisitorFrame.

(** ** One particle *)

Section ParticleProperties.
Context {Ty : Types} {Fo : Foundation} {Sc : Scene}.

Lemma same_configuration_refl (g : Generator) : same_configuration g g.
Proof. repeat split. Qed.

Lemma same_configuration_trans (g1 g2 g3 : Generator) :
  same_configuration g1 g2 -> same_configuration g2 g3 ->
  same_configuration g1 g3.
Proof.
  unfold same_configuration. intros H12 H23.
  decompose [and] H12. decompose [and] H23. repeat split; congruence.
Qed.

Lemma same_configuration_sym (g1 g2 : Generator) :
  same_configuration g1 g2 -> same_configuration g2 g1.
Proof.
  unfold same_configuration. intros H12.
  decompose [and] H12. repeat split; congruence.
Qed.

Lemma update_path_statistics_configuration (g : Generator) (n : Z) :
  same_configuration g (update_path_statistics g n).
Proof. repeat split. Qed.




Lemma generate_non_physical_light_sample_frame
    (sc : SamplingContext) (light_sample : LightSample) :
  particle_frame
    (fun g samples =>
       generate_non_physical_light_sample g sc light_sample samples).
Proof.
  intros g g' samples Hcfg. cbn zeta.
  unfold generate_non_physical_light_sample, make_path_tracer.
  use_configuration Hcfg.
  destruct (next2_Vector2d _) as [s sc1].
  destruct (light_sample_fn _ _ _) as [[[position direction] value] prob].
  destruct (next2_float _) as [t sc2].
  rewrite (ctor_rebase _ samples), visit_non_physical_light_vertex_rebase.
  match goal with
  | |- context [PathVisitor.visit_non_physical_light_vertex ?v ?c ?p ?f ?tm] =>
      pose proof (visit_non_physical_light_vertex_well_counted v c p f tm
                    (ctor_well_counted _ _)) as Hwc;
      destruct (PathVisitor.visit_non_physical_light_vertex v c p f tm)
        as [pv1 sc3]
  end.
  cbn [fst snd] in *. rewrite trace_rebase.
  match goal with
  | |- context [PathTracer.trace ?pt pv1 ?c ?ray ?parent] =>
      apply (trace_well_counted pt pv1 c ray parent) in Hwc;
      destruct (PathTracer.trace pt pv1 c ray parent) as [[len pv2] sc4]
  end.
  finish_particle Hwc.
Qed.

Lemma generate_emitting_triangle_sample_frame
    (sc : SamplingContext) (light_sample : LightSample)
    (triangle : EmittingTriangle) :
  particle_frame
    (fun g samples =>
       generate_emitting_triangle_sample g sc light_sample triangle samples).
Proof.
  intros g g' samples Hcfg. cbn zeta.
  unfold generate_emitting_triangle_sample, make_path_tracer.
  use_configuration Hcfg.
  destruct (next2_Vector2f _) as [s sc1].
  destruct (edf_sample _ _ _ _ _ _) as [[[direction value] prob] sc2].
  destruct (next2_float _) as [t sc3].
  rewrite (ctor_rebase _ samples), visit_area_light_vertex_rebase.
  match goal with
  | |- context [PathVisitor.visit_area_light_vertex ?v ?c ?l ?f ?tm] =>
      pose proof (visit_area_light_vertex_well_counted v c l f tm
                    (ctor_well_counted _ _)) as Hwc;
      destruct (PathVisitor.visit_area_light_vertex v c l f tm) as [pv1 sc4]
  end.
  cbn [fst snd] in *. rewrite trace_rebase.
  match goal with
  | |- context [PathTracer.trace ?pt pv1 ?c ?ray ?parent] =>
      apply (trace_well_counted pt pv1 c ray parent) in Hwc;
      destruct (PathTracer.trace pt pv1 c ray parent) as [[len pv2] sc5]
  end.
  finish_particle Hwc.
Qed.

Lemma generate_light_sample_frame (sc : SamplingContext) :
  particle_frame (fun g samples => generate_light_sample g sc samples).
Proof.
  intros g g' samples Hcfg. cbn zeta. unfold generate_light_sample.
  pose proof Hcfg as Hcfg'. use_configuration Hcfg'.
  destruct (next2_Vector4f _) as [s sc1].
  destruct (m_triangle _) as [triangle |].
  - apply (generate_emitting_triangle_sample_frame sc1 _ triangle g g' samples
             Hcfg).
  - apply (generate_non_physical_light_sample_frame sc1 _ g g' samples Hcfg).
Qed.

Lemma generate_environment_sample_frame
    (sc : SamplingContext) (env_edf : EnvironmentEDF) :
  particle_frame
    (fun g samples => generate_environment_sample g sc env_edf samples).
Proof.
  intros g g' samples Hcfg. cbn zeta.
  unfold generate_environment_sample, environment_ray_origin, make_path_tracer.
  use_configuration Hcfg.
  destruct (next2_Vector2f _) as [s sc1].
  destruct (env_edf_sample _ _) as [[outgoing value] prob].
  destruct (next2_Vector2d _) as [s2 sc2].
  destruct (next2_float _) as [t sc3].
  rewrite (ctor_rebase _ samples), trace_rebase.
  match goal with
  | |- context [PathTracer.trace ?pt ?v ?c ?ray ?parent] =>
      pose proof (trace_well_counted pt v c ray parent
                    (ctor_well_counted _ _)) as Hwc;
      destruct (PathTracer.trace pt v c ray parent) as [[len pv2] sc4]
  end.
  finish_particle Hwc.
Qed.

End ParticleProperties.

(** ** One unit of work *)

Section UnitOfWork.
Context {Ty : Types} {Fo : Foundation} {Sc : Scene}.

Lemma particle_frame_elim
    (run : Generator -> SampleVector ->
           Z * Generator * SamplingContext * SampleVector)
    (Hrun : particle_frame run) (g : Generator) :
  exists n sc' new,
    n = SizeT.wrap (Z.of_nat (length new)) /\
    Forall alpha_is_one new /\
    forall g' samples, same_configuration g g' ->
      exists path_length,
        run g' samples =
          (n, update_path_statistics g' path_length, sc', samples ++ new).
Proof.
  destruct (run g []) as [[[n g0] sc'] new] eqn:Hr.
  exists n, sc', new.
  pose proof (Hrun g g [] (same_configuration_refl g)) as H0.
  cbn zeta in H0. rewrite Hr in H0. cbn [fst snd] in H0.
  destruct H0 as (_ & _ & _ & _ & Hn & Ha).
  split; [exact Hn |]. split; [exact Ha |].
  intros g' samples Hcfg.
  pose proof (Hrun g g' samples Hcfg) as H1.
  cbn zeta in H1. rewrite Hr in H1. cbn [fst snd] in H1.
  destruct (run g' samples) as [[[n' g1] sc1] samples1]. cbn [fst snd] in H1.
  destruct H1 as (-> & -> & -> & [len ->] & _).
  exists len. reflexivity.
Qed.

Lemma add_zero_wrap (x : Z) : SizeT.add 0 (SizeT.wrap x) = SizeT.wrap x.
Proof. change 0 with (SizeT.wrap 0) at 1. now rewrite add_wrap. Qed.


(** The shape of a unit of work.  The count returned, the records
    appended and the state the random number generator is left in are
    determined by the configuration, the state of the random number
    generator and the sequence index: they are the same for every
    generator that agrees on those, whatever its counters, statistics,
    arena and base-class members, and whatever the vector already
    holds. *)
Lemma generate_samples_shape (g : Generator) (sequence_index : Z) :
  exists n new rng',
    n = SizeT.wrap (Z.of_nat (length new)) /\
    Forall alpha_is_one new /\
    forall g' samples,
      same_configuration g g' -> m_rng g' = m_rng g ->
      exists g'',
        generate_samples g' sequence_index samples = (n, g'', samples ++ new) /\
        m_rng g'' = rng' /\
        same_configuration g' g'' /\
        m_base g'' = m_base g' /\
        m_arena g'' = arena_clear (m_arena g') /\
        m_light_sample_count g'' = SizeT.incr (m_light_sample_count g') /\
        m_path_count g'' =
          Nat.iter (Z.to_nat (particles_per_unit (m_params g')))
                   SizeT.incr (m_path_count g').
Proof.
  set (sc0 := SamplingContext_ctor (m_rng g) (m_sampling_mode (m_params g))
                0 sequence_index sequence_index).
  assert (Hshape : forall g' samples,
            same_configuration g g' -> m_rng g' = m_rng g ->
            generate_samples g' sequence_index samples =
            (let g0 := set_arena g' (arena_clear (m_arena g')) in
             let '(n1, g1, sc1, samples1) :=
               if has_lights_or_emitting_triangles then
                 let '(n, g1, sc1, samples1) :=
                   generate_light_sample g0 sc0 samples in
                 (SizeT.add 0 n, g1, sc1, samples1)
               else (0, g0, sc0, samples) in
             let '(n2, g2, sc2, samples2) :=
               if m_enable_ibl (m_params g) then
                 match get_environment_edf with
                 | Some env_edf =>
                     let '(n, g2, sc2, samples2) :=
                       generate_environment_sample g1 sc1 env_edf samples1 in
                     (SizeT.add n1 n, g2, sc2, samples2)
                 | None => (n1, g1, sc1, samples1)
                 end
               else (n1, g1, sc1, samples1) in
             (n2,
              set_rng (set_light_sample_count g2
                         (SizeT.incr (m_light_sample_count g2)))
                      (SamplingContext_rng sc2),
              samples2))).
  { intros g' samples Hcfg Hrng. unfold generate_samples. cbn zeta.
    assert (Hp : m_params g' = m_params g) by (symmetry; apply Hcfg).
    cbn [set_arena m_rng m_params]. subst sc0. rewrite Hrng, Hp.
    destruct has_lights_or_emitting_triangles.
    - destruct (generate_light_sample _ _ _) as [[[n1 g1] sc1] samples1] eqn:Hl.
      assert (Hp1 : m_params g1 = m_params g).
      { destruct (generate_light_sample_frame
                    (SamplingContext_ctor (m_rng g) (m_sampling_mode (m_params g))
                       0 sequence_index sequence_index)
                    (set_arena g' (arena_clear (m_arena g')))
                    (set_arena g' (arena_clear (m_arena g'))) samples
                    (same_configuration_refl _)) as (_ & _ & _ & [len Hg1] & _).
        cbn [fst snd] in Hg1. rewrite Hl in Hg1. cbn [fst snd] in Hg1.
        rewrite Hg1. exact Hp. }
      rewrite Hp1. reflexivity.
    - cbn [set_arena m_params]. rewrite Hp. reflexivity. }
  pose (g0 := set_arena g (arena_clear (m_arena g))).
  assert (Hcfg0 : forall g', same_configuration g g' ->
            same_configuration g0 (set_arena g' (arena_clear (m_arena g')))).
  { intros g' Hcfg. exact Hcfg. }
  destruct (particle_frame_elim _ (generate_light_sample_frame sc0) g0)
    as (n1 & sc1 & new1 & Hn1 & Ha1 & Hrun1).
  destruct has_lights_or_emitting_triangles eqn:Hlights.
  - (* a light particle *)
    destruct (m_enable_ibl (m_params g)) eqn:Hibl;
      [destruct get_environment_edf as [env_edf |] eqn:Henv |].
    + (* and an environment particle *)
      destruct (particle_frame_elim _
                  (generate_environment_sample_frame sc1 env_edf) g0)
        as (n2 & sc2 & new2 & Hn2 & Ha2 & Hrun2).
      exists (SizeT.add (SizeT.add 0 n1) n2), (new1 ++ new2),
             (SamplingContext_rng sc2).
      split; [| split].
      * rewrite Hn1, Hn2, add_zero_wrap, add_wrap, length_app.
        f_equal. lia.
      * apply Forall_app. now split.
      * intros g' samples Hcfg Hrng. rewrite (Hshape g' samples Hcfg Hrng).
        cbn zeta.
        destruct (Hrun1 _ samples (Hcfg0 g' Hcfg)) as [len1 ->].
        destruct (Hrun2 (update_path_statistics
                           (set_arena g' (arena_clear (m_arena g'))) len1)
                        (samples ++ new1)) as [len2 ->].
        { eapply same_configuration_trans; [apply (Hcfg0 g' Hcfg) |].
          apply update_path_statistics_configuration. }
        eexists. split; [now rewrite app_assoc |].
        assert (Hp : m_params g' = m_params g) by (symmetry; apply Hcfg).
        unfold particles_per_unit. rewrite Hp, Hibl, Hlights, Henv.
        repeat split.
    + (* the environment has no EDF *)
      exists (SizeT.add 0 n1), new1, (SamplingContext_rng sc1).
      split; [| split]; [now rewrite Hn1, add_zero_wrap | exact Ha1 |].
      intros g' samples Hcfg Hrng. rewrite (Hshape g' samples Hcfg Hrng).
      cbn zeta.
      destruct (Hrun1 _ samples (Hcfg0 g' Hcfg)) as [len1 ->].
      eexists. split; [reflexivity |].
      assert (Hp : m_params g' = m_params g) by (symmetry; apply Hcfg).
      unfold particles_per_unit. rewrite Hp, Hibl, Hlights, Henv.
      repeat split.
    + (* image-based lighting is disabled *)
      exists (SizeT.add 0 n1), new1, (SamplingContext_rng sc1).
      split; [| split]; [now rewrite Hn1, add_zero_wrap | exact Ha1 |].
      intros g' samples Hcfg Hrng. rewrite (Hshape g' samples Hcfg Hrng).
      cbn zeta.
      destruct (Hrun1 _ samples (Hcfg0 g' Hcfg)) as [len1 ->].
      eexists. split; [reflexivity |].
      assert (Hp : m_params g' = m_params g) by (symmetry; apply Hcfg).
      unfold particles_per_unit. rewrite Hp, Hibl, Hlights.
      repeat split.
  - (* no light particle *)
    destruct (m_enable_ibl (m_params g)) eqn:Hibl;
      [destruct get_environment_edf as [env_edf |] eqn:Henv |].
    + destruct (particle_frame_elim _
                  (generate_environment_sample_frame sc0 env_edf) g0)
        as (n2 & sc2 & new2 & Hn2 & Ha2 & Hrun2).
      exists (SizeT.add 0 n2), new2, (SamplingContext_rng sc2).
      split; [| split]; [now rewrite Hn2, add_zero_wrap | exact Ha2 |].
      intros g' samples Hcfg Hrng. rewrite (Hshape g' samples Hcfg Hrng).
      cbn zeta.
      destruct (Hrun2 _ samples (Hcfg0 g' Hcfg)) as [len2 ->].
      eexists. split; [reflexivity |].
      assert (Hp : m_params g' = m_params g) by (symmetry; apply Hcfg).
      unfold particles_per_unit. rewrite Hp, Hibl, Hlights, Henv.
      repeat split.
    + exists 0, [], (SamplingContext_rng sc0).
      split; [| split]; [reflexivity | constructor |].
      intros g' samples Hcfg Hrng. rewrite (Hshape g' samples Hcfg Hrng).
      cbn zeta. eexists. split; [now rewrite app_nil_r |].
      assert (Hp : m_params g' = m_params g) by (symmetry; apply Hcfg).
      unfold particles_per_unit. rewrite Hp, Hibl, Hlights, Henv.
      repeat split.
    + exists 0, [], (SamplingContext_rng sc0).
      split; [| split]; [reflexivity | constructor |].
      intros g' samples Hcfg Hrng. rewrite (Hshape g' samples Hcfg Hrng).
      cbn zeta. eexists. split; [now rewrite app_nil_r |].
      assert (Hp : m_params g' = m_params g) by (symmetry; apply Hcfg).
      unfold particles_per_unit. rewrite Hp, Hibl, Hlights.
      repeat split.
Qed.

End UnitOfWork.

(** ** Properties of a unit of work *)

Section UnitOfWorkProperties.
Context {Ty : Types} {Fo : Foundation} {Sc : Scene}.

(** C3.  Return-count contract of the per-sequence [generate_samples]:
    the call only appends to the vector it is given, and it returns the
    number of records it appended (as a [size_t]: modulo [2^64], hence
    that very number whenever it fits the type). *)
Theorem generate_samples_returns_appended_count
    (g : Generator) (sequence_index : Z) (samples : SampleVector) :
  let r := generate_samples g sequence_index samples in
  (exists new, snd r = samples ++ new) /\
  (forall new, snd r = samples ++ new ->
     fst (fst r) = SizeT.wrap (Z.of_nat (length new)) /\
     (Z.of_nat (length new) < 2 ^ 64 -> fst (fst r) = Z.of_nat (length new))) /\
  (forall sc,
     let light := generate_light_sample g sc samples in
     exists new,
       snd light = samples ++ new /\
       fst (fst (fst light)) = SizeT.wrap (Z.of_nat (length new))) /\
  (forall sc env_edf,
     let environment := generate_environment_sample g sc env_edf samples in
     exists new,
       snd environment = samples ++ new /\
       fst (fst (fst environment)) = SizeT.wrap (Z.of_nat (length new))).
Proof.
  cbn zeta. split; [| split; [| split]].
  - destruct (generate_samples_shape g sequence_index)
      as (n & new & rng' & _ & _ & Hrun).
    destruct (Hrun g samples (same_configuration_refl g) eq_refl)
      as (g'' & -> & _).
    now exists new.
  - destruct (generate_samples_shape g sequence_index)
      as (n & new & rng' & Hn & _ & Hrun).
    destruct (Hrun g samples (same_configuration_refl g) eq_refl)
      as (g'' & -> & _).
    cbn [fst snd].
    intros new' Hnew. apply app_inv_head in Hnew. subst new'.
    split; [exact Hn |].
    intros Hfit. rewrite Hn. apply wrap_small. split; [lia | exact Hfit].
  - intros sc.
    destruct (particle_frame_elim _ (generate_light_sample_frame sc) g)
      as (n & sc' & new & Hn & _ & Hrun).
    destruct (Hrun g samples (same_configuration_refl g)) as [len ->].
    exists new. now split.
  - intros sc env_edf.
    destruct (particle_frame_elim _
                (generate_environment_sample_frame sc env_edf) g)
      as (n & sc' & new & Hn & _ & Hrun).
    destruct (Hrun g samples (same_configuration_refl g)) as [len ->].
    exists new. now split.
Qed.

(** C2.  Determinism.  Two generators with the same configuration and
    the same state of the random number generator, run on the same
    sequence index, return the same count, append the same records in
    the same order to whatever vectors they are given, and leave their
    random number generators in the same state; nothing else they hold
    (counters, statistics, arena, base-class members) plays a part.
    [reset] puts the random number generator back in its initial state
    and keeps the configuration. *)
Theorem generate_samples_deterministic
    (g1 g2 : Generator) (sequence_index : Z) (samples1 samples2 : SampleVector)
    (Hconfiguration : same_configuration g1 g2)
    (Hrng : m_rng g1 = m_rng g2) :
  let r1 := generate_samples g1 sequence_index samples1 in
  let r2 := generate_samples g2 sequence_index samples2 in
  fst (fst r1) = fst (fst r2) /\
  (exists new, snd r1 = samples1 ++ new /\ snd r2 = samples2 ++ new) /\
  m_rng (snd (fst r1)) = m_rng (snd (fst r2)) /\
  same_configuration (snd (fst r1)) (snd (fst r2)) /\
  m_rng (reset g1) = RNGType_ctor /\
  m_rng (reset g2) = RNGType_ctor /\
  same_configuration (reset g1) (reset g2).
Proof.
  cbn zeta.
  destruct (generate_samples_shape g1 sequence_index)
    as (n & new & rng' & _ & _ & Hrun).
  destruct (Hrun g1 samples1 (same_configuration_refl g1) eq_refl)
    as (g1' & -> & Hrng1 & Hcfg1 & _).
  destruct (Hrun g2 samples2 Hconfiguration (eq_sym Hrng))
    as (g2' & -> & Hrng2 & Hcfg2 & _).
  cbn [fst snd]. split; [reflexivity |].
  split; [now exists new |].
  split; [congruence |].
  split.
  { eapply same_configuration_trans;
      [apply same_configuration_sym, Hcfg1 |].
    eapply same_configuration_trans; [apply Hconfiguration | apply Hcfg2]. }
  repeat split; apply Hconfiguration.
Qed.

(** Every unit of work counts for one, whatever it produced. *)
Lemma generate_samples_counts_one
    (g : Generator) (sequence_index : Z) (samples : SampleVector) :
  let g' := snd (fst (generate_samples g sequence_index samples)) in
  m_light_sample_count g' = SizeT.incr (m_light_sample_count g) /\
  m_base g' = m_base g.
Proof.
  cbn zeta.
  destruct (generate_samples_shape g sequence_index)
    as (n & new & rng' & _ & _ & Hrun).
  destruct (Hrun g samples (same_configuration_refl g) eq_refl)
    as (g'' & -> & _ & _ & Hbase & _ & Hcount & _).
  cbn [fst snd]. now split.
Qed.

(** The units of work of a batch: each adds its sequence index to the
    record of the calls made and one to the light sample counter. *)
Lemma run_batch_counts (driver : BatchDriver) :
  forall (g : Generator) (samples : SampleVector) (units : list Z) (c : Z),
    m_light_sample_count g = SizeT.wrap c ->
    let r := run_batch driver g samples units in
    exists more,
      snd r = units ++ more /\
      m_light_sample_count (fst (fst r)) =
        SizeT.wrap (c + Z.of_nat (length more)).
Proof.
  induction driver as [base report | sequence_index k IH];
    intros g samples units c Hc; cbn [run_batch].
  - exists []. cbn. rewrite app_nil_r, Z.add_0_r. now split.
  - pose proof (generate_samples_counts_one g sequence_index samples)
      as [Hcount _].
    destruct (generate_samples g sequence_index samples)
      as [[count g1] samples1].
    cbn [fst snd] in Hcount.
    rewrite Hc, incr_wrap in Hcount.
    destruct (IH count g1 samples1 (units ++ [sequence_index]) (c + 1) Hcount)
      as (more & Hunits & Hmore).
    exists (sequence_index :: more). split.
    + rewrite Hunits, <- app_assoc. reflexivity.
    + rewrite Hmore. f_equal. cbn [length]. lia.
Qed.

(** C10.  Unit-of-work counting.  Each per-sequence call adds exactly one
    to the light sample counter, whatever it traced or produced; the
    batch-level call sets the counter to zero, lets the base class run
    its units of work, and then reports to the accumulation buffer, as
    the last call made on it, an increment equal to the number of units
    of work of the batch (as a [uint64]: modulo [2^64], hence that very
    number whenever it fits the type). *)
Theorem generate_samples_batch_reports_units
    (g : Generator) (sample_count : Z) (buffer : SampleAccumulationBuffer)
    (abort_switch : AbortSwitch) :
  (forall g0 sequence_index samples,
     m_light_sample_count
       (snd (fst (generate_samples g0 sequence_index samples))) =
     SizeT.incr (m_light_sample_count g0)) /\
  (let base_run :=
     SampleGeneratorBase_generate_samples (set_light_sample_count g 0)
       sample_count buffer abort_switch in
   let units := snd base_run in
   let reported := SizeT.wrap (Z.of_nat (length units)) in
   generate_samples_batch g sample_count buffer abort_switch =
     (fst (fst base_run),
      snd (fst base_run) ++ [increment_sample_count reported]) /\
   m_light_sample_count (fst (fst base_run)) = reported /\
   (Z.of_nat (length units) < 2 ^ 64 -> reported = Z.of_nat (length units))).
Proof.
  split.
  { intros g0 sequence_index samples.
    apply (generate_samples_counts_one g0 sequence_index samples). }
  cbn zeta. unfold generate_samples_batch, SampleGeneratorBase_generate_samples.
  pose proof (run_batch_counts
                (SampleGeneratorBase_driver
                   (m_base (set_light_sample_count g 0)) sample_count
                   abort_switch)
                (set_light_sample_count g 0) [] [] 0 eq_refl) as Hrun.
  cbn zeta in Hrun.
  destruct (run_batch _ _ _ _) as [[g1 calls] units].
  cbn [fst snd] in *.
  destruct Hrun as (more & Hunits & Hcount).
  cbn [app] in Hunits. subst more. rewrite Z.add_0_l in Hcount.
  rewrite Hcount. repeat split.
  intros Hfit. apply wrap_small. split; [lia | exact Hfit].
Qed.


End UnitOfWorkProperties.

(** ** The properties on the concrete project *)

Section OnAreaScene.
#[local] Existing Instance Example.types.
#[local] Existing Instance Example.foundation.
#[local] Existing Instance Example.area_scene.

Lemma visit_area_light_vertex_contribution_witness :
  PathVisitor.m_samples
    (fst (PathVisitor.visit_area_light_vertex
            (Example.visitor Example.area_scene) 0
            (Example.area_sample F32.one F32.one)
            (Example.gray Example.half) Example.noon)) =
  [mkSample (mkVector2 F32.zero F32.zero)
            [Example.half; Example.half; Example.half; F32.one; F32.one]].
Proof.
  destruct (visit_area_light_vertex_contribution
              (Example.visitor Example.area_scene) 0
              (Example.area_sample F32.one F32.one)
              (Example.gray Example.half) Example.noon)
    as (_ & Hconnected & _).
  destruct (Hconnected Example.zero2 Example.down F32.one 1 eq_refl)
    as (_ & _ & Hemit).
  destruct (Hemit eq_refl eq_refl) as (_ & Hsample & _).
  rewrite Hsample. vm_compute. reflexivity.
Defined.

End OnAreaScene.

Section OnLitScene.
#[local] Existing Instance Example.types.
#[local] Existing Instance Example.foundation.
#[local] Existing Instance Example.lit_scene.

Lemma accept_scattering_caustics_witness :
  ScatteringMode.Glossy <> ScatteringMode.Absorption /\
  PathVisitor.accept_scattering (Example.visitor Example.lit_scene)
    ScatteringMode.Diffuse ScatteringMode.Glossy = false.
Proof.
  assert (Hnext : ScatteringMode.Glossy <> ScatteringMode.Absorption)
    by discriminate.
  split; [exact Hnext |].
  exact (proj2 (proj1 (accept_scattering_caustics
                         (Example.visitor Example.lit_scene)
                         ScatteringMode.Diffuse ScatteringMode.Glossy Hnext))
               (conj eq_refl (or_introl eq_refl))).
Defined.

Lemma visit_vertex_contribution_witness :
  PathVisitor.m_samples
    (fst (PathVisitor.visit_vertex (Example.visitor Example.lit_scene) 0
            (Example.surface_vertex Example.half))) =
  [mkSample (mkVector2 F32.zero F32.zero)
            [Example.half; Example.half; Example.half; F32.one; F32.one]].
Proof.
  destruct (visit_vertex_contribution (Example.visitor Example.lit_scene) 0
              (Example.surface_vertex Example.half)) as (_ & Hbsdf).
  destruct (Hbsdf (Example.diffuse_bsdf Example.half) eq_refl) as (_ & Hconnected).
  destruct (Hconnected Example.zero2 Example.down F32.one 1 eq_refl)
    as (_ & _ & _ & Hemit).
  destruct (Hemit eq_refl eq_refl eq_refl) as (_ & Hsample & _).
  rewrite Hsample. vm_compute. reflexivity.
Defined.

Lemma generate_samples_returns_appended_count_witness :
  fst (fst (generate_samples (Example.generator Example.lit_scene) 5 [])) = 3.
Proof.
  destruct (generate_samples_returns_appended_count
              (Example.generator Example.lit_scene) 5 [])
    as (_ & Hcount & _).
  destruct (Hcount
              (snd (generate_samples (Example.generator Example.lit_scene)
                      5 [])) eq_refl) as [_ Hexact].
  apply Hexact. vm_compute. reflexivity.
Defined.

(** A generator that has already worked and was reset produces, on a
    vector that is not empty, what a fresh one produces. *)
Lemma generate_samples_deterministic_witness :
  let fresh := Example.generator Example.lit_scene in
  let used := reset (snd (fst (generate_samples fresh 7 []))) in
  let earlier := snd (generate_samples fresh 7 []) in
  m_path_count used <> m_path_count fresh /\
  fst (fst (generate_samples fresh 5 [])) =
  fst (fst (generate_samples used 5 earlier)).
Proof.
  cbn zeta. split; [vm_compute; discriminate |].
  assert (Hconfiguration :
            same_configuration (Example.generator Example.lit_scene)
              (reset (snd (fst (generate_samples
                                  (Example.generator Example.lit_scene) 7 [])))))
    by (repeat split).
  exact (proj1 (generate_samples_deterministic
                  (Example.generator Example.lit_scene) _ 5 [] _
                  Hconfiguration eq_refl)).
Defined.

(** A batch of two units of work reports 2, although the units traced
    four particles and stored six samples. *)
Lemma generate_samples_batch_reports_units_witness :
  let r := generate_samples_batch (Example.generator Example.lit_scene)
                                  5 [] false in
  (exists stored,
     snd r = [store_samples stored; increment_sample_count 2] /\
     length stored = 6%nat) /\
  m_path_count (fst r) = 4.
Proof.
  cbn zeta.
  destruct (generate_samples_batch_reports_units
              (Example.generator Example.lit_scene) 5 [] false)
    as (_ & Hbatch & _ & Hexact).
  rewrite Hbatch. cbn zeta in Hexact. rewrite Hexact.
  - split; [| vm_compute; reflexivity].
    eexists. split; [vm_compute; reflexivity | reflexivity].
  - vm_compute. reflexivity.
Defined.


End OnLitScene.

Section OnBrightScene.
#[local] Existing Instance Example.types.
#[local] Existing Instance Example.foundation.
#[local] Existing Instance Example.bright_scene.

(** C1, at the failing input: the bright scene.  Every quantity the
    collaborators supply is finite and non-negative: the light's value
    [2^127] and selection probability [2^-10], the probability density 1
    of its sample, the transmission 1 and the importance 1, the
    throughput 1, the BSDF's value 0 and probability density 1.  The
    initial flux of the particle, [2^127 / (2^-10 * 1)], overflows to
    [+inf]; at the black surface [visit_vertex] multiplies it by the
    BSDF's value 0, and the radiance it hands to [emit_sample] is NaN in
    every channel.  The assertion [min_value(radiance) >= 0.0f] at the
    top of [emit_sample] is false at that call.  With the assertion
    compiled out, the unit of work appends two records, both with
    alpha 1: the one of the light vertex, with color channels [+inf],
    and the one of the surface vertex, whose color channels are NaN and
    so not [>= 0]. *)
Theorem emitted_rgb_not_nonnegative :
  let g := Example.generator Example.bright_scene in
  let initial_flux :=
    spectrum_div_scalar (Example.gray Example.bright_value)
                        (F32.mul Example.bright_probability F32.one) in
  let v := PathVisitor.ctor (m_params g) [] initial_flux in
  let vertex := Example.surface_vertex F32.zero in
  let radiance :=
    spectrum_mul_scalar
      (spectrum_mul (spectrum_mul initial_flux (m_throughput vertex))
                    (Example.gray F32.zero))
      (F32.mul F32.one F32.one) in
  Forall (fun x => is_finite x = true /\ ge_zero x)
    [Example.bright_value; Example.bright_probability; F32.one;
     F32.one; F32.one; F32.one; F32.zero; F32.one] /\
  fst (PathVisitor.visit_vertex v 0 vertex) =
    PathVisitor.emit_sample v Example.zero2 (V3d.norm Example.down) radiance /\
  radiance = mkColor3f S754_nan S754_nan S754_nan /\
  PathVisitor.emit_sample_assertion radiance = false /\
  (exists sample red green blue,
     In sample (snd (generate_samples g 0 [])) /\
     m_values sample !! 0%nat = Some red /\
     m_values sample !! 1%nat = Some green /\
     m_values sample !! 2%nat = Some blue /\
     ~ ge_zero red /\ ~ ge_zero green /\ ~ ge_zero blue) /\
  initial_flux =
    mkColor3f (S754_infinity false) (S754_infinity false)
              (S754_infinity false) /\
  snd (generate_samples g 0 []) =
    [mkSample (mkVector2 F32.zero F32.zero)
              [S754_infinity false; S754_infinity false; S754_infinity false;
               F32.one; F32.one];
     mkSample (mkVector2 F32.zero F32.zero)
              [S754_nan; S754_nan; S754_nan; F32.one; F32.one]].
Proof.
  cbn zeta. split; [| split; [| split; [| split; [| split; [| split]]]]].
  - repeat constructor.
  - vm_compute. reflexivity.
  - vm_compute. reflexivity.
  - vm_compute. reflexivity.
  - exists (mkSample (mkVector2 F32.zero F32.zero)
                     [S754_nan; S754_nan; S754_nan; F32.one; F32.one]),
           S754_nan, S754_nan, S754_nan.
    split; [vm_compute; right; left; reflexivity |].
    repeat split; unfold ge_zero; vm_compute; discriminate.
  - vm_compute. reflexivity.
  - vm_compute. reflexivity.
Qed.

End OnBrightScene.

(** ** Signs at the three call sites of [emit_sample], for RGB spectra *)

Section RGBCallSites.
#[local] Existing Instance Example.types.
#[local] Existing Instance Example.foundation.
Context (Sc : @Scene Example.types).

Hypothesis importance_not_negative :
  forall sc t p position camera_outgoing importance sc',
    connect_vertex sc t p = (Some (position, camera_outgoing, importance), sc') ->
    not_negative importance = true.
Hypothesis transmission_not_negative :
  forall a b t f d, not_negative (trace_between a b t f d) = true.

Lemma scale_not_negative (c : Color3f) (x : float) :
  color_not_negative c -> not_negative x = true ->
  color_not_negative (spectrum_mul_scalar c x).
Proof.
  intros (Hr & Hg & Hb) Hx.
  repeat split; cbn; apply mul_not_negative; assumption.
Qed.

Lemma mul_color_not_negative (a b : Color3f) :
  color_not_negative a -> color_not_negative b ->
  color_not_negative (spectrum_mul a b).
Proof.
  intros (Hr & Hg & Hb) (Hr' & Hg' & Hb').
  repeat split; cbn; apply mul_not_negative; assumption.
Qed.

Lemma emit_sample_not_negative (v : PathVisitor.PathVisitor)
    (position_ndc : Vector2d) (distance : double) (radiance : Color3f) :
  color_not_negative radiance ->
  Forall sample_not_negative (PathVisitor.m_samples v) ->
  Forall sample_not_negative
    (PathVisitor.m_samples
       (PathVisitor.emit_sample v position_ndc distance radiance)).
Proof.
  intros (Hr & Hg & Hb) Hv. cbn. apply Forall_app. split; [exact Hv |].
  constructor; [| constructor].
  intros [| [| [| i]]] x Hi Hx; cbn in Hx; try lia;
    injection Hx as <-; assumption.
Qed.

Lemma visit_non_physical_light_vertex_not_negative
    (v : PathVisitor.PathVisitor) (sc : SamplingContext)
    (light_vertex : Vector3d) (flux : Color3f) (time : Time) :
  color_not_negative flux ->
  Forall sample_not_negative (PathVisitor.m_samples v) ->
  Forall sample_not_negative
    (PathVisitor.m_samples
       (fst (PathVisitor.visit_non_physical_light_vertex v sc light_vertex
                                                         flux time))).
Proof.
  intros Hflux Hv. unfold PathVisitor.visit_non_physical_light_vertex.
  destruct (connect_vertex _ _ _) as [[[[p co] imp] |] sc1] eqn:Hc;
    [| exact Hv].
  destruct (F32.eqb _ _); [exact Hv |].
  apply emit_sample_not_negative; [| exact Hv].
  apply scale_not_negative; [exact Hflux |].
  apply mul_not_negative; [apply transmission_not_negative |].
  exact (importance_not_negative _ _ _ _ _ _ _ Hc).
Qed.

Lemma visit_area_light_vertex_not_negative
    (v : PathVisitor.PathVisitor) (sc : SamplingContext)
    (light_sample : LightSample) (flux : Color3f) (time : Time) :
  color_not_negative flux ->
  Forall sample_not_negative (PathVisitor.m_samples v) ->
  Forall sample_not_negative
    (PathVisitor.m_samples
       (fst (PathVisitor.visit_area_light_vertex v sc light_sample flux time))).
Proof.
  intros Hflux Hv. unfold PathVisitor.visit_area_light_vertex.
  destruct (connect_vertex _ _ _) as [[[[p co] imp] |] sc1] eqn:Hc;
    [| exact Hv].
  destruct (F64.leb _ F64.zero) eqn:Hcos; [exact Hv |].
  destruct (F32.eqb _ _); [exact Hv |].
  apply emit_sample_not_negative; [| exact Hv].
  apply scale_not_negative; [exact Hflux |].
  apply round_not_negative.
  apply mul_not_negative.
  - apply mul_not_negative.
    + apply round_not_negative, transmission_not_negative.
    + apply div_not_negative; [| apply norm_sign].
      apply sign_clear_not_negative, leb_zero_false_sign, Hcos.
  - apply round_not_negative.
    exact (importance_not_negative _ _ _ _ _ _ _ Hc).
Qed.

Lemma visit_vertex_not_negative
    (v : PathVisitor.PathVisitor) (sc : SamplingContext)
    (vertex : PathVertex) :
  color_not_negative (PathVisitor.m_initial_flux v) ->
  color_not_negative (m_throughput vertex) ->
  (forall bsdf, m_bsdf vertex = Some bsdf ->
   forall data adjoint cosine_mult n basis outgoing incoming modes,
     color_not_negative
       (snd (bsdf_evaluate bsdf data adjoint cosine_mult n basis outgoing
                           incoming modes))) ->
  Forall sample_not_negative (PathVisitor.m_samples v) ->
  Forall sample_not_negative
    (PathVisitor.m_samples (fst (PathVisitor.visit_vertex v sc vertex))).
Proof.
  intros Hflux Hthroughput Hbsdf Hv. unfold PathVisitor.visit_vertex.
  destruct (m_bsdf vertex) as [bsdf |]; [| exact Hv].
  specialize (Hbsdf bsdf eq_refl).
  destruct (connect_vertex _ _ _) as [[[[p co] imp] |] sc1] eqn:Hc;
    [| exact Hv].
  destruct (F64.leb _ _); [exact Hv |].
  destruct (F32.eqb _ _); [exact Hv |].
  match goal with
  | |- context [bsdf_evaluate bsdf ?d ?a ?c ?n ?b ?o ?i ?m] =>
      specialize (Hbsdf d a c n b o i m);
      destruct (bsdf_evaluate bsdf d a c n b o i m) as [bsdf_prob bsdf_value]
  end.
  cbn [snd] in Hbsdf.
  destruct (F32.eqb _ _); [exact Hv |].
  apply emit_sample_not_negative; [| exact Hv].
  apply scale_not_negative.
  - repeat apply mul_color_not_negative; assumption.
  - apply mul_not_negative; [apply transmission_not_negative |].
    exact (importance_not_negative _ _ _ _ _ _ _ Hc).
Qed.

End RGBCallSites.


(* ===================================================================== *)
(** * Further properties of the generator                                 *)
(* ===================================================================== *)

(** ** Path length limits *)

Lemma nz_zero_or_same (x : Z) :
  (x = 0 /\ nz x = SizeT.all_ones) \/ (x <> 0 /\ nz x = x).
Proof.
  unfold nz. destruct (Z.eqb_spec x 0); [left | right]; now split.
Qed.

(** X1.  Whatever the construction parameters hold, the path length
    limits of the [Parameters] built from them are never 0 and, like
    [max_iterations], are values of [size_t]. *)
Theorem Parameters_limits_in_range
    (mode : gmap string ParamValue -> SamplingMode)
    (params : gmap string ParamValue) :
  let p := Parameters_ctor mode params in
  0 < m_max_path_length p < 2 ^ 64 /\
  0 < m_rr_min_path_length p < 2 ^ 64 /\
  0 <= m_max_iterations p < 2 ^ 64.
Proof.
  cbn zeta. cbn [Parameters_ctor m_max_path_length m_rr_min_path_length
                 m_max_iterations].
  assert (Hopt : forall name d, SizeT.in_range d ->
            SizeT.in_range (get_optional_size_t params name d)).
  { intros name d Hd. unfold get_optional_size_t.
    destruct (params !! name) as [[b | f | n] |]; try exact Hd.
    apply wrap_in_range. }
  assert (Hnz : forall x, SizeT.in_range x -> 0 < nz x < 2 ^ 64).
  { intros x Hx. destruct (nz_zero_or_same x) as [[-> ->] | [Hne ->]].
    - rewrite all_ones_value. lia.
    - unfold SizeT.in_range, SizeT.modulus, SizeT.bits in Hx. lia. }
  split; [| split].
  - apply Hnz, Hopt. split; [lia | reflexivity].
  - apply Hnz, Hopt. split; [lia | reflexivity].
  - apply (Hopt "max_iterations" 1000). split; [lia | reflexivity].
Qed.

(** ** The factory and its log *)

Section FactoryProperties.
Context {Ty : Types} {Fo : Foundation} {Sc : Scene}.
Variable pretty_uint : Z -> string.

(** X2.  The settings the factory logs when it is constructed are those
    of every generator it creates afterwards, whatever their index.  The
    flags are logged as [on] exactly when they are set; a path length
    limit is logged as [infinite] exactly when the generator holds
    [2^64 - 1], that is when the option was given as 0 or as [2^64 - 1]
    or, for [max_path_length], not given; otherwise it is logged as the
    number the generator holds.  (No number is printed as [infinite].) *)
Theorem factory_logs_generator_settings
    (Hpretty : forall n, pretty_uint n <> "infinite")
    (params : gmap string ParamValue) (generator_index generator_count : Z) :
  let logged :=
    log_arguments (snd (LightTracingSampleGeneratorFactory.ctor pretty_uint params)) in
  let factory := fst (LightTracingSampleGeneratorFactory.ctor pretty_uint params) in
  let p :=
    m_params (LightTracingSampleGeneratorFactory.create
                factory generator_index generator_count) in
  length logged = 4%nat /\
  (logged !! 0%nat = Some "on" <-> m_enable_ibl p = true) /\
  (logged !! 0%nat = Some "off" <-> m_enable_ibl p = false) /\
  (logged !! 1%nat = Some "on" <-> m_enable_caustics p = true) /\
  (logged !! 1%nat = Some "off" <-> m_enable_caustics p = false) /\
  (logged !! 2%nat = Some "infinite" <-> m_max_path_length p = 2 ^ 64 - 1) /\
  (logged !! 2%nat = Some "infinite" <->
     get_optional_size_t params "max_path_length" 0 = 0 \/
     get_optional_size_t params "max_path_length" 0 = 2 ^ 64 - 1) /\
  (m_max_path_length p <> 2 ^ 64 - 1 ->
     logged !! 2%nat = Some (pretty_uint (m_max_path_length p))) /\
  (logged !! 3%nat = Some "infinite" <-> m_rr_min_path_length p = 2 ^ 64 - 1) /\
  (logged !! 3%nat = Some "infinite" <->
     get_optional_size_t params "rr_min_path_length" 3 = 0 \/
     get_optional_size_t params "rr_min_path_length" 3 = 2 ^ 64 - 1) /\
  (m_rr_min_path_length p <> 2 ^ 64 - 1 ->
     logged !! 3%nat = Some (pretty_uint (m_rr_min_path_length p))).
Proof.
  cbn zeta.
  unfold LightTracingSampleGeneratorFactory.ctor,
    LightTracingSampleGeneratorFactory.create, ctor, print.
  cbn [fst snd log_arguments LightTracingSampleGeneratorFactory.m_params
       m_params].
  set (p := Parameters_ctor get_sampling_context_mode params).
  assert (Hones : SizeT.wrap SizeT.int_not_0 = 2 ^ 64 - 1) by reflexivity.
  rewrite Hones.
  assert (Hlimit : forall x,
            (nz x = 2 ^ 64 - 1 <-> x = 0 \/ x = 2 ^ 64 - 1)).
  { intros x. destruct (nz_zero_or_same x) as [[-> E] | [Hne E]]; rewrite E.
    - rewrite all_ones_value. split; [intros _; left | ]; reflexivity.
    - split; [intros H; right; exact H | intros [H | H]; [contradiction | exact H]]. }
  assert (Hfield : forall x,
            (Some (if x =? 2 ^ 64 - 1 then "infinite" else pretty_uint x)
               = Some "infinite" <-> x = 2 ^ 64 - 1) /\
            (x <> 2 ^ 64 - 1 ->
             Some (if x =? 2 ^ 64 - 1 then "infinite" else pretty_uint x)
               = Some (pretty_uint x))).
  { intros x. destruct (Z.eqb_spec x (2 ^ 64 - 1)) as [E | E].
    - split; [split; [intros _; exact E | reflexivity] | contradiction].
    - split; [| reflexivity].
      split; [| contradiction].
      intros H. injection H as H. exfalso. exact (Hpretty x H). }
  assert (Hflag : forall b : bool,
            (Some (if b then "on" else "off") = Some "on" <-> b = true) /\
            (Some (if b then "on" else "off") = Some "off" <-> b = false)).
  { intros [|]; split; split; intros H; try reflexivity; discriminate. }
  cbn [lookup list_lookup length].
  split; [reflexivity |].
  split; [apply Hflag |]. split; [apply Hflag |].
  split; [apply Hflag |]. split; [apply Hflag |].
  split; [apply Hfield |].
  split; [rewrite (proj1 (Hfield _)); apply Hlimit |].
  split; [apply Hfield |].
  split; [apply Hfield |].
  split; [rewrite (proj1 (Hfield _)); apply Hlimit |].
  apply Hfield.
Qed.

End FactoryProperties.

(** Decimal numerals never read [infinite]. *)
Lemma decimal_not_infinite (n : Z) :
  DecimalString.NilZero.string_of_int (Z.to_int n) <> "infinite".
Proof.
  destruct (Z.to_int n) as [d | d]; [| discriminate].
  destruct d; discriminate.
Qed.

Section FactoryOnLitScene.
#[local] Existing Instance Example.types.
#[local] Existing Instance Example.foundation.
#[local] Existing Instance Example.lit_scene.

Lemma factory_logs_generator_settings_witness :
  let pretty := fun n => DecimalString.NilZero.string_of_int (Z.to_int n) in
  let params : gmap string ParamValue :=
    <["max_path_length" := PVSize 0]>
      (<["rr_min_path_length" := PVSize 8]> ∅) in
  let logged :=
    log_arguments (snd (LightTracingSampleGeneratorFactory.ctor pretty params)) in
  let p :=
    m_params (LightTracingSampleGeneratorFactory.create
                (fst (LightTracingSampleGeneratorFactory.ctor pretty params))
                3 4) in
  logged !! 2%nat = Some "infinite" /\
  logged !! 3%nat = Some (pretty (m_rr_min_path_length p)) /\
  pretty (m_rr_min_path_length p) = "8".
Proof.
  cbn zeta.
  pose proof (factory_logs_generator_settings
                (fun n => DecimalString.NilZero.string_of_int (Z.to_int n))
                decimal_not_infinite
                (<["max_path_length" := PVSize 0]>
                   (<["rr_min_path_length" := PVSize 8]> ∅)) 3 4) as H.
  cbn zeta in H.
  destruct H as (_ & _ & _ & _ & _ & _ & Hmax & _ & _ & _ & Hrr).
  split; [| split].
  - apply Hmax. left. reflexivity.
  - apply Hrr. vm_compute. discriminate.
  - vm_compute. reflexivity.
Defined.

End FactoryOnLitScene.

(** ** The vertex of a non-physical light *)

Section NonPhysicalLightVertex.
Context {Ty : Types} {Fo : Foundation} {Sc : Scene}.

(** X3.  Zero-bounce connection of a non-physical light.  No sample when
    the camera connection fails or when the transmission along the
    segment that starts at [light_vertex - camera_outgoing] is exactly
    zero; in every other case, whatever the direction of the camera (no
    orientation is tested, a point light has no side), exactly one
    sample: at the position the camera gave, at the distance
    [|camera_outgoing|], of radiance [flux * (transmission * importance)]
    with the product taken in single precision.  The sampling context is
    the one the camera connection left. *)
Theorem visit_non_physical_light_vertex_contribution
    (v : PathVisitor.PathVisitor) (sc : SamplingContext)
    (light_vertex : Vector3d) (light_particle_flux : Spectrum)
    (time : Time) :
  let result :=
    PathVisitor.visit_non_physical_light_vertex v sc light_vertex
                                                light_particle_flux time in
  snd result = snd (connect_vertex sc (m_absolute time) light_vertex) /\
  (fst (connect_vertex sc (m_absolute time) light_vertex) = None ->
   fst result = v) /\
  (forall sample_position camera_outgoing importance,
     fst (connect_vertex sc (m_absolute time) light_vertex) =
       Some (sample_position, camera_outgoing, importance) ->
     let transmission :=
       trace_between (V3d.sub light_vertex camera_outgoing) light_vertex
                     time CameraRay 0 in
     let radiance :=
       spectrum_mul_scalar light_particle_flux
                           (F32.mul transmission importance) in
     let linear_rgb :=
       if is_rgb radiance then rgb radiance
       else convert_to_rgb radiance (PathVisitor.m_lighting_conditions v) in
     (F32.eqb transmission F32.zero = true -> fst result = v) /\
     (F32.eqb transmission F32.zero = false ->
      PathVisitor.m_samples (fst result) =
        PathVisitor.m_samples v ++
        [mkSample (V2f.of_2d sample_position)
                  [c_r linear_rgb; c_g linear_rgb; c_b linear_rgb; F32.one;
                   F32.of_double (V3d.norm camera_outgoing)]] /\
      PathVisitor.m_sample_count (fst result) =
        SizeT.incr (PathVisitor.m_sample_count v))) /\
  (exists new,
     PathVisitor.m_samples (fst result) = PathVisitor.m_samples v ++ new /\
     (length new <= 1)%nat).
Proof.
  cbn zeta. unfold PathVisitor.visit_non_physical_light_vertex.
  destruct (connect_vertex sc (m_absolute time) light_vertex)
    as [[[[sample_position camera_outgoing] importance] |] sc1];
    cbn [fst snd].
  - split; [destruct (F32.eqb _ F32.zero); reflexivity |].
    split; [discriminate |].
    split.
    + intros ? ? ? Hc. injection Hc as -> -> ->.
      destruct (F32.eqb _ F32.zero); cbn [fst snd];
        split; intros H; try discriminate; try reflexivity.
      split; reflexivity.
    + destruct (F32.eqb _ F32.zero); cbn [fst snd].
      * exists []. rewrite app_nil_r. split; [reflexivity | cbn; lia].
      * eexists [_]. split; [reflexivity | cbn; lia].
  - split; [reflexivity |]. split; [reflexivity |].
    split; [intros ? ? ? Hc; discriminate |].
    exists []. rewrite app_nil_r. split; [reflexivity | cbn; lia].
Qed.

End NonPhysicalLightVertex.

(** ** The density of the points of the environment disk *)

Section DiskPointProbability.
Context {Ty : Types} {Fo : Foundation} {Sc : Scene}.

Lemma mul_sign_clear (prec emax : Z) (x y : spec_float) :
  sign_clear x = true -> sign_clear y = true ->
  sign_clear (SFmul prec emax x y) = true.
Proof.
  destruct x as [[|]|[|]| |[|] mx ex], y as [[|]|[|]| |[|] my ey];
    cbn; try congruence; intros _ _.
  apply binary_round_aux_sign.
Qed.

Lemma div_sign_clear (prec emax : Z) (x y : spec_float) :
  sign_clear x = true -> sign_clear y = true ->
  sign_clear (SFdiv prec emax x y) = true.
Proof.
  destruct x as [[|]|[|]| |[|] mx ex], y as [[|]|[|]| |[|] my ey];
    cbn -[SFdiv_core_binary]; try congruence; intros _ _.
  destruct (SFdiv_core_binary _ _ _ _ _ _) as [[mz ez] lz].
  apply binary_round_aux_sign.
Qed.

(** X4.  The density [1 / (pi * radius^2)] the constructor computes in
    single precision is never negative and never [-0], whatever the
    radius of the scene (its sign bit is clear, or it is a NaN).  It is
    not always a finite positive number: a radius of zero gives [+inf],
    an infinite radius gives [+0], a NaN gives a NaN. *)
Theorem disk_point_prob_sign
    (generator_index generator_count : Z) (params : gmap string ParamValue) :
  let density :=
    m_disk_point_prob (ctor generator_index generator_count params) in
  sign_clear density = true /\
  not_negative density = true /\
  (forall s, scene_radius = S754_zero s -> density = S754_infinity false) /\
  (forall s, scene_radius = S754_infinity s -> density = S754_zero false) /\
  (scene_radius = S754_nan -> density = S754_nan).
Proof.
  cbn zeta. unfold ctor. cbn [m_disk_point_prob].
  assert (Hsign : sign_clear
            (F32.div F32.one
               (F32.mul F32.pi (square_f (F32.of_double scene_radius))))
          = true).
  { unfold F32.div, F32.mul, square_f.
    apply div_sign_clear; [reflexivity |].
    apply mul_sign_clear; [reflexivity |].
    unfold F32.mul. apply mul_self_sign. }
  split; [exact Hsign |].
  split; [apply sign_clear_not_negative, Hsign |].
  split; [| split].
  - intros s ->. destruct s; reflexivity.
  - intros s ->. destruct s; reflexivity.
  - intros ->. reflexivity.
Qed.

End DiskPointProbability.

(** ** A scene without emitters *)

Section WithoutEmitters.
Context {Ty : Types} {Fo : Foundation} {Sc : Scene}.

(** X5.  Without lights and emitting triangles, and with image-based
    lighting disabled or an environment that has no EDF, a unit of work
    traces nothing: it returns 0, leaves the vector and the path
    statistics as they were, and keeps the configuration.  It still
    clears the arena, counts for one light sample, and stores the state
    of the random number generator of the sampling context it built for
    the sequence index. *)
Theorem generate_samples_without_emitters
    (g : Generator) (sequence_index : Z) (samples : SampleVector)
    (Hlights : has_lights_or_emitting_triangles = false)
    (Henvironment :
       m_enable_ibl (m_params g) = false \/ get_environment_edf = None) :
  let r := generate_samples g sequence_index samples in
  let g' := snd (fst r) in
  fst (fst r) = 0 /\
  snd r = samples /\
  get_statistics g' = get_statistics g /\
  same_configuration g g' /\
  m_base g' = m_base g /\
  m_arena g' = arena_clear (m_arena g) /\
  m_light_sample_count g' = SizeT.incr (m_light_sample_count g) /\
  m_rng g' =
    SamplingContext_rng
      (SamplingContext_ctor (m_rng g) (m_sampling_mode (m_params g))
                            0 sequence_index sequence_index).
Proof.
  cbn zeta. unfold generate_samples. cbn zeta. rewrite Hlights.
  cbn [set_arena m_params].
  destruct Henvironment as [-> | ->];
    [| destruct (m_enable_ibl (m_params g))];
    cbn [fst snd]; repeat split.
Qed.

End WithoutEmitters.

Section OnDarkScene.
#[local] Existing Instance Example.types.
#[local] Existing Instance Example.foundation.
#[local] Existing Instance Example.dark_scene.

Lemma generate_samples_without_emitters_witness :
  let g := Example.generator Example.dark_scene in
  let r := generate_samples g 7 [] in
  fst (fst r) = 0 /\ snd r = [] /\
  m_light_sample_count (snd (fst r)) = 1 /\
  m_path_count (snd (fst r)) = 0.
Proof.
  cbn zeta.
  assert (Hlights : has_lights_or_emitting_triangles = false) by reflexivity.
  assert (Henvironment :
            m_enable_ibl (m_params (Example.generator Example.dark_scene))
              = false \/ get_environment_edf = None)
    by (right; reflexivity).
  destruct (generate_samples_without_emitters
              (Example.generator Example.dark_scene) 7 []
              Hlights Henvironment)
    as (Hcount & Hsamples & _ & _ & _ & _ & Hunits & _).
  split; [exact Hcount |]. split; [exact Hsamples |].
  split; [rewrite Hunits; reflexivity | vm_compute; reflexivity].
Defined.

End OnDarkScene.

(** ** What the callbacks preserve, a unit of work preserves *)

Section VisitorInvariant.
Context {Ty : Types} {Fo : Foundation} {Sc : Scene}.

Variable Q : SampleVector -> Prop.

Hypothesis Harea :
  forall v sc light_sample flux time,
    Q (PathVisitor.m_samples v) ->
    Q (PathVisitor.m_samples
         (fst (PathVisitor.visit_area_light_vertex v sc light_sample flux
                                                   time))).

Hypothesis Hpoint :
  forall v sc light_vertex flux time,
    Q (PathVisitor.m_samples v) ->
    Q (PathVisitor.m_samples
         (fst (PathVisitor.visit_non_physical_light_vertex v sc light_vertex
                                                           flux time))).

Hypothesis Hvertex :
  forall v sc vertex,
    Q (PathVisitor.m_samples v) ->
    Q (PathVisitor.m_samples (fst (PathVisitor.visit_vertex v sc vertex))).

Lemma trace_keeps (pt : PathTracer.PathTracer)
    (v : PathVisitor.PathVisitor) (sc : SamplingContext) (ray : ShadingRay)
    (parent : option ShadingPoint) :
  Q (PathVisitor.m_samples v) ->
  Q (PathVisitor.m_samples (snd (fst (PathTracer.trace pt v sc ray parent)))).
Proof.
  intros Hv. unfold PathTracer.trace.
  apply (walk_invariant (fun v => Q (PathVisitor.m_samples v)));
    [| | exact Hv].
  - intros. now apply Hvertex.
  - intros. assumption.
Qed.

Lemma generate_light_sample_keeps (g : Generator)
    (sc : SamplingContext) (samples : SampleVector) :
  Q samples -> Q (snd (generate_light_sample g sc samples)).
Proof.
  intros Hs. unfold generate_light_sample.
  destruct (next2_Vector4f _) as [s sc1].
  destruct (m_triangle _) as [triangle |].
  - unfold generate_emitting_triangle_sample.
    destruct (next2_Vector2f _) as [s1 sc2].
    destruct (edf_sample _ _ _ _ _ _) as [[[direction value] prob] sc3].
    destruct (next2_float _) as [t sc4].
    match goal with
    | |- context [PathVisitor.visit_area_light_vertex ?v ?c ?l ?f ?tm] =>
        pose proof (Harea v c l f tm Hs) as Hkeep;
        destruct (PathVisitor.visit_area_light_vertex v c l f tm)
          as [pv1 sc5]
    end.
    cbn [fst] in Hkeep.
    match goal with
    | |- context [PathTracer.trace ?pt pv1 ?c ?ray ?parent] =>
        apply (trace_keeps pt pv1 c ray parent) in Hkeep;
        destruct (PathTracer.trace pt pv1 c ray parent) as [[len pv2] sc6]
    end.
    exact Hkeep.
  - unfold generate_non_physical_light_sample.
    destruct (next2_Vector2d _) as [s1 sc2].
    destruct (light_sample_fn _ _ _) as [[[position direction] value] prob].
    destruct (next2_float _) as [t sc3].
    match goal with
    | |- context [PathVisitor.visit_non_physical_light_vertex ?v ?c ?p ?f ?tm] =>
        pose proof (Hpoint v c p f tm Hs) as Hkeep;
        destruct (PathVisitor.visit_non_physical_light_vertex v c p f tm)
          as [pv1 sc4]
    end.
    cbn [fst] in Hkeep.
    match goal with
    | |- context [PathTracer.trace ?pt pv1 ?c ?ray ?parent] =>
        apply (trace_keeps pt pv1 c ray parent) in Hkeep;
        destruct (PathTracer.trace pt pv1 c ray parent) as [[len pv2] sc5]
    end.
    exact Hkeep.
Qed.

Lemma generate_environment_sample_keeps (g : Generator)
    (sc : SamplingContext) (env_edf : EnvironmentEDF)
    (samples : SampleVector) :
  Q samples -> Q (snd (generate_environment_sample g sc env_edf samples)).
Proof.
  intros Hs. unfold generate_environment_sample.
  destruct (next2_Vector2f _) as [s sc1].
  destruct (env_edf_sample _ _) as [[outgoing value] prob].
  destruct (next2_Vector2d _) as [s2 sc2].
  destruct (next2_float _) as [t sc3].
  match goal with
  | |- context [PathTracer.trace ?pt ?v ?c ?ray ?parent] =>
      pose proof (trace_keeps pt v c ray parent Hs) as Hkeep;
      destruct (PathTracer.trace pt v c ray parent) as [[len pv2] sc4]
  end.
  exact Hkeep.
Qed.

Lemma generate_samples_keeps (g : Generator)
    (sequence_index : Z) (samples : SampleVector) :
  Q samples -> Q (snd (generate_samples g sequence_index samples)).
Proof.
  intros Hs. unfold generate_samples. cbn zeta.
  match goal with
  | |- context [SamplingContext_ctor ?a ?b ?c ?d ?e] =>
      generalize (SamplingContext_ctor a b c d e); intros sc0
  end.
  generalize (set_arena g (arena_clear (m_arena g))). intros g0.
  assert (H1 : forall r : Z * Generator * SamplingContext * SampleVector,
            Q (snd r) ->
            Q (snd (let '(n, g1, sc1, samples1) := r in
                    let '(n2, g2, sc2, samples2) :=
                      if m_enable_ibl (m_params g1) then
                        match get_environment_edf with
                        | Some env_edf =>
                            let '(n', g2, sc2, samples2) :=
                              generate_environment_sample g1 sc1 env_edf
                                                          samples1 in
                            (SizeT.add n n', g2, sc2, samples2)
                        | None => (n, g1, sc1, samples1)
                        end
                      else (n, g1, sc1, samples1) in
                    (n2,
                     set_rng (set_light_sample_count g2
                                (SizeT.incr (m_light_sample_count g2)))
                             (SamplingContext_rng sc2),
                     samples2)))).
  { intros [[[n g1] sc1] samples1] Hr. cbn [snd] in Hr.
    destruct (m_enable_ibl (m_params g1)); [| exact Hr].
    destruct get_environment_edf as [env_edf |]; [| exact Hr].
    pose proof (generate_environment_sample_keeps g1 sc1 env_edf
                  samples1 Hr) as He.
    destruct (generate_environment_sample g1 sc1 env_edf samples1)
      as [[[n' g2] sc2] samples2].
    exact He. }
  destruct has_lights_or_emitting_triangles.
  - pose proof (generate_light_sample_keeps g0 sc0 samples Hs) as Hl.
    destruct (generate_light_sample g0 sc0 samples)
      as [[[n g1] sc1] samples1].
    apply (H1 (SizeT.add 0 n, g1, sc1, samples1)). exact Hl.
  - apply (H1 (0, g0, sc0, samples)). exact Hs.
Qed.

End VisitorInvariant.

(** ** The records a unit of work appends *)

Section WellFormedRecords.
Context {Ty : Types} {Fo : Foundation} {Sc : Scene}.

Lemma of_double_sign (x : double) :
  sign_clear x = true -> sign_clear (F32.of_double x) = true.
Proof.
  destruct x as [s | s | | [|] m e]; cbn -[binary_round]; try congruence.
  intros _. apply binary_round_sign.
Qed.

Lemma emit_sample_well_formed (v : PathVisitor.PathVisitor)
    (position_ndc : Vector2d) (distance : double) (radiance : Spectrum) :
  sign_clear distance = true ->
  Forall well_formed_sample (PathVisitor.m_samples v) ->
  Forall well_formed_sample
    (PathVisitor.m_samples
       (PathVisitor.emit_sample v position_ndc distance radiance)).
Proof.
  intros Hd Hv. unfold PathVisitor.emit_sample.
  cbn [PathVisitor.m_samples].
  apply Forall_app. split; [exact Hv |].
  constructor; [| constructor].
  split; [reflexivity |]. split; [reflexivity |].
  eexists. split; [reflexivity |]. now apply of_double_sign.
Qed.

Lemma visit_area_light_vertex_well_formed (v : PathVisitor.PathVisitor)
    (sc : SamplingContext) (light_sample : LightSample) (flux : Spectrum)
    (time : Time) :
  Forall well_formed_sample (PathVisitor.m_samples v) ->
  Forall well_formed_sample
    (PathVisitor.m_samples
       (fst (PathVisitor.visit_area_light_vertex v sc light_sample flux
                                                 time))).
Proof.
  intros Hv. unfold PathVisitor.visit_area_light_vertex.
  destruct (connect_vertex _ _ _) as [[[[p co] imp] |] sc1]; [| exact Hv].
  destruct (F64.leb _ _); [exact Hv |].
  destruct (F32.eqb _ _); [exact Hv |].
  apply emit_sample_well_formed; [apply norm_sign | exact Hv].
Qed.

Lemma visit_non_physical_light_vertex_well_formed
    (v : PathVisitor.PathVisitor) (sc : SamplingContext)
    (light_vertex : Vector3d) (flux : Spectrum) (time : Time) :
  Forall well_formed_sample (PathVisitor.m_samples v) ->
  Forall well_formed_sample
    (PathVisitor.m_samples
       (fst (PathVisitor.visit_non_physical_light_vertex v sc light_vertex
                                                         flux time))).
Proof.
  intros Hv. unfold PathVisitor.visit_non_physical_light_vertex.
  destruct (connect_vertex _ _ _) as [[[[p co] imp] |] sc1]; [| exact Hv].
  destruct (F32.eqb _ _); [exact Hv |].
  apply emit_sample_well_formed; [apply norm_sign | exact Hv].
Qed.

Lemma visit_vertex_well_formed (v : PathVisitor.PathVisitor)
    (sc : SamplingContext) (vertex : PathVertex) :
  Forall well_formed_sample (PathVisitor.m_samples v) ->
  Forall well_formed_sample
    (PathVisitor.m_samples (fst (PathVisitor.visit_vertex v sc vertex))).
Proof.
  intros Hv. unfold PathVisitor.visit_vertex.
  destruct (m_bsdf vertex) as [bsdf |]; [| exact Hv].
  destruct (connect_vertex _ _ _) as [[[[p co] imp] |] sc1]; [| exact Hv].
  destruct (F64.leb _ _); [exact Hv |].
  destruct (F32.eqb _ _); [exact Hv |].
  destruct (bsdf_evaluate _ _ _ _ _ _ _ _ _) as [bsdf_prob bsdf_value].
  destruct (F32.eqb _ _); [exact Hv |].
  apply emit_sample_well_formed; [apply norm_sign | exact Hv].
Qed.

Lemma generate_samples_keeps_well_formed (g : Generator)
    (sequence_index : Z) (samples : SampleVector) :
  Forall well_formed_sample samples ->
  Forall well_formed_sample (snd (generate_samples g sequence_index samples)).
Proof.
  apply generate_samples_keeps.
  - apply visit_area_light_vertex_well_formed.
  - apply visit_non_physical_light_vertex_well_formed.
  - apply visit_vertex_well_formed.
Qed.

(** X6.  Every record a unit of work appends has five channels, alpha
    [1.0f] in [m_values[3]], and in [m_values[4]] a distance to the
    camera whose sign bit is clear: a positive number, [+0] or [+inf],
    or a NaN, never a negative number and never [-0] (it is the length
    of the vector to the camera, rounded to single precision).  Records
    that satisfy this on entry are left as they are. *)
Theorem generate_samples_appends_well_formed_records
    (g : Generator) (sequence_index : Z) (samples : SampleVector) :
  exists new,
    snd (generate_samples g sequence_index samples) = samples ++ new /\
    Forall well_formed_sample new /\
    forall s, s ∈ new ->
      length (m_values s) = 5%nat /\
      m_values s !! 3%nat = Some F32.one /\
      exists distance,
        m_values s !! 4%nat = Some distance /\
        F32.ltb distance F32.zero = false /\
        distance <> S754_zero true.
Proof.
  destruct (generate_samples_shape g sequence_index)
    as (n & new & rng' & _ & _ & Hrun).
  exists new.
  destruct (Hrun g samples (same_configuration_refl g) eq_refl)
    as (g1 & -> & _).
  destruct (Hrun g [] (same_configuration_refl g) eq_refl)
    as (g2 & Hnew & _).
  assert (Hwf : Forall well_formed_sample
                  (snd (generate_samples g sequence_index [])))
    by (apply generate_samples_keeps_well_formed; constructor).
  rewrite Hnew in Hwf. cbn [snd app] in Hwf.
  split; [reflexivity |]. split; [exact Hwf |].
  intros s Hs.
  rewrite Forall_forall in Hwf. destruct (Hwf s Hs) as (Hlen & Halpha & d & Hd & Hsign).
  split; [exact Hlen |]. split; [exact Halpha |].
  exists d. split; [exact Hd |].
  destruct d as [[|] | [|] | | [|] m e]; cbn in Hsign; try discriminate;
    split; (reflexivity || discriminate).
Qed.

End WellFormedRecords.

(** ** Path statistics *)

Section PathStatistics.
Context {Ty : Types} {Fo : Foundation} {Sc : Scene}.

Lemma iter_incr_wrap (k : nat) (x : Z) :
  Nat.iter k SizeT.incr (SizeT.wrap x) = SizeT.wrap (x + Z.of_nat k).
Proof.
  induction k as [| k IH].
  - cbn. now rewrite Z.add_0_r.
  - change (Nat.iter (Datatypes.S k) SizeT.incr (SizeT.wrap x))
      with (SizeT.incr (Nat.iter k SizeT.incr (SizeT.wrap x))).
    rewrite IH, incr_wrap. f_equal. lia.
Qed.

Lemma adds_paths_nil (g g' : Generator) :
  m_path_count g' = m_path_count g ->
  m_path_length g' = m_path_length g ->
  adds_paths [] g g'.
Proof. intros Hc Hl. split; cbn; assumption. Qed.

Lemma adds_paths_app (lens1 lens2 : list Z) (g1 g2 g3 : Generator) :
  adds_paths lens1 g1 g2 -> adds_paths lens2 g2 g3 ->
  adds_paths (lens1 ++ lens2) g1 g3.
Proof.
  intros [Hc1 Hl1] [Hc2 Hl2]. split.
  - rewrite Hc2, Hc1, length_app, Nat.add_comm. symmetry. apply Nat.iter_add.
  - rewrite Hl2, Hl1, fold_left_app. reflexivity.
Qed.

Lemma adds_paths_update (g : Generator) (path_length : Z) :
  adds_paths [path_length] g (update_path_statistics g path_length).
Proof. split; reflexivity. Qed.

(** A unit of work keeps the configuration and adds one path for each
    particle it traces. *)
Lemma generate_samples_adds_paths
    (g : Generator) (sequence_index : Z) (samples : SampleVector) :
  let g' := snd (fst (generate_samples g sequence_index samples)) in
  same_configuration g g' /\
  exists lens,
    Z.of_nat (length lens) = particles_per_unit (m_params g) /\
    adds_paths lens g g'.
Proof.
  cbn zeta. split.
  { destruct (generate_samples_shape g sequence_index)
      as (n & new & rng' & _ & _ & Hrun).
    destruct (Hrun g samples (same_configuration_refl g) eq_refl)
      as (g'' & -> & _ & Hcfg & _).
    exact Hcfg. }
  unfold generate_samples, particles_per_unit. cbn zeta.
  match goal with
  | |- context [SamplingContext_ctor ?a ?b ?c ?d ?e] =>
      generalize (SamplingContext_ctor a b c d e); intros sc0
  end.
  pose (g0 := set_arena g (arena_clear (m_arena g))).
  assert (H0 : adds_paths [] g g0) by (now apply adds_paths_nil).
  assert (Hp0 : m_params g0 = m_params g) by reflexivity.
  change (set_arena g (arena_clear (m_arena g))) with g0.
  clearbody g0.
  assert (Hfinish : forall lens g2 sc2,
            adds_paths lens g g2 ->
            adds_paths lens g
              (set_rng (set_light_sample_count g2
                          (SizeT.incr (m_light_sample_count g2)))
                       (SamplingContext_rng sc2))).
  { intros lens g2 sc2 H. exact H. }
  assert (Henvironment : forall lens n1 g1 sc1 samples1,
            adds_paths lens g g1 -> m_params g1 = m_params g ->
            exists more,
              Z.of_nat (length more) =
                Z.b2z (m_enable_ibl (m_params g) &&
                       bool_decide (is_Some get_environment_edf)) /\
              adds_paths (lens ++ more) g
                (snd (fst
                   (let '(n2, g2, sc2, samples2) :=
                      if m_enable_ibl (m_params g1) then
                        match get_environment_edf with
                        | Some env_edf =>
                            let '(n', g2, sc2, samples2) :=
                              generate_environment_sample g1 sc1 env_edf
                                                          samples1 in
                            (SizeT.add n1 n', g2, sc2, samples2)
                        | None => (n1, g1, sc1, samples1)
                        end
                      else (n1, g1, sc1, samples1) in
                    (n2,
                     set_rng (set_light_sample_count g2
                                (SizeT.incr (m_light_sample_count g2)))
                             (SamplingContext_rng sc2),
                     samples2))))).
  { intros lens n1 g1 sc1 samples1 H1 Hp1. rewrite Hp1.
    destruct (m_enable_ibl (m_params g));
      [destruct get_environment_edf as [env_edf |] |].
    - destruct (particle_frame_elim _
                  (generate_environment_sample_frame sc1 env_edf) g1)
        as (n2 & sc2 & new2 & _ & _ & Hrun2).
      destruct (Hrun2 g1 samples1 (same_configuration_refl g1)) as [len2 ->].
      exists [len2]. split; [reflexivity |]. cbn [fst snd].
      apply Hfinish. eapply adds_paths_app; [exact H1 |].
      apply adds_paths_update.
    - exists []. split; [reflexivity |]. cbn [fst snd].
      rewrite app_nil_r. apply Hfinish, H1.
    - exists []. split; [reflexivity |]. cbn [fst snd].
      rewrite app_nil_r. apply Hfinish, H1. }
  destruct has_lights_or_emitting_triangles.
  - destruct (particle_frame_elim _ (generate_light_sample_frame sc0) g0)
      as (n1 & sc1 & new1 & _ & _ & Hrun1).
    destruct (Hrun1 g0 samples (same_configuration_refl g0)) as [len1 ->].
    destruct (Henvironment ([] ++ [len1]) (SizeT.add 0 n1)
                (update_path_statistics g0 len1) sc1 (samples ++ new1))
      as (more & Hmore & Hadds).
    { eapply adds_paths_app; [exact H0 | apply adds_paths_update]. }
    { exact Hp0. }
    exists (([] ++ [len1]) ++ more). split; [| exact Hadds].
    rewrite length_app, Nat2Z.inj_add, Hmore. reflexivity.
  - destruct (Henvironment [] 0 g0 sc0 samples H0 Hp0)
      as (more & Hmore & Hadds).
    exists ([] ++ more). split; [| exact Hadds].
    cbn [app]. rewrite Hmore. reflexivity.
Qed.

(** What the units of work preserve, and the base class's bookkeeping
    does not touch, a batch preserves. *)
Lemma run_batch_invariant (P : Generator -> Prop)
    (Hunit : forall g sequence_index samples,
        P g -> P (snd (fst (generate_samples g sequence_index samples))))
    (Hbase : forall g base, P g -> P (set_base g base))
    (driver : BatchDriver) :
  forall g samples units,
    P g -> P (fst (fst (run_batch driver g samples units))).
Proof.
  induction driver as [base report | sequence_index k IH];
    intros g samples units Hg; cbn [run_batch].
  - cbn [fst]. apply Hbase, Hg.
  - specialize (Hunit g sequence_index samples Hg).
    destruct (generate_samples g sequence_index samples)
      as [[count g1] samples1].
    cbn [fst snd] in Hunit. apply IH, Hunit.
Qed.

(** The units of work of a batch add their paths one after the other. *)
Lemma run_batch_adds_paths (driver : BatchDriver) :
  forall (g : Generator) (samples : SampleVector) (units : list Z),
    let r := run_batch driver g samples units in
    same_configuration g (fst (fst r)) /\
    exists more lens,
      snd r = units ++ more /\
      Z.of_nat (length lens) =
        Z.of_nat (length more) * particles_per_unit (m_params g) /\
      adds_paths lens g (fst (fst r)).
Proof.
  induction driver as [base report | sequence_index k IH];
    intros g samples units; cbn [run_batch]; cbn zeta.
  - split; [repeat split |].
    exists [], []. rewrite app_nil_r. cbn [fst snd].
    split; [reflexivity |]. split; [reflexivity |].
    now apply adds_paths_nil.
  - pose proof (generate_samples_adds_paths g sequence_index samples)
      as [Hcfg (lens1 & Hlen1 & Hadds1)].
    destruct (generate_samples g sequence_index samples)
      as [[count g1] samples1].
    cbn [fst snd] in Hcfg, Hadds1.
    destruct (IH count g1 samples1 (units ++ [sequence_index]))
      as [Hcfg2 (more & lens2 & Hunits & Hlen2 & Hadds2)].
    split; [eapply same_configuration_trans; eassumption |].
    exists (sequence_index :: more), (lens1 ++ lens2).
    split; [rewrite Hunits, <- app_assoc; reflexivity |].
    split.
    + assert (Hp : m_params g1 = m_params g) by (symmetry; apply Hcfg).
      rewrite Hp in Hlen2.
      rewrite length_app, Nat2Z.inj_add, Hlen1, Hlen2. cbn [length]. lia.
    + eapply adds_paths_app; eassumption.
Qed.

(** X7.  The statistics after a unit of work are those before it with
    one path counted, and one length inserted in the population, for
    each particle traced: one for the lights when the scene has any,
    one for the environment when image-based lighting is enabled and
    the environment has an EDF.  The title and the two entries are
    always the same. *)
Theorem generate_samples_statistics
    (g : Generator) (sequence_index : Z) (samples : SampleVector) :
  exists lens,
    Z.of_nat (length lens) = particles_per_unit (m_params g) /\
    get_statistics (snd (fst (generate_samples g sequence_index samples))) =
      mkStatisticsVector "light tracing statistics"
        [("path count",
          CounterValue (Nat.iter (length lens) SizeT.incr (m_path_count g)));
         ("path length",
          PopulationValue
            (fold_left population_insert lens (m_path_length g)))].
Proof.
  destruct (generate_samples_adds_paths g sequence_index samples)
    as [_ (lens & Hlen & Hcount & Hpopulation)].
  exists lens. split; [exact Hlen |].
  unfold get_statistics. cbn zeta. rewrite Hcount, Hpopulation. reflexivity.
Qed.

(** X8.  A batch does not start the path statistics afresh, although it
    restarts the light sample counter from 0: after it the statistics
    are those before it with the paths of all its units of work added,
    [units * particles per unit] of them.  Nor does [reset] touch the
    statistics. *)
Theorem generate_samples_batch_statistics
    (g : Generator) (sample_count : Z) (buffer : SampleAccumulationBuffer)
    (abort_switch : AbortSwitch) :
  let units :=
    snd (SampleGeneratorBase_generate_samples (set_light_sample_count g 0)
           sample_count buffer abort_switch) in
  let g' := fst (generate_samples_batch g sample_count buffer abort_switch) in
  (exists lens,
     Z.of_nat (length lens) =
       Z.of_nat (length units) * particles_per_unit (m_params g) /\
     get_statistics g' =
       mkStatisticsVector "light tracing statistics"
         [("path count",
           CounterValue (Nat.iter (length lens) SizeT.incr (m_path_count g)));
          ("path length",
           PopulationValue
             (fold_left population_insert lens (m_path_length g)))]) /\
  m_light_sample_count g' = SizeT.wrap (Z.of_nat (length units)) /\
  get_statistics (reset g) = get_statistics g /\
  m_light_sample_count (reset g) = m_light_sample_count g.
Proof.
  cbn zeta.
  unfold generate_samples_batch, SampleGeneratorBase_generate_samples.
  pose proof (run_batch_adds_paths
                (SampleGeneratorBase_driver
                   (m_base (set_light_sample_count g 0)) sample_count
                   abort_switch)
                (set_light_sample_count g 0) [] []) as Hpaths.
  pose proof (run_batch_counts
                (SampleGeneratorBase_driver
                   (m_base (set_light_sample_count g 0)) sample_count
                   abort_switch)
                (set_light_sample_count g 0) [] [] 0 eq_refl) as Hcounts.
  cbn zeta in Hpaths, Hcounts.
  destruct (run_batch _ _ _ _) as [[g1 calls] units].
  cbn [fst snd] in *.
  destruct Hpaths as [_ (more & lens & Hunits & Hlen & Hcount & Hpopulation)].
  destruct Hcounts as (more' & Hunits' & Hlight).
  cbn [app] in Hunits, Hunits'. subst more more'.
  rewrite Z.add_0_l in Hlight.
  split; [| split; [exact Hlight | split; reflexivity]].
  exists lens. split; [exact Hlen |].
  unfold get_statistics. cbn zeta. rewrite Hcount, Hpopulation. reflexivity.
Qed.

End PathStatistics.

(** ** The life of a generator *)

Section Lifetime.
Context {Ty : Types} {Fo : Foundation} {Sc : Scene}.

Lemma ctor_configuration (generator_index generator_count : Z)
    (generator_index' generator_count' : Z)
    (params : gmap string ParamValue) :
  same_configuration (ctor generator_index generator_count params)
                     (ctor generator_index' generator_count' params).
Proof. repeat split. Qed.

(** What holds of every generator, however it has been used. *)
Lemma reachable_invariant (params : gmap string ParamValue) (g : Generator) :
  reachable params g ->
  same_configuration (ctor 0 0 params) g /\
  SizeT.in_range (m_light_sample_count g) /\
  exists lens,
    m_path_count g = SizeT.wrap (Z.of_nat (length lens)) /\
    m_path_length g = fold_left population_insert lens Population_ctor.
Proof.
  induction 1 as [generator_index generator_count
                 | g sequence_index samples Hg (Hcfg & Hlight & lens & Hc & Hl)
                 | g sample_count buffer abort_switch Hg
                     (Hcfg & Hlight & lens & Hc & Hl)
                 | g Hg (Hcfg & Hlight & lens & Hc & Hl)].
  - split; [apply ctor_configuration |].
    split; [split; [cbn; lia | reflexivity] |].
    exists []. split; reflexivity.
  - pose proof (generate_samples_adds_paths g sequence_index samples)
      as [Hcfg' (more & _ & Hc' & Hl')].
    pose proof (generate_samples_counts_one g sequence_index samples)
      as [Hone _].
    cbn zeta in *.
    split; [eapply same_configuration_trans; eassumption |].
    split; [rewrite Hone; apply wrap_in_range |].
    exists (lens ++ more). split.
    + rewrite Hc', Hc, iter_incr_wrap, length_app. f_equal. lia.
    + rewrite Hl', Hl, fold_left_app. reflexivity.
  - unfold generate_samples_batch, SampleGeneratorBase_generate_samples.
    pose proof (run_batch_adds_paths
                  (SampleGeneratorBase_driver
                     (m_base (set_light_sample_count g 0)) sample_count
                     abort_switch)
                  (set_light_sample_count g 0) [] []) as Hpaths.
    pose proof (run_batch_counts
                  (SampleGeneratorBase_driver
                     (m_base (set_light_sample_count g 0)) sample_count
                     abort_switch)
                  (set_light_sample_count g 0) [] [] 0 eq_refl) as Hcounts.
    cbn zeta in Hpaths, Hcounts.
    destruct (run_batch _ _ _ _) as [[g1 calls] units].
    cbn [fst snd] in *.
    destruct Hpaths as [Hcfg' (more & lens' & _ & _ & Hc' & Hl')].
    destruct Hcounts as (more' & _ & Hlight').
    split; [eapply same_configuration_trans; [exact Hcfg | exact Hcfg'] |].
    split; [rewrite Hlight'; apply wrap_in_range |].
    exists (lens ++ lens'). split.
    + rewrite Hc'. cbn [set_light_sample_count m_path_count].
      rewrite Hc, iter_incr_wrap, length_app. f_equal. lia.
    + rewrite Hl'. cbn [set_light_sample_count m_path_length].
      rewrite Hl, fold_left_app. reflexivity.
  - split; [exact Hcfg |]. split; [exact Hlight |].
    exists lens. split; assumption.
Qed.

(** X9.  However a generator has been used since the factory created
    it (units of work, batches and resets in any order), it still has
    the parameters and the scene data it was constructed with, its
    light sample counter is a value of [uint64], and its statistics
    count exactly as many paths, modulo [2^64], as lengths were inserted
    in the population since its construction. *)
Theorem generator_lifetime_invariants
    (params : gmap string ParamValue) (g : Generator)
    (Hreachable : reachable params g) :
  m_params g = Parameters_ctor get_sampling_context_mode params /\
  (forall generator_index generator_count,
     same_configuration
       (LightTracingSampleGeneratorFactory.create
          (LightTracingSampleGeneratorFactory.mkFactory params)
          generator_index generator_count) g) /\
  0 <= m_light_sample_count g < 2 ^ 64 /\
  exists lens,
    get_statistics g =
      mkStatisticsVector "light tracing statistics"
        [("path count", CounterValue (SizeT.wrap (Z.of_nat (length lens))));
         ("path length",
          PopulationValue
            (fold_left population_insert lens Population_ctor))].
Proof.
  destruct (reachable_invariant params g Hreachable)
    as (Hcfg & Hlight & lens & Hc & Hl).
  split; [symmetry; apply Hcfg |].
  split.
  { intros generator_index generator_count.
    eapply same_configuration_trans; [| exact Hcfg].
    apply ctor_configuration. }
  split; [exact Hlight |].
  exists lens. unfold get_statistics. cbn zeta. rewrite Hc, Hl. reflexivity.
Qed.

(** X10.  [reset] makes a used generator reproduce a new one.  Whatever
    a generator has been through, after [reset] a unit of work returns
    the count and appends the records that the same unit of work
    returns and appends on a generator that the factory has just
    created, with any index, and leaves the random number generator in
    the same state. *)
Theorem reset_reproduces_new_generator
    (params : gmap string ParamValue) (g : Generator)
    (Hreachable : reachable params g)
    (generator_index generator_count sequence_index : Z)
    (samples : SampleVector) :
  let fresh :=
    generate_samples (ctor generator_index generator_count params)
                     sequence_index [] in
  let again := generate_samples (reset g) sequence_index samples in
  fst (fst again) = fst (fst fresh) /\
  snd again = samples ++ snd fresh /\
  m_rng (snd (fst again)) = m_rng (snd (fst fresh)).
Proof.
  cbn zeta.
  destruct (reachable_invariant params g Hreachable) as (Hcfg & _).
  destruct (generate_samples_shape
              (ctor generator_index generator_count params) sequence_index)
    as (n & new & rng' & _ & _ & Hrun).
  destruct (Hrun (ctor generator_index generator_count params) []
              (same_configuration_refl _) eq_refl)
    as (g1 & -> & Hrng1 & _).
  destruct (Hrun (reset g) samples) as (g2 & -> & Hrng2 & _).
  { eapply same_configuration_trans; [apply ctor_configuration |].
    exact Hcfg. }
  { reflexivity. }
  cbn [fst snd app]. split; [reflexivity |]. split; [reflexivity |].
  congruence.
Qed.

End Lifetime.

Section LifetimeOnLitScene.
#[local] Existing Instance Example.types.
#[local] Existing Instance Example.foundation.
#[local] Existing Instance Example.lit_scene.

Lemma generator_lifetime_invariants_witness :
  let g :=
    reset (snd (fst (generate_samples (Example.generator Example.lit_scene)
                                      0 []))) in
  reachable ∅ g /\
  m_params g = Parameters_ctor get_sampling_context_mode ∅ /\
  0 <= m_light_sample_count g < 2 ^ 64.
Proof.
  cbn zeta.
  assert (Hreachable :
            reachable ∅
              (reset (snd (fst (generate_samples
                                  (Example.generator Example.lit_scene)
                                  0 []))))).
  { apply reachable_reset, reachable_unit. apply (reachable_ctor ∅ 0 1). }
  split; [exact Hreachable |].
  destruct (generator_lifetime_invariants ∅ _ Hreachable)
    as (Hparams & _ & Hlight & _).
  split; [exact Hparams | exact Hlight].
Defined.

Lemma reset_reproduces_new_generator_witness :
  let used :=
    snd (fst (generate_samples (Example.generator Example.lit_scene) 5 [])) in
  reachable ∅ used /\
  snd (generate_samples (reset used) 0 []) =
    snd (generate_samples (ctor 2 4 ∅) 0 []) /\
  snd (generate_samples (reset used) 0 []) <> [].
Proof.
  cbn zeta.
  assert (Hreachable :
            reachable ∅
              (snd (fst (generate_samples
                           (Example.generator Example.lit_scene) 5 [])))).
  { apply reachable_unit. apply (reachable_ctor ∅ 0 1). }
  split; [exact Hreachable |].
  destruct (reset_reproduces_new_generator ∅ _ Hreachable 2 4 0 [])
    as (_ & Hsamples & _).
  split; [exact Hsamples |].
  vm_compute. discriminate.
Defined.

End LifetimeOnLitScene.

(** ** A scene the camera does not see *)

Section Unseen.
Context {Ty : Types} {Fo : Foundation} {Sc : Scene}.

(** X11.  When no vertex can be connected to the camera, or when the
    transmission between a vertex and the camera is always exactly
    zero, a unit of work appends no record and returns 0; the particles
    are traced all the same: their paths are counted and the unit of
    work counts for one light sample. *)
Theorem generate_samples_unseen
    (g : Generator) (sequence_index : Z) (samples : SampleVector)
    (Hunseen :
       (forall sc time point, fst (connect_vertex sc time point) = None) \/
       (forall origin target time visibility depth,
          F32.eqb (trace_between origin target time visibility depth)
                  F32.zero = true)) :
  let r := generate_samples g sequence_index samples in
  fst (fst r) = 0 /\
  snd r = samples /\
  m_path_count (snd (fst r)) =
    Nat.iter (Z.to_nat (particles_per_unit (m_params g)))
             SizeT.incr (m_path_count g) /\
  m_light_sample_count (snd (fst r)) = SizeT.incr (m_light_sample_count g).
Proof.
  cbn zeta.
  assert (Hnone : snd (generate_samples g sequence_index []) = []).
  { apply (generate_samples_keeps (fun s => s = [])); [| | | reflexivity].
    - intros v sc light_sample flux time Hv.
      unfold PathVisitor.visit_area_light_vertex.
      destruct (connect_vertex sc (m_absolute time) (m_point light_sample))
        as [[[[p co] imp] |] sc1] eqn:Hc; [| exact Hv].
      destruct (F64.leb _ _); [exact Hv |].
      destruct Hunseen as [Hcamera | Htracer].
      + pose proof (Hcamera sc (m_absolute time) (m_point light_sample)) as H.
        rewrite Hc in H. discriminate.
      + rewrite Htracer. exact Hv.
    - intros v sc light_vertex flux time Hv.
      unfold PathVisitor.visit_non_physical_light_vertex.
      destruct (connect_vertex sc (m_absolute time) light_vertex)
        as [[[[p co] imp] |] sc1] eqn:Hc; [| exact Hv].
      destruct Hunseen as [Hcamera | Htracer].
      + pose proof (Hcamera sc (m_absolute time) light_vertex) as H.
        rewrite Hc in H. discriminate.
      + rewrite Htracer. exact Hv.
    - intros v sc vertex Hv.
      unfold PathVisitor.visit_vertex.
      destruct (m_bsdf vertex) as [bsdf |]; [| exact Hv].
      destruct (connect_vertex sc (m_absolute (get_time vertex))
                               (get_point vertex))
        as [[[[p co] imp] |] sc1] eqn:Hc; [| exact Hv].
      destruct (F64.leb _ _); [exact Hv |].
      destruct Hunseen as [Hcamera | Htracer].
      + pose proof (Hcamera sc (m_absolute (get_time vertex))
                            (get_point vertex)) as H.
        rewrite Hc in H. discriminate.
      + rewrite Htracer. exact Hv. }
  destruct (generate_samples_shape g sequence_index)
    as (n & new & rng' & Hn & _ & Hrun).
  destruct (Hrun g [] (same_configuration_refl g) eq_refl) as (g0 & H0 & _).
  rewrite H0 in Hnone. cbn [snd app] in Hnone. subst new.
  destruct (Hrun g samples (same_configuration_refl g) eq_refl)
    as (g1 & -> & _ & _ & _ & _ & Hlight & Hpaths).
  cbn [fst snd]. rewrite app_nil_r.
  split; [exact Hn |]. split; [reflexivity |]. split; assumption.
Qed.

End Unseen.

Section OnOccludedScene.
#[local] Existing Instance Example.types.
#[local] Existing Instance Example.foundation.
#[local] Existing Instance Example.occluded_scene.

Lemma generate_samples_unseen_witness :
  let r := generate_samples (Example.generator Example.occluded_scene) 3 [] in
  fst (fst r) = 0 /\ snd r = [] /\ m_path_count (snd (fst r)) = 2.
Proof.
  cbn zeta.
  assert (Hunseen :
            (forall sc time point,
               fst (connect_vertex sc time point) = None) \/
            (forall origin target time visibility depth,
               F32.eqb (trace_between origin target time visibility depth)
                       F32.zero = true))
    by (right; intros; reflexivity).
  destruct (generate_samples_unseen
              (Example.generator Example.occluded_scene) 3 [] Hunseen)
    as (Hcount & Hsamples & Hpaths & _).
  split; [exact Hcount |]. split; [exact Hsamples |].
  rewrite Hpaths. reflexivity.
Defined.

End OnOccludedScene.

(** ** Transmissions that are not numbers *)

Section NotANumber.
Context {Ty : Types} {Fo : Foundation} {Sc : Scene}.

Lemma mul_nan_l (prec emax : Z) (y : spec_float) :
  SFmul prec emax S754_nan y = S754_nan.
Proof. reflexivity. Qed.

Lemma mul_nan_r (prec emax : Z) (x : spec_float) :
  SFmul prec emax x S754_nan = S754_nan.
Proof. destruct x; reflexivity. Qed.

Lemma is_nan_eq (x : spec_float) : is_nan x = true -> x = S754_nan.
Proof. destruct x; cbn; congruence. Qed.

(** X12.  The occlusion test [transmission == 0.0f] does not stop a
    transmission that is a NaN: for a vertex that passes the orientation
    test, [emit_sample] is then called with a radiance that is the flux
    scaled by a NaN.  Likewise the test [cos_alpha <= 0.0] of an area
    light vertex does not reject a cosine that is a NaN. *)
Theorem nan_transmission_is_not_occlusion
    (v : PathVisitor.PathVisitor) (sc sc' : SamplingContext)
    (sample_position : Vector2d) (camera_outgoing : Vector3d)
    (importance : float) :
  (forall light_vertex flux time,
     connect_vertex sc (m_absolute time) light_vertex =
       (Some (sample_position, camera_outgoing, importance), sc') ->
     is_nan (trace_between (V3d.sub light_vertex camera_outgoing)
                           light_vertex time CameraRay 0) = true ->
     PathVisitor.visit_non_physical_light_vertex v sc light_vertex flux time =
       (PathVisitor.emit_sample v sample_position (V3d.norm camera_outgoing)
          (spectrum_mul_scalar flux S754_nan), sc')) /\
  (forall light_sample flux time,
     connect_vertex sc (m_absolute time) (m_point light_sample) =
       (Some (sample_position, camera_outgoing, importance), sc') ->
     let cos_alpha :=
       V3d.dot (V3d.neg camera_outgoing) (m_shading_normal light_sample) in
     let transmission :=
       trace_between (V3d.sub (m_point light_sample) camera_outgoing)
                     (m_point light_sample) time CameraRay 0 in
     (is_nan cos_alpha = true /\ F32.eqb transmission F32.zero = false) \/
     (F64.leb cos_alpha F64.zero = false /\ is_nan transmission = true) ->
     PathVisitor.visit_area_light_vertex v sc light_sample flux time =
       (PathVisitor.emit_sample v sample_position (V3d.norm camera_outgoing)
          (spectrum_mul_scalar flux S754_nan), sc')) /\
  (forall vertex bsdf,
     m_bsdf vertex = Some bsdf ->
     connect_vertex sc (m_absolute (get_time vertex)) (get_point vertex) =
       (Some (sample_position, camera_outgoing, importance), sc') ->
     let evaluation :=
       bsdf_evaluate bsdf (m_bsdf_data vertex) true true
         (V3f.of_3d (V3d.flip_to_same_hemisphere
                       (get_geometric_normal vertex)
                       (get_shading_normal vertex)))
         (Basis3f_of_3d (get_shading_basis vertex))
         (V3f.of_3d (m_outgoing vertex))
         (V3f.neg (V3f.of_3d (V3d.div camera_outgoing
                                      (V3d.norm camera_outgoing))))
         ScatteringMode.All in
     F64.leb F64.zero
       (V3d.dot camera_outgoing (get_shading_normal vertex)) = false ->
     is_nan (trace_between (V3d.sub (get_point vertex) camera_outgoing)
               (get_point vertex) (get_time vertex) CameraRay
               (DepthType_cast (Renderer.m_path_length vertex))) = true ->
     F32.eqb (fst evaluation) F32.zero = false ->
     PathVisitor.visit_vertex v sc vertex =
       (PathVisitor.emit_sample v sample_position (V3d.norm camera_outgoing)
          (spectrum_mul_scalar
             (spectrum_mul
                (spectrum_mul (PathVisitor.m_initial_flux v)
                              (m_throughput vertex))
                (snd evaluation))
             S754_nan), sc')).
Proof.
  split; [| split].
  - intros light_vertex flux time Hc Hnan.
    unfold PathVisitor.visit_non_physical_light_vertex. rewrite Hc.
    apply is_nan_eq in Hnan. rewrite Hnan. reflexivity.
  - intros light_sample flux time Hc. cbn zeta.
    unfold PathVisitor.visit_area_light_vertex. rewrite Hc.
    intros [[Hnan Ht] | [Hcos Hnan]].
    + apply is_nan_eq in Hnan. rewrite Hnan, Ht.
      change (F64.leb S754_nan F64.zero) with false. cbv iota.
      unfold F64.div, F64.mul.
      change (SFdiv F64.prec F64.emax S754_nan (V3d.norm camera_outgoing))
        with S754_nan.
      rewrite mul_nan_r, mul_nan_l. reflexivity.
    + apply is_nan_eq in Hnan. rewrite Hnan, Hcos.
      change (F32.eqb S754_nan F32.zero) with false. cbv iota.
      reflexivity.
  - intros vertex bsdf Hb Hc. cbn zeta. intros Hfacing Hnan Hprob.
    unfold PathVisitor.visit_vertex. rewrite Hb, Hc, Hfacing.
    apply is_nan_eq in Hnan. rewrite Hnan.
    change (F32.eqb S754_nan F32.zero) with false. cbv iota.
    destruct (bsdf_evaluate _ _ _ _ _ _ _ _ _) as [bsdf_prob bsdf_value].
    cbn [fst snd] in *. rewrite Hprob. reflexivity.
Qed.

End NotANumber.

Section OnNaNScene.
#[local] Existing Instance Example.types.
#[local] Existing Instance Example.foundation.
#[local] Existing Instance Example.nan_scene.

Lemma nan_transmission_is_not_occlusion_witness :
  let v := Example.visitor Example.nan_scene in
  PathVisitor.m_samples
    (fst (PathVisitor.visit_non_physical_light_vertex
            v 0 Example.origin (Example.gray F32.one) Example.noon)) =
  [mkSample (V2f.of_2d Example.zero2)
            [S754_nan; S754_nan; S754_nan; F32.one; F32.one]].
Proof.
  cbn zeta.
  destruct (nan_transmission_is_not_occlusion
              (Example.visitor Example.nan_scene) 0 1
              Example.zero2 Example.down F32.one) as (Hpoint & _ & _).
  rewrite (Hpoint Example.origin (Example.gray F32.one) Example.noon
                  eq_refl eq_refl).
  vm_compute. reflexivity.
Defined.

End OnNaNScene.
